(** * Personal-Data-Assistant: the ingestion, caching and answering core

    A shallow embedding of [server.py] and [chatbot/worker.py], and the
    properties of the specification that are settled against it.

    Conventions.  Python [int] is [Z]; [str] is a Rocq [string] holding the
    UTF-8 bytes of the text; [bytes] is [list byte]; a [dict] the program
    builds is a [gmap string _], one decoded from JSON keeps its items in
    order; [None]-or-value is [option].  The module
    globals of [worker.py] and the part of the file system the worker
    touches form the record [State]; everything the program only consults
    (the PDF library, the text splitter, the remote models) is a field of
    the record [Env]. *)

From Stdlib Require Import ZArith List String Ascii Bool Lia.
From Stdlib Require Import Init.Byte DecimalString Sorted.
From stdpp Require Import base option list gmap strings.

Local Open Scope string_scope.
Local Open Scope list_scope.
Local Open Scope Z_scope.

Set Warnings "-register-all".

(* ===================================================================== *)
(** ** hashlib.sha256 (FIPS 180-4), on 32-bit words carried in [Z] *)
(* ===================================================================== *)

Module Sha256.

Definition w32 (x : Z) : Z := x mod 2 ^ 32.

Definition add32 (x y : Z) : Z := w32 (x + y).

Definition rotr (n x : Z) : Z :=
  Z.lor (Z.shiftr x n) (w32 (Z.shiftl x (32 - n))).

Definition ch (x y z : Z) : Z :=
  Z.lxor (Z.land x y) (Z.land (Z.lxor x (2 ^ 32 - 1)) z).

Definition maj (x y z : Z) : Z :=
  Z.lxor (Z.lxor (Z.land x y) (Z.land x z)) (Z.land y z).

Definition bsig0 (x : Z) : Z := Z.lxor (Z.lxor (rotr 2 x) (rotr 13 x)) (rotr 22 x).
Definition bsig1 (x : Z) : Z := Z.lxor (Z.lxor (rotr 6 x) (rotr 11 x)) (rotr 25 x).
Definition ssig0 (x : Z) : Z := Z.lxor (Z.lxor (rotr 7 x) (rotr 18 x)) (Z.shiftr x 3).
Definition ssig1 (x : Z) : Z := Z.lxor (Z.lxor (rotr 17 x) (rotr 19 x)) (Z.shiftr x 10).

(** Value of one hexadecimal digit (0 for any other character). *)
Definition hex_val (c : ascii) : Z :=
  let n := Z.of_nat (nat_of_ascii c) in
  if (48 <=? n) && (n <=? 57) then n - 48
  else if (97 <=? n) && (n <=? 102) then n - 87
  else 0.

Fixpoint hex_words_go (s : string) (k : nat) (acc : Z) : list Z :=
  match s with
  | EmptyString => []
  | String c s' =>
      let acc' := acc * 16 + hex_val c in
      match k with
      | O => acc' :: hex_words_go s' 7 0
      | S k' => hex_words_go s' k' acc'
      end
  end.

(** A run of 8-digit hexadecimal words. *)
Definition hex_words (s : string) : list Z := hex_words_go s 7 0.

(** The sixty-four round constants. *)
Definition round_constants : list Z := hex_words
  ("428a2f9871374491b5c0fbcfe9b5dba53956c25b59f111f1923f82a4ab1c5ed5" +:+
   "d807aa9812835b01243185be550c7dc372be5d7480deb1fe9bdc06a7c19bf174" +:+
   "e49b69c1efbe47860fc19dc6240ca1cc2de92c6f4a7484aa5cb0a9dc76f988da" +:+
   "983e5152a831c66db00327c8bf597fc7c6e00bf3d5a7914706ca635114292967" +:+
   "27b70a852e1b21384d2c6dfc53380d13650a7354766a0abb81c2c92e92722c85" +:+
   "a2bfe8a1a81a664bc24b8b70c76c51a3d192e819d6990624f40e3585106aa070" +:+
   "19a4c1161e376c082748774c34b0bcb5391c0cb34ed8aa4a5b9cca4f682e6ff3" +:+
   "748f82ee78a5636f84c878148cc7020890befffaa4506cebbef9a3f7c67178f2").

(** The chaining value: eight 32-bit words. *)
Record hash8 := Hash8 { ha : Z; hb : Z; hc : Z; hd : Z; he : Z; hf : Z; hg : Z; hh : Z }.

Definition initial_hash : hash8 :=
  Hash8 0x6a09e667 0xbb67ae85 0x3c6ef372 0xa54ff53a
        0x510e527f 0x9b05688c 0x1f83d9ab 0x5be0cd19.

(** Padding: a 1 bit, zeros up to 56 mod 64 bytes, the bit length on 8 bytes. *)
Definition be_bytes (n : nat) (x : Z) : list Z :=
  map (fun i => Z.shiftr x (8 * Z.of_nat i) mod 256) (rev (seq 0 n)).

Definition pad (msg : list Z) : list Z :=
  let len := Z.of_nat (length msg) in
  let zeros := Z.to_nat ((55 - len) mod 64) in
  msg ++ 128 :: repeat 0 zeros ++ be_bytes 8 (8 * len).

Fixpoint be_words (l : list Z) : list Z :=
  match l with
  | b0 :: b1 :: b2 :: b3 :: rest =>
      (((b0 * 256 + b1) * 256 + b2) * 256 + b3) :: be_words rest
  | _ => []
  end.

(** The message schedule, newest word first while it is being built. *)
Fixpoint schedule_go (n : nat) (rev_w : list Z) : list Z :=
  match n with
  | O => rev_w
  | S n' =>
      let at_ k := nth k rev_w 0 in
      let wt := add32 (add32 (ssig1 (at_ 1%nat)) (at_ 6%nat))
                      (add32 (ssig0 (at_ 14%nat)) (at_ 15%nat)) in
      schedule_go n' (wt :: rev_w)
  end.

Definition schedule (block : list Z) : list Z :=
  rev (schedule_go 48 (rev (be_words block))).

Definition round (h : hash8) (kw : Z * Z) : hash8 :=
  let t1 := add32 (add32 (add32 (hh h) (bsig1 (he h))) (ch (he h) (hf h) (hg h)))
                  (add32 (fst kw) (snd kw)) in
  let t2 := add32 (bsig0 (ha h)) (maj (ha h) (hb h) (hc h)) in
  Hash8 (add32 t1 t2) (ha h) (hb h) (hc h) (add32 (hd h) t1) (he h) (hf h) (hg h).

Definition compress (h : hash8) (block : list Z) : hash8 :=
  let r := fold_left round (combine round_constants (schedule block)) h in
  Hash8 (add32 (ha h) (ha r)) (add32 (hb h) (hb r)) (add32 (hc h) (hc r))
        (add32 (hd h) (hd r)) (add32 (he h) (he r)) (add32 (hf h) (hf r))
        (add32 (hg h) (hg r)) (add32 (hh h) (hh r)).

Fixpoint blocks (n : nat) (l : list Z) (h : hash8) : hash8 :=
  match n with
  | O => h
  | S n' =>
      match l with
      | [] => h
      | _ => blocks n' (skipn 64 l) (compress h (firstn 64 l))
      end
  end.

Definition digest_words (msg : list Z) : hash8 :=
  let p := pad msg in blocks (length p) p initial_hash.

(** [digest]: the 32 bytes of the hash, each in 0..255. *)
Definition digest (msg : list byte) : list Z :=
  let h := digest_words (map (fun b => Z.of_N (Byte.to_N b)) msg) in
  be_bytes 4 (ha h) ++ be_bytes 4 (hb h) ++ be_bytes 4 (hc h) ++ be_bytes 4 (hd h) ++
  be_bytes 4 (he h) ++ be_bytes 4 (hf h) ++ be_bytes 4 (hg h) ++ be_bytes 4 (hh h).

Definition hex_digits : list ascii :=
  list_ascii_of_string "0123456789abcdef".

Definition hex_digit (n : Z) : ascii :=
  nth (Z.to_nat (n mod 16)) hex_digits "0"%char.

Definition hex_of_bytes (l : list Z) : string :=
  string_of_list_ascii (flat_map (fun b => [hex_digit (b / 16); hex_digit b]) l).

(** [hashlib.sha256(msg).hexdigest()]. *)
Definition hexdigest (msg : list byte) : string := hex_of_bytes (digest msg).

Definition is_hex_digit (c : ascii) : bool :=
  existsb (Ascii.eqb c) hex_digits.

End Sha256.

(** The bytes of an ASCII text. *)
Definition bytes_of_string (s : string) : list byte :=
  map byte_of_ascii (list_ascii_of_string s).

(* ===================================================================== *)
(** ** Python strings and values *)
(* ===================================================================== *)

Definition codes (s : string) : list Z :=
  map (fun c => Z.of_nat (nat_of_ascii c)) (list_ascii_of_string s).

Definition of_codes (l : list Z) : string :=
  string_of_list_ascii (map (fun z => ascii_of_nat (Z.to_nat z)) l).

(** The code points for which [str.isspace] holds, as UTF-8 byte sequences:
    U+0009..000D, U+001C..0020, U+0085, U+00A0, U+1680, U+2000..200A,
    U+2028, U+2029, U+202F, U+205F, U+3000. *)
Definition whitespace : list (list Z) :=
  map (fun c => [c]) [9; 10; 11; 12; 13; 28; 29; 30; 31; 32] ++
  [[194; 133]; [194; 160]; [225; 154; 128]] ++
  map (fun c => [226; 128; c]) [128; 129; 130; 131; 132; 133; 134; 135; 136; 137; 138] ++
  [[226; 128; 168]; [226; 128; 169]; [226; 128; 175]; [226; 129; 159]; [227; 128; 128]].

Definition starts_with (p l : list Z) : bool :=
  bool_decide (take (length p) l = p).

Fixpoint lstrip_go (ws : list (list Z)) (fuel : nat) (l : list Z) : list Z :=
  match fuel with
  | O => l
  | S fuel' =>
      match find (fun p => starts_with p l) ws with
      | Some p => lstrip_go ws fuel' (drop (length p) l)
      | None => l
      end
  end.

Definition lstrip (l : list Z) : list Z := lstrip_go whitespace (length l) l.

Definition rstrip (l : list Z) : list Z :=
  let r := rev l in rev (lstrip_go (map (@rev Z) whitespace) (length r) r).

(** [s.strip()]. *)
Definition strip (s : string) : string := of_codes (rstrip (lstrip (codes s))).

(** Truthiness of a [str]: [bool(s)]. *)
Definition nonempty (s : string) : bool :=
  match s with EmptyString => false | String _ _ => true end.

(** [x or ""] for [x] a string or [None]. *)
Definition or_empty (x : option string) : string := default "" x.

(** A Python [float], as far as the program can tell one from another:
    the decimal [mantissa * 10 ^ exponent] it was read from, which is zero
    exactly when its mantissa is, or one of the three specials. *)
Inductive pyfloat :=
| FDec (mantissa exponent : Z)
| FNan
| FInf (negative : bool).

(** The values [json.loads] can return. A [dict] keeps its items in
    insertion order, one per key. *)
Inductive pyval :=
| PNone
| PBool (b : bool)
| PInt (z : Z)
| PFloat (f : pyfloat)
| PStr (s : string)
| PList (items : list pyval)
| PDict (items : list (string * pyval)).

(** [bool(v)]. *)
Definition truthy (v : pyval) : bool :=
  match v with
  | PNone => false
  | PBool b => b
  | PInt z => negb (z =? 0)
  | PFloat (FDec m _) => negb (m =? 0)
  | PFloat _ => true
  | PStr s => nonempty s
  | PList l => match l with [] => false | _ => true end
  | PDict l => match l with [] => false | _ => true end
  end.

(** [d.get(key)] on the items of a dict. *)
Fixpoint dict_get (key : string) (items : list (string * pyval)) : option pyval :=
  match items with
  | [] => None
  | (k, v) :: rest => if String.eqb k key then Some v else dict_get key rest
  end.

(** [d[key] = v]: replace in place, or append. *)
Fixpoint dict_set (key : string) (v : pyval) (items : list (string * pyval))
  : list (string * pyval) :=
  match items with
  | [] => [(key, v)]
  | (k, v0) :: rest =>
      if String.eqb k key then (k, v) :: rest else (k, v0) :: dict_set key v rest
  end.

(** Decimal rendering of an [int], as [str(n)] and f-strings give it. *)
Definition str_of_int (z : Z) : string := NilZero.string_of_int (Z.to_int z).

(** Literals of the source: an [int], or a decimal [float] literal
    [mantissa * 10 ^ exponent] such as [1.4] or [0.25]. *)
Inductive literal :=
| LInt (z : Z)
| LDec (mantissa exponent : Z).

(* ===================================================================== *)
(** ** json.loads: a decoder for the JSON grammar as CPython reads it *)
(* ===================================================================== *)

Module Json.

Definition code (c : ascii) : Z := Z.of_nat (nat_of_ascii c).
Definition chr (z : Z) : ascii := ascii_of_nat (Z.to_nat z).

Definition quote : ascii := "034"%char.
Definition backslash : ascii := "092"%char.

Definition is_ws (c : ascii) : bool :=
  let n := code c in (n =? 32) || (n =? 9) || (n =? 10) || (n =? 13).

Definition is_digit (c : ascii) : bool :=
  let n := code c in (48 <=? n) && (n <=? 57).

Fixpoint skip_ws (l : list ascii) : list ascii :=
  match l with
  | c :: r => if is_ws c then skip_ws r else l
  | [] => []
  end.

Fixpoint digits (l : list ascii) : list ascii * list ascii :=
  match l with
  | c :: r => if is_digit c then let '(ds, r') := digits r in (c :: ds, r') else ([], l)
  | [] => ([], [])
  end.

Definition decimal (ds : list ascii) : Z :=
  fold_left (fun acc c => acc * 10 + (code c - 48)) ds 0.

Definition hex1 (c : ascii) : option Z :=
  let n := code c in
  if (48 <=? n) && (n <=? 57) then Some (n - 48)
  else if (97 <=? n) && (n <=? 102) then Some (n - 87)
  else if (65 <=? n) && (n <=? 70) then Some (n - 55)
  else None.

Definition hex4 (a b c d : ascii) : option Z :=
  x1 ← hex1 a; x2 ← hex1 b; x3 ← hex1 c; x4 ← hex1 d;
  Some (((x1 * 16 + x2) * 16 + x3) * 16 + x4).

(** UTF-8 bytes of a code point, newest byte first. *)
Definition utf8_rev (cp : Z) : list ascii :=
  let cont k := chr (128 + Z.land (Z.shiftr cp k) 63) in
  if cp <? 128 then [chr cp]
  else if cp <? 2048 then [cont 0; chr (192 + Z.shiftr cp 6)]
  else if cp <? 65536 then [cont 0; cont 6; chr (224 + Z.shiftr cp 12)]
  else [cont 0; cont 6; cont 12; chr (240 + Z.shiftr cp 18)].

Definition simple_escape (e : ascii) : option ascii :=
  if Ascii.eqb e quote then Some quote
  else if Ascii.eqb e backslash then Some backslash
  else if Ascii.eqb e "/" then Some "/"%char
  else if Ascii.eqb e "b" then Some (chr 8)
  else if Ascii.eqb e "f" then Some (chr 12)
  else if Ascii.eqb e "n" then Some (chr 10)
  else if Ascii.eqb e "r" then Some (chr 13)
  else if Ascii.eqb e "t" then Some (chr 9)
  else None.

(** The characters after an opening quote, up to the closing one. *)
Fixpoint str_body (l acc : list ascii) : option (string * list ascii) :=
  match l with
  | [] => None
  | c :: r =>
      if Ascii.eqb c quote then Some (string_of_list_ascii (rev acc), r)
      else if Ascii.eqb c backslash then
        match r with
        | [] => None
        | e :: r1 =>
            if Ascii.eqb e "u" then
              match r1 with
              | a1 :: a2 :: a3 :: a4 :: r2 =>
                  match hex4 a1 a2 a3 a4 with
                  | None => None
                  | Some hi =>
                      match r2 with
                      | b0 :: b1 :: c1 :: c2 :: c3 :: c4 :: r3 =>
                          match hex4 c1 c2 c3 c4 with
                          | Some lo =>
                              if Ascii.eqb b0 backslash && Ascii.eqb b1 "u"
                                 && (55296 <=? hi) && (hi <=? 56319)
                                 && (56320 <=? lo) && (lo <=? 57343)
                              then str_body r3
                                     (utf8_rev (65536 + (hi - 55296) * 1024 + (lo - 56320)) ++ acc)
                              else str_body r2 (utf8_rev hi ++ acc)
                          | None => str_body r2 (utf8_rev hi ++ acc)
                          end
                      | _ => str_body r2 (utf8_rev hi ++ acc)
                      end
                  end
              | _ => None
              end
            else
              match simple_escape e with
              | Some ch => str_body r1 (ch :: acc)
              | None => None
              end
        end
      else if code c <? 32 then None
      else str_body r (c :: acc)
  end.

(** [float(literal)] for the literal [m * 10 ^ e] of [nd] digits: the
    nearest double is zero up to half the least positive double,
    [2 ^ -1075], and infinite from half way between the greatest double and
    [2 ^ 1024] on. *)
Definition float_of_literal (m e nd : Z) : pyfloat :=
  if m =? 0 then FDec m e
  else if e + nd <? -400 then FDec 0 0
  else if 400 <? e then FInf (m <? 0)
  else if e <? 0 then
    if Z.abs m * 2 ^ 1075 <=? 10 ^ (- e) then FDec 0 0
    else if (2 ^ 1024 - 2 ^ 970) * 10 ^ (- e) <=? Z.abs m then FInf (m <? 0)
    else FDec m e
  else if 2 ^ 1024 - 2 ^ 970 <=? Z.abs m * 10 ^ e then FInf (m <? 0)
  else FDec m e.

(** [sys.get_int_max_str_digits()]: [int(literal)] raises [ValueError] on
    more digits. *)
Definition int_max_str_digits : Z := 4300.

(** A number: an optional minus, an integer part (0, or digits not starting
    with 0), an optional fraction, an optional exponent. *)
Definition number (l : list ascii) : option (pyval * list ascii) :=
  let '(neg, l1) := match l with
                    | c :: r => if Ascii.eqb c "-" then (true, r) else (false, l)
                    | [] => (false, l)
                    end in
  let int_part := match l1 with
                  | c :: r =>
                      if Ascii.eqb c "0" then Some ([c], r)
                      else if is_digit c then Some (digits l1)
                      else None
                  | [] => None
                  end in
  match int_part with
  | None => None
  | Some (ids, l2) =>
      let '(fds, l3) := match l2 with
                        | c :: r =>
                            if Ascii.eqb c "." then
                              match digits r with
                              | ([], _) => ([], l2)
                              | (fs, r') => (fs, r')
                              end
                            else ([], l2)
                        | [] => ([], l2)
                        end in
      let '(ex, l4) := match l3 with
                       | c :: r =>
                           if Ascii.eqb c "e" || Ascii.eqb c "E" then
                             let '(eneg, r1) :=
                               match r with
                               | sg :: r' =>
                                   if Ascii.eqb sg "-" then (true, r')
                                   else if Ascii.eqb sg "+" then (false, r')
                                   else (false, r)
                               | [] => (false, r)
                               end in
                             match digits r1 with
                             | ([], _) => (None, l3)
                             | (es, r2) =>
                                 (Some (if eneg : bool then - decimal es else decimal es), r2)
                             end
                           else (None, l3)
                       | [] => (None, l3)
                       end in
      let sign z := if neg : bool then - z else z in
      match fds, ex with
      | [], None =>
          if int_max_str_digits <? Z.of_nat (length ids) then None
          else Some (PInt (sign (decimal ids)), l4)
      | _, _ =>
          Some (PFloat (float_of_literal (sign (decimal (ids ++ fds)))
                                         (default 0 ex - Z.of_nat (length fds))
                                         (Z.of_nat (length (ids ++ fds)))), l4)
      end
  end.

Definition keyword (w : string) (v : pyval) (l : list ascii) : option (pyval * list ascii) :=
  let k := list_ascii_of_string w in
  if bool_decide (take (length k) l = k) then Some (v, drop (length k) l) else None.

Definition scalar (l : list ascii) : option (pyval * list ascii) :=
  match l with
  | [] => None
  | c :: r =>
      if Ascii.eqb c quote then
        match str_body r [] with
        | Some (s, r') => Some (PStr s, r')
        | None => None
        end
      else if Ascii.eqb c "n" then keyword "null" PNone l
      else if Ascii.eqb c "t" then keyword "true" (PBool true) l
      else if Ascii.eqb c "f" then keyword "false" (PBool false) l
      else
        match number l with
        | Some res => Some res
        | None =>
            if Ascii.eqb c "N" then keyword "NaN" (PFloat FNan) l
            else if Ascii.eqb c "I" then keyword "Infinity" (PFloat (FInf false)) l
            else if Ascii.eqb c "-" then keyword "-Infinity" (PFloat (FInf true)) l
            else None
        end
  end.

(** One value, its first character at the head of [l]; arrays and objects
    recurse. [fuel] bounds the number of nested and successive values. *)
Fixpoint value (fuel : nat) (l : list ascii) : option (pyval * list ascii) :=
  match fuel with
  | O => None
  | S fuel' =>
      match l with
      | [] => None
      | c :: r =>
          if Ascii.eqb c "{" then
            match skip_ws r with
            | c' :: r' =>
                if Ascii.eqb c' "}" then Some (PDict [], r') else members fuel' (c' :: r') []
            | [] => None
            end
          else if Ascii.eqb c "[" then
            match skip_ws r with
            | c' :: r' =>
                if Ascii.eqb c' "]" then Some (PList [], r') else elements fuel' (c' :: r') []
            | [] => None
            end
          else scalar l
      end
  end
with elements (fuel : nat) (l : list ascii) (acc : list pyval)
  : option (pyval * list ascii) :=
  match fuel with
  | O => None
  | S fuel' =>
      match value fuel' l with
      | None => None
      | Some (v, r) =>
          match skip_ws r with
          | c :: r' =>
              if Ascii.eqb c "]" then Some (PList (acc ++ [v]), r')
              else if Ascii.eqb c "," then elements fuel' (skip_ws r') (acc ++ [v])
              else None
          | [] => None
          end
      end
  end
with members (fuel : nat) (l : list ascii) (acc : list (string * pyval))
  : option (pyval * list ascii) :=
  match fuel with
  | O => None
  | S fuel' =>
      match l with
      | [] => None
      | q :: r =>
          if negb (Ascii.eqb q quote) then None else
          match str_body r [] with
          | None => None
          | Some (k, r1) =>
              match skip_ws r1 with
              | [] => None
              | c :: r2 =>
                  if negb (Ascii.eqb c ":") then None else
                  match value fuel' (skip_ws r2) with
                  | None => None
                  | Some (v, r3) =>
                      match skip_ws r3 with
                      | c' :: r4 =>
                          if Ascii.eqb c' "}" then Some (PDict (dict_set k v acc), r4)
                          else if Ascii.eqb c' "," then
                            members fuel' (skip_ws r4) (dict_set k v acc)
                          else None
                      | [] => None
                      end
                  end
              end
          end
      end
  end.

(** The bytes after a UTF-8 byte order mark, if there is one. *)
Definition skip_bom (l : list ascii) : list ascii :=
  match l with
  | a :: b :: c :: r =>
      if (code a =? 239) && (code b =? 187) && (code c =? 191) then r else l
  | _ => l
  end.

(** [json.loads(s)] on the bytes of a text in UTF-8: [None] stands for the
    [ValueError] raised on anything but one value between optional
    blanks. *)
Definition loads (s : string) : option pyval :=
  let l := skip_bom (list_ascii_of_string s) in
  match value (2 * length l + 2) (skip_ws l) with
  | Some (v, r) => match skip_ws r with [] => Some v | _ => None end
  | None => None
  end.

(** A string literal of JSON source: [s] between double quotes. *)
Definition q (s : string) : string :=
  String quote s +:+ String quote EmptyString.

End Json.

(* ===================================================================== *)
(** ** Exceptions, outcomes, and the data model *)
(* ===================================================================== *)

Inductive exn :=
| RuntimeError (msg : string)
| ValueError (msg : string)
| TypeError (msg : string)
| AttributeError (msg : string)
| IndexError (msg : string)
| JSONDecodeError
| FileNotFoundError (path : string)
| FileDataError (path : string)
| FileExistsError (path : string)
| NotADirectoryError (path : string)
| UpstreamError (msg : string).

(** A call of a pure or external operation: a value, or an exception. *)
Inductive fallible (A : Type) :=
| Ok (a : A)
| Raise (e : exn).
Arguments Ok {A} a.
Arguments Raise {A} e.

(** A call of the program: it returns, raises, or never comes back. *)
Inductive outcome (A : Type) :=
| Returns (a : A)
| Raises (e : exn)
| Diverges.
Arguments Returns {A} a.
Arguments Raises {A} e.
Arguments Diverges {A}.

(** Values of a [Document]'s metadata. *)
Inductive mval :=
| MInt (z : Z)
| MStr (s : string).

(** [langchain_core.documents.Document]. *)
Record Document := mkDocument {
  page_content : string;
  metadata : gmap string mval
}.

(** A page of an opened PDF: its selectable text, and its rendering at a
    resolution as base64 JPEG data. *)
Record Page := mkPage {
  get_text : option string;
  jpeg_base64 : Z -> string
}.

Record ChatOpenAI := mkChatOpenAI {
  model : string;
  temperature : literal;
  max_tokens : Z
}.

Inductive OpenAIEmbeddings := mkOpenAIEmbeddings.

(** A vector store handle: opened on a persisted directory, or built from
    chunks (and persisted or not). *)
Inductive Chroma :=
| ChromaOpen (persist_directory : string) (embedding_function : OpenAIEmbeddings)
| ChromaFromDocuments (chunks : list Document) (embedding : OpenAIEmbeddings)
                      (persist_directory : option string).

Record Retriever := mkRetriever {
  vectorstore : Chroma;
  search_type : string;
  search_kwargs : gmap string literal
}.

Record RetrievalQA := mkRetrievalQA {
  llm : ChatOpenAI;
  chain_type : string;
  retriever : Retriever;
  return_source_documents : bool;
  input_key : string
}.

(** One part of a multimodal chat message. *)
Inductive content_part :=
| TextPart (text : string)
| ImageUrlPart (url : string).

(** What the program consults but does not own. *)
Record Env := mkEnv {
  (** [os.path.dirname(os.path.abspath(__file__))] of [worker.py] *)
  BASE_DIR : string;
  (** [fitz.open] on the bytes of a file: [None] when they are no PDF *)
  fitz_parse : list byte -> option (list Page);
  (** [json.loads]: [None] when it raises *)
  json_loads : string -> option pyval;
  (** [RecursiveCharacterTextSplitter(chunk_size, chunk_overlap).split_text] *)
  split_text : Z -> Z -> string -> list string;
  (** the chat model: [llm.invoke(messages).content] *)
  llm_invoke : ChatOpenAI -> list content_part -> fallible (option string);
  (** embedding the chunks into a store: the files the store holds on disk *)
  embed_documents : OpenAIEmbeddings -> list Document -> fallible (list string);
  (** the retrieval chain: [chain.invoke({"question": q}).get("result")] *)
  qa_invoke : RetrievalQA -> string -> fallible (option string)
}.

(** The module globals of [worker.py], and the file system: the bytes of
    the files, and the listing of each directory. *)
Record State := mkState {
  llm_hub : option ChatOpenAI;
  embeddings : option OpenAIEmbeddings;
  conversation_retrieval_chain : option RetrievalQA;
  chat_history : list (string * string);
  fs_files : gmap string (list byte);
  fs_dirs : gmap string (list string)
}.

(** The calls a run makes, in order: the instrument against which
    "is invoked" and "is never invoked" are read. *)
Inductive call :=
| Call_extract_selectable_text_documents (pdf_path : string)
| Call_vision_ocr_pdf (pdf_path : string)
| Call_llm_invoke (content : list content_part)
| Call_split_documents (docs : list Document)
| Call_Chroma_open (persist_directory : string)
| Call_Chroma_from_documents (chunks : list Document) (persist_directory : option string)
| Call_qa_invoke (question : string).

(** Computations over the state that may raise or diverge, with the
    calls they made. A raise keeps the state reached so far. *)
Definition M (A : Type) : Type := State -> outcome A * State * list call.

Definition ret {A} (a : A) : M A := fun s => (Returns a, s, []).
Definition raise {A} (e : exn) : M A := fun s => (Raises e, s, []).
Definition diverge {A} : M A := fun s => (Diverges, s, []).

Definition bind {A B} (m : M A) (k : A -> M B) : M B :=
  fun s =>
    match m s with
    | (Returns a, s1, c1) => let '(r, s2, c2) := k a s1 in (r, s2, c1 ++ c2)
    | (Raises e, s1, c1) => (Raises e, s1, c1)
    | (Diverges, s1, c1) => (Diverges, s1, c1)
    end.

Definition get : M State := fun s => (Returns s, s, []).
Definition put (s : State) : M unit := fun _ => (Returns tt, s, []).
Definition called (c : call) : M unit := fun s => (Returns tt, s, [c]).
Definition lift {A} (t : fallible A) : M A :=
  match t with Ok a => ret a | Raise e => raise e end.

#[global] Instance M_ret : MRet M := @ret.
#[global] Instance M_bind : MBind M := fun A B k m => bind m k.

Definition result {A} (r : outcome A * State * list call) : outcome A := r.1.1.
Definition final {A} (r : outcome A * State * list call) : State := r.1.2.
Definition calls {A} (r : outcome A * State * list call) : list call := r.2.

Definition set_llm_hub (v : option ChatOpenAI) (s : State) : State :=
  mkState v (embeddings s) (conversation_retrieval_chain s) (chat_history s)
          (fs_files s) (fs_dirs s).
Definition set_embeddings (v : option OpenAIEmbeddings) (s : State) : State :=
  mkState (llm_hub s) v (conversation_retrieval_chain s) (chat_history s)
          (fs_files s) (fs_dirs s).
Definition set_conversation_retrieval_chain (v : option RetrievalQA) (s : State) : State :=
  mkState (llm_hub s) (embeddings s) v (chat_history s) (fs_files s) (fs_dirs s).
Definition set_chat_history (v : list (string * string)) (s : State) : State :=
  mkState (llm_hub s) (embeddings s) (conversation_retrieval_chain s) v
          (fs_files s) (fs_dirs s).
Definition set_fs_dirs (v : gmap string (list string)) (s : State) : State :=
  mkState (llm_hub s) (embeddings s) (conversation_retrieval_chain s) (chat_history s)
          (fs_files s) v.

Definition modify (f : State -> State) : M unit := fun s => (Returns tt, f s, []).

(* ===================================================================== *)
(** ** os.path and the file system *)
(* ===================================================================== *)

Definition starts_with_slash (p : string) : bool :=
  match p with String c _ => Ascii.eqb c "/" | EmptyString => false end.

Fixpoint ends_with_slash (p : string) : bool :=
  match p with
  | EmptyString => false
  | String c EmptyString => Ascii.eqb c "/"
  | String _ rest => ends_with_slash rest
  end.

(** [os.path.join(a, b)] (POSIX). *)
Definition path_join (a b : string) : string :=
  if starts_with_slash b then b
  else if negb (nonempty a) || ends_with_slash a then a +:+ b
  else a +:+ "/" +:+ b.

(** [os.path.isdir(p)] *)
Definition isdir (p : string) (s : State) : bool := bool_decide (is_Some (fs_dirs s !! p)).

(** [os.listdir(p)] of an existing directory *)
Definition listdir (p : string) (s : State) : list string := default [] (fs_dirs s !! p).

(** [os.path.isfile(p)] *)
Definition isfile (p : string) (s : State) : bool := bool_decide (is_Some (fs_files s !! p)).

(** The ancestors of a path, the nearest last: what stands before each
    slash of [p], the root apart.  [pre] is the part of the path already
    read. *)
Fixpoint ancestors_from (pre p : string) : list string :=
  match p with
  | EmptyString => []
  | String c rest =>
      (if Ascii.eqb c "/" && nonempty pre then [pre] else [])
        ++ ancestors_from (pre +:+ String c EmptyString) rest
  end.

Definition ancestors (p : string) : list string := ancestors_from "" p.

(** [os.makedirs] walks up from the path to the nearest ancestor that
    exists, and makes the directories below it: [mkdir] of the [child] of
    a regular file is refused.  [ups] are the ancestors of [child], the
    nearest first. *)
Fixpoint refused_by (child : string) (ups : list string) (s : State) : option exn :=
  match ups with
  | [] => None
  | a :: ups =>
      if isfile a s then Some (NotADirectoryError child)
      else if isdir a s then None
      else refused_by a ups s
  end.

(** What [os.makedirs(p, exist_ok=True)] raises, if it does: nothing when
    [p] is a directory already ([exist_ok]); [FileExistsError] when [p] is
    a regular file; [NotADirectoryError] when the nearest existing
    ancestor of [p] is one. *)
Definition makedirs_error (p : string) (s : State) : option exn :=
  if isdir p s then None
  else if isfile p s then Some (FileExistsError p)
  else refused_by p (rev (ancestors p)) s.

(** [os.makedirs(p, exist_ok=True)].  The state keeps the listing of each
    directory under its path: the directory that is made starts empty, and
    it alone is entered in the state, the listing of its parent staying
    as it is. *)
Definition makedirs (p : string) : M unit :=
  s ← get;
  match makedirs_error p s with
  | Some e => raise e
  | None => modify (fun s => if isdir p s then s else set_fs_dirs (<[p := []]> (fs_dirs s)) s)
  end.

(** [range(a, b)] *)
Definition range (a b : Z) : list Z :=
  map (fun i => a + Z.of_nat i) (seq 0 (Z.to_nat (b - a))).

(* ===================================================================== *)
(** ** chatbot/worker.py *)
(* ===================================================================== *)

(** [x or ""] for a value fetched from a dict. *)
Definition or_empty_val (x : option pyval) : pyval :=
  match x with
  | Some v => if truthy v then v else PStr ""
  | None => PStr ""
  end.

(** [v.strip()]: only a [str] has the method. *)
Definition str_strip (v : pyval) : fallible string :=
  match v with
  | PStr s => Ok (strip s)
  | _ => Raise (AttributeError "object has no attribute 'strip'")
  end.

(** [v.get(key)]: only a [dict] has the method. *)
Definition py_get (v : pyval) (key : string) : fallible (option pyval) :=
  match v with
  | PDict items => Ok (dict_get key items)
  | _ => Raise (AttributeError "object has no attribute 'get'")
  end.

(** The items [zip] draws from its first argument. *)
Definition py_iter (v : pyval) : fallible (list pyval) :=
  match v with
  | PList items => Ok items
  | PDict items => Ok (map (fun kv => PStr kv.1) items)
  | PStr s => Ok (map (fun c => PStr (String c EmptyString)) (list_ascii_of_string s))
  | _ => Raise (TypeError "zip argument #1 must support iteration")
  end.

Definition nl : string := String "010"%char EmptyString.

(** The instruction sent with each batch of page images. *)
Definition vision_prompt : string :=
  "You will receive multiple page images from a PDF. " +:+
  "Extract all readable text from EACH page faithfully, keeping the original language (Arabic/English). " +:+
  "Return STRICT JSON ONLY in this format:" +:+ nl +:+
  "{" +:+ nl +:+
  "  " +:+ Json.q "pages" +:+ ": [" +:+ nl +:+
  "    {" +:+ Json.q "page" +:+ ": 1, " +:+ Json.q "text" +:+ ": " +:+ Json.q "..." +:+ "}," +:+ nl +:+
  "    {" +:+ Json.q "page" +:+ ": 2, " +:+ Json.q "text" +:+ ": " +:+ Json.q "..." +:+ "}" +:+ nl +:+
  "  ]" +:+ nl +:+
  "}" +:+ nl +:+
  "If a page has no text, use empty string.".

(** The parameters of [_vision_ocr_pdf], as its [def] lists them. *)
Definition _vision_ocr_pdf_params : list string :=
  ["pdf_path"; "max_pages"; "dpi"; "batch_size"].

(** Binding the keywords of a call: one that names no parameter is a
    [TypeError], raised before the body runs. *)
Definition bind_keywords (fname : string) (params : list string)
    (kwargs : list (string * literal)) : fallible unit :=
  match find (fun kv => negb (existsb (String.eqb kv.1) params)) kwargs with
  | Some (k, _) =>
      Raise (TypeError (fname +:+ "() got an unexpected keyword argument '" +:+ k +:+ "'"))
  | None => Ok tt
  end.

(** An integer parameter: the keyword's value when given, else the default. *)
Definition int_kwarg (name : string) (dflt : Z) (kwargs : list (string * literal)) : Z :=
  match find (fun kv => String.eqb kv.1 name) kwargs with
  | Some (_, LInt z) => z
  | _ => dflt
  end.

Definition selectable_doc (text : string) (page : Z) (pdf_path : string) : Document :=
  mkDocument text {[ "page" := MInt page; "source" := MStr pdf_path ]}.

Definition vision_doc (text : string) (page : Z) (pdf_path : string) : Document :=
  mkDocument text
    {[ "page" := MInt page; "source" := MStr pdf_path; "ocr" := MStr "vision" ]}.

Definition vision_raw_doc (raw : string) (batch_start batch_end : Z) (pdf_path : string)
  : Document :=
  mkDocument raw
    {[ "page_range" := MStr (str_of_int (batch_start + 1) +:+ "-" +:+ str_of_int batch_end);
       "source" := MStr pdf_path; "ocr" := MStr "vision_raw" ]}.

Section Worker.
Context (E : Env).

Definition VECTOR_DB_DIR : string := path_join (BASE_DIR E) "vector_db".

Definition init_llm : M unit :=
  modify (set_llm_hub (Some (mkChatOpenAI "gpt-4o-mini" (LDec 1 (-1)) 512)));;
  modify (set_embeddings (Some mkOpenAIEmbeddings)).

(** [with fitz.open(pdf_path) as pdf] *)
Definition fitz_open (pdf_path : string) : M (list Page) :=
  s ← get;
  match fs_files s !! pdf_path with
  | None => raise (FileNotFoundError pdf_path)
  | Some data =>
      match fitz_parse E data with
      | None => raise (FileDataError pdf_path)
      | Some pdf => ret pdf
      end
  end.

(** [for i, page in enumerate(pdf)], from index [i] on. *)
Fixpoint extract_pages (pdf_path : string) (i : Z) (pdf : list Page) (docs : list Document)
  : list Document :=
  match pdf with
  | [] => docs
  | page :: rest =>
      let text := strip (or_empty (get_text page)) in
      extract_pages pdf_path (i + 1) rest
        (if nonempty text then docs ++ [selectable_doc text (i + 1) pdf_path] else docs)
  end.

Definition _extract_selectable_text_documents (pdf_path : string) : M (list Document) :=
  called (Call_extract_selectable_text_documents pdf_path);;
  pdf ← fitz_open pdf_path;
  mret (extract_pages pdf_path 0 pdf []).

(** [page_to_jpeg_data_url(page_index)] *)
Definition page_to_jpeg_data_url (pdf : list Page) (dpi : Z) (page_index : Z) : fallible string :=
  match (if page_index <? 0 then None else pdf !! Z.to_nat page_index) with
  | Some page => Ok ("data:image/jpeg;base64," +:+ jpeg_base64 page dpi)
  | None => Raise (IndexError "page not in document")
  end.

Fixpoint image_parts (pdf : list Page) (dpi : Z) (batch_indices : list Z)
  : fallible (list content_part) :=
  match batch_indices with
  | [] => Ok []
  | idx :: rest =>
      match page_to_jpeg_data_url pdf dpi idx with
      | Raise e => Raise e
      | Ok url =>
          match image_parts pdf dpi rest with
          | Raise e => Raise e
          | Ok parts => Ok (ImageUrlPart url :: parts)
          end
      end
  end.

(** [(item.get("text") or "").strip()] *)
Definition item_text (item : pyval) : fallible string :=
  match py_get item "text" with
  | Raise e => Raise e
  | Ok t => str_strip (or_empty_val t)
  end.

(** The [for item, idx in zip(...)] loop of the [try] block. [docs] is
    appended to in place: what was appended before an exception stays. *)
Fixpoint store_pages (pdf_path : string) (pairs : list (pyval * Z)) (docs : list Document)
  : list Document * option exn :=
  match pairs with
  | [] => (docs, None)
  | (item, idx) :: rest =>
      match item_text item with
      | Raise e => (docs, Some e)
      | Ok text =>
          store_pages pdf_path rest
            (if nonempty text then docs ++ [vision_doc text (idx + 1) pdf_path] else docs)
      end
  end.

(** The [try] block: the documents after it, and the exception that
    ended it, if one did. *)
Definition try_parse (pdf_path raw : string) (batch_indices : list Z) (docs : list Document)
  : list Document * option exn :=
  match json_loads E raw with
  | None => (docs, Some JSONDecodeError)
  | Some data =>
      match py_get data "pages" with
      | Raise e => (docs, Some e)
      | Ok pages =>
          match py_iter (default (PList []) pages) with
          | Raise e => (docs, Some e)
          | Ok items => store_pages pdf_path (combine items batch_indices) docs
          end
      end
  end.

(** The [try] / [except Exception] statement of one batch. *)
Definition store_batch (pdf_path raw : string) (batch_start batch_end : Z)
    (docs : list Document) : list Document :=
  match try_parse pdf_path raw (range batch_start batch_end) docs with
  | (docs', None) => docs'
  | (docs', Some _) =>
      if nonempty raw then docs' ++ [vision_raw_doc raw batch_start batch_end pdf_path]
      else docs'
  end.

(** One turn of the [while] loop, for the batch [batch_start .. batch_end). *)
Definition vision_batch (hub : ChatOpenAI) (pdf_path : string) (pdf : list Page)
    (dpi batch_start batch_end : Z) (docs : list Document) : M (list Document) :=
  images ← lift (image_parts pdf dpi (range batch_start batch_end));
  let content := TextPart vision_prompt :: images in
  called (Call_llm_invoke content);;
  resp ← lift (llm_invoke E hub content);
  let raw := strip (or_empty resp) in
  mret (store_batch pdf_path raw batch_start batch_end docs).

(** [while batch_start < pages_to_process]. *)
Fixpoint vision_loop (fuel : nat) (hub : ChatOpenAI) (pdf_path : string) (pdf : list Page)
    (dpi batch_size pages_to_process batch_start : Z) (docs : list Document)
  : M (list Document) :=
  if batch_start <? pages_to_process then
    match fuel with
    | O => diverge
    | S fuel' =>
        let batch_end := Z.min (batch_start + batch_size) pages_to_process in
        docs' ← vision_batch hub pdf_path pdf dpi batch_start batch_end docs;
        vision_loop fuel' hub pdf_path pdf dpi batch_size pages_to_process batch_end docs'
    end
  else mret docs.

(** The body of [_vision_ocr_pdf]. With [batch_size >= 1] the loop makes
    at most [pages_to_process] turns; with [batch_size <= 0] it never
    advances, and the turns run out. *)
Definition _vision_ocr_pdf (pdf_path : string) (max_pages dpi batch_size : Z)
  : M (list Document) :=
  called (Call_vision_ocr_pdf pdf_path);;
  s ← get;
  match llm_hub s with
  | None => raise (RuntimeError "LLM not initialized. Call init_llm() first.")
  | Some hub =>
      pdf ← fitz_open pdf_path;
      let total_pages := Z.of_nat (length pdf) in
      let pages_to_process := Z.min total_pages max_pages in
      vision_loop (Z.to_nat pages_to_process) hub pdf_path pdf dpi batch_size
                  pages_to_process 0 []
  end.

(** A call [_vision_ocr_pdf(pdf_path, **kwargs)]. *)
Definition call__vision_ocr_pdf (pdf_path : string) (kwargs : list (string * literal))
  : M (list Document) :=
  lift (bind_keywords "_vision_ocr_pdf" _vision_ocr_pdf_params kwargs);;
  _vision_ocr_pdf pdf_path (int_kwarg "max_pages" 20 kwargs) (int_kwarg "dpi" 140 kwargs)
                  (int_kwarg "batch_size" 3 kwargs).

(** [splitter.split_documents(docs)]: each document's text is split, and
    every piece carries a copy of the document's metadata. *)
Definition split_one (chunk_size chunk_overlap : Z) (d : Document) : list Document :=
  map (fun piece => mkDocument piece (metadata d))
      (split_text E chunk_size chunk_overlap (page_content d)).

Definition split_documents (chunk_size chunk_overlap : Z) (docs : list Document)
  : M (list Document) :=
  called (Call_split_documents docs);;
  mret (flat_map (split_one chunk_size chunk_overlap) docs).

(** [c for c in chunks if (c.page_content or "").strip()] *)
Definition nonblank (c : Document) : bool := nonempty (strip (page_content c)).

(** [RetrievalQA.from_chain_type(llm=llm_hub, chain_type="stuff",
    retriever=db.as_retriever(...), ...)] *)
Definition from_chain_type (hub : ChatOpenAI) (db : Chroma) : RetrievalQA :=
  mkRetrievalQA hub "stuff"
    (mkRetriever db "mmr" {[ "k" := LInt 6; "lambda_mult" := LDec 25 (-2) ]})
    false "question".

(** [Chroma.from_documents(chunks, embedding=..., persist_directory=...)] *)
Definition Chroma_from_documents (chunks : list Document) (emb : OpenAIEmbeddings)
    (persist_directory : option string) : M (Chroma * list string) :=
  called (Call_Chroma_from_documents chunks persist_directory);;
  files ← lift (embed_documents E emb chunks);
  mret (ChromaFromDocuments chunks emb persist_directory, files).

(** [db.persist()]: the store's files are in its directory. *)
Definition persist (persist_dir : string) (files : list string) : M unit :=
  modify (fun s => set_fs_dirs (<[persist_dir := listdir persist_dir s ++ files]> (fs_dirs s)) s).

(** [if doc_id:] *)
Definition given (doc_id : option string) : bool := nonempty (or_empty doc_id).

Definition persist_dir_of (doc_id : option string) : option string :=
  if given doc_id then Some (path_join VECTOR_DB_DIR (or_empty doc_id)) else None.

(** Lines 176-187: the persisted index is opened, nothing is extracted. *)
Definition load_cached (persist_dir : string) (emb : OpenAIEmbeddings) (hub : ChatOpenAI)
  : M string :=
  called (Call_Chroma_open persist_dir);;
  let db := ChromaOpen persist_dir emb in
  modify (set_conversation_retrieval_chain (Some (from_chain_type hub db)));;
  mret "cached".

(** Lines 189-225: extraction, fallback, chunking, index and chain. *)
Definition build_index (document_path : string) (persist_dir : option string)
    (emb : OpenAIEmbeddings) (hub : ChatOpenAI) : M string :=
  docs ← _extract_selectable_text_documents document_path;
  docs ← (if Z.of_nat (length docs) =? 0
          then call__vision_ocr_pdf document_path
                 [("max_pages", LInt 12); ("zoom", LDec 14 (-1))]
          else mret docs);
  if Z.of_nat (length docs) =? 0 then
    raise (ValueError "No extractable text found (even after Vision OCR).")
  else
    chunks ← split_documents 900 120 docs;
    let chunks := filter (fun c => nonblank c = true) chunks in
    db ← match persist_dir with
         | Some d =>
             makedirs d;;
             '(db, files) ← Chroma_from_documents chunks emb (Some d);
             persist d files;;
             mret db
         | None =>
             '(db, _) ← Chroma_from_documents chunks emb None;
             mret db
         end;
    modify (set_conversation_retrieval_chain (Some (from_chain_type hub db)));;
    mret "indexed".

Definition process_document (document_path : string) (doc_id : option string) : M string :=
  s ← get;
  match embeddings s, llm_hub s with
  | Some emb, Some hub =>
      modify (set_chat_history []);;
      let persist_dir := persist_dir_of doc_id in
      s1 ← get;
      match persist_dir with
      | Some d =>
          if isdir d s1 && bool_decide (listdir d s1 ≠ [])
          then load_cached d emb hub
          else build_index document_path persist_dir emb hub
      | None => build_index document_path persist_dir emb hub
      end
  | _, _ => raise (RuntimeError "LLM/Embeddings not initialized. Call init_llm() first.")
  end.

Definition process_prompt (prompt : option string) : M string :=
  s ← get;
  match conversation_retrieval_chain s with
  | None => mret "Please upload a PDF first so I can answer based on it."
  | Some chain =>
      let prompt := strip (or_empty prompt) in
      if negb (nonempty prompt) then mret "Please type a question."
      else
        called (Call_qa_invoke prompt);;
        out ← lift (qa_invoke E chain prompt);
        let answer := strip (or_empty out) in
        modify (fun s => set_chat_history (chat_history s ++ [(prompt, answer)]) s);;
        mret (if nonempty answer then answer else "No response.")
  end.

End Worker.

(* ===================================================================== *)
(** ** server.py *)
(* ===================================================================== *)

(** [try: body except Exception: handler] *)
Definition catch {A} (body : M A) (handler : exn -> M A) : M A :=
  fun s =>
    match body s with
    | (Raises e, s1, c1) => let '(r, s2, c2) := handler e s1 in (r, s2, c1 ++ c2)
    | r => r
    end.

(** [for chunk in iter(lambda: f.read(size), b""): h.update(chunk)], on the
    unread bytes [f] of the file and the bytes [h] hashed so far. *)
Fixpoint update_chunks (fuel : nat) (size : Z) (f h : list byte) : M (list byte) :=
  match take (Z.to_nat size) f with
  | [] => mret h
  | chunk =>
      match fuel with
      | O => diverge
      | S fuel' => update_chunks fuel' size (drop (Z.to_nat size) f) (h ++ chunk)
      end
  end.

Definition sha256_file (path : string) : M string :=
  s ← get;
  match fs_files s !! path with
  | None => raise (FileNotFoundError path)
  | Some data =>
      h ← update_chunks (length data) (1024 * 1024) data [];
      mret (Sha256.hexdigest h)
  end.

(** The body every reply of [/chat] carries. *)
Definition chat_payload (msg : string) : gmap string string :=
  {[ "answer" := msg; "response" := msg; "message" := msg; "bot_response" := msg ]}.

Section Server.
Context (E : Env).

(** [POST /chat] with the request body [body]: the JSON reply and the
    HTTP status. *)
Definition chat (body : string) : M (gmap string string * Z) :=
  catch
    (let data := match json_loads E body with
                 | Some v => if truthy v then v else PDict []
                 | None => PDict []
                 end in
     message ← lift (py_get data "message");
     prompt ← lift (str_strip (or_empty_val message));
     if negb (nonempty prompt) then
       mret (chat_payload "Please type a question.", 200)
     else
       answer ← process_prompt E (Some prompt);
       let answer := if nonempty answer then answer else "" in
       mret (chat_payload answer, 200))
    (fun _ => mret (chat_payload "Sorry, something went wrong. Please try again.", 500)).

End Server.

(* ===================================================================== *)
(** ** server.py: the upload route *)
(* ===================================================================== *)

(** [s.lower()], on the ASCII letters (no other character lowers to one
    of [.], [p], [d], [f]). *)
Definition lower_char (c : ascii) : ascii :=
  let n := nat_of_ascii c in
  if (65 <=? n)%nat && (n <=? 90)%nat then ascii_of_nat (n + 32) else c.

Fixpoint lower (s : string) : string :=
  match s with
  | EmptyString => EmptyString
  | String c rest => String (lower_char c) (lower rest)
  end.

(** [p.rfind(c)]: the index of the last [c] in [p], or [-1]. *)
Fixpoint rfind_from (c : ascii) (p : string) (i last : Z) : Z :=
  match p with
  | EmptyString => last
  | String x rest => rfind_from c rest (i + 1) (if Ascii.eqb x c then i else last)
  end.

Definition rfind (c : ascii) (p : string) : Z := rfind_from c p 0 (-1).

(** [p[a:b]] for [0 <= a <= b]. *)
Definition slice (p : string) (a b : Z) : string :=
  substring (Z.to_nat a) (Z.to_nat (b - a)) p.

(** The loop of [genericpath._splitext] that skips the leading dots of
    the last component: is a character other than a dot met before
    [dotIndex]? *)
Fixpoint other_than_dots (name : string) : bool :=
  match name with
  | EmptyString => false
  | String x rest => if Ascii.eqb x "." then other_than_dots rest else true
  end.

(** [os.path.splitext(p)] (POSIX). *)
Definition splitext (p : string) : string * string :=
  let sepIndex := rfind "/" p in
  let dotIndex := rfind "." p in
  if (sepIndex <? dotIndex) && other_than_dots (slice p (sepIndex + 1) dotIndex)
  then (slice p 0 dotIndex, slice p dotIndex (Z.of_nat (String.length p)))
  else (p, EmptyString).

(** [werkzeug.datastructures.FileStorage]: a name and the bytes sent. *)
Record FileStorage := mkFileStorage {
  filename : option string;
  stream : list byte
}.

Definition set_fs_files (v : gmap string (list byte)) (s : State) : State :=
  mkState (llm_hub s) (embeddings s) (conversation_retrieval_chain s) (chat_history s)
          v (fs_dirs s).

(** The three bodies [/upload] replies with. *)
Definition upload_refused : gmap string string * Z :=
  ({[ "error" := "Upload failed. Please try again." ]}, 400).

Definition upload_done : gmap string string * Z :=
  ({[ "message" := "PDF processed successfully." ]}, 200).

Definition upload_failed : gmap string string * Z :=
  ({[ "error" := "Sorry, I couldn't process that PDF. Please try again." ]}, 500).

Section Upload.
Context (E : Env).
(** [os.path.dirname(os.path.abspath(__file__))] of [server.py] *)
Context (SERVER_DIR : string).

Definition UPLOAD_FOLDER : string := path_join SERVER_DIR "uploads".

(** [POST /upload] with the files of the form, [uuid_hex] being the
    [uuid.uuid4().hex] drawn for the saved name. *)
Definition upload (files : gmap string FileStorage) (uuid_hex : string)
  : M (gmap string string * Z) :=
  catch
    (match files !! "file" with
     | None => mret upload_refused
     | Some f =>
         if negb (nonempty (or_empty (filename f))) then mret upload_refused
         else
           let original_name := or_empty (filename f) in
           let ext := (splitext original_name).2 in
           if negb (String.eqb (lower ext) ".pdf") then mret upload_refused
           else
             let safe_name := uuid_hex +:+ ".pdf" in
             let save_path := path_join UPLOAD_FOLDER safe_name in
             modify (fun s => set_fs_files (<[save_path := stream f]> (fs_files s)) s);;
             doc_id ← sha256_file save_path;
             status ← process_document E save_path (Some doc_id);
             mret upload_done
     end)
    (fun _ => mret upload_failed).

(** [GET /health] *)
Definition health : gmap string string * Z := ({[ "status" := "ok" ]}, 200).

(** A request to the server, and the state a sequence of them leaves. *)
Inductive request :=
| Req_upload (files : gmap string FileStorage) (uuid_hex : string)
| Req_chat (body : string).

Definition handle (r : request) (s : State) : State :=
  match r with
  | Req_upload files uuid_hex => final (upload files uuid_hex s)
  | Req_chat body => final (chat E body s)
  end.

Definition serve (requests : list request) (s : State) : State :=
  fold_left (fun s r => handle r s) requests s.

End Upload.

(** The form of an upload is refused: no file, no name, or a name whose
    extension is not [.pdf] in any case. *)
Definition refused_form (files : gmap string FileStorage) : Prop :=
  match files !! "file" with
  | None => True
  | Some f =>
      or_empty (filename f) = "" ∨ lower (splitext (or_empty (filename f))).2 ≠ ".pdf"
  end.

(** A form with one file under the field [file]. *)
Definition form (name : string) (data : list byte) : gmap string FileStorage :=
  {[ "file" := mkFileStorage (Some name) data ]}.

(* ===================================================================== *)
(** ** Vocabulary of the properties *)
(* ===================================================================== *)

(** Both handles are set: [init_llm] has run. *)
Definition initialized (s : State) : Prop :=
  is_Some (llm_hub s) ∧ is_Some (embeddings s).

(** The directory [d] is present and lists at least one entry. *)
Definition dir_nonempty (d : string) (s : State) : Prop :=
  ∃ entries, fs_dirs s !! d = Some entries ∧ entries ≠ [].

(** A persisted index exists for [doc_id]: [doc_id] is given, and its
    directory under the vector-store root is present and non-empty. *)
Definition cached_index (E : Env) (doc_id : option string) (s : State) : Prop :=
  ∃ d entries, persist_dir_of E doc_id = Some d ∧ fs_dirs s !! d = Some entries ∧ entries ≠ [].

(** The exception of a call that passes [zoom] to [_vision_ocr_pdf]. *)
Definition zoom_error : exn :=
  TypeError "_vision_ocr_pdf() got an unexpected keyword argument 'zoom'".

(** The exception of [process_document] before [init_llm]. *)
Definition not_initialized_error : exn :=
  RuntimeError "LLM/Embeddings not initialized. Call init_llm() first.".

(** The guidance [process_prompt] gives while no chain is set. *)
Definition upload_first : string :=
  "Please upload a PDF first so I can answer based on it.".

(** The chunks handed to the index: the pieces of every document, in
    order, the blank ones dropped. *)
Definition chunks_of (E : Env) (docs : list Document) : list Document :=
  filter (fun c => nonblank c = true) (flat_map (split_one E 900 120) docs).

(** The state after [os.makedirs(d, exist_ok=True)], and after the store
    has put [files] into [d]. *)
Definition after_makedirs (d : string) (s : State) : State :=
  if isdir d s then s else set_fs_dirs (<[d := []]> (fs_dirs s)) s.

Definition after_persist (d : string) (files : list string) (s : State) : State :=
  set_fs_dirs (<[d := listdir d s ++ files]> (fs_dirs s)) s.

(** [enumerate(l, start=i)] *)
Fixpoint enumerate {A} (i : Z) (l : list A) : list (Z * A) :=
  match l with
  | [] => []
  | x :: rest => (i, x) :: enumerate (i + 1) rest
  end.

(** The trimmed selectable text of a page. *)
Definition page_text (page : Page) : string := strip (or_empty (get_text page)).

(** Written from the specification of the text extractor: one record per
    page whose trimmed text is non-empty, in page order, tagged with the
    1-based page number. *)
Definition one_per_page_with_text (pdf_path : string) (pdf : list Page) : list Document :=
  map (fun ip => selectable_doc (page_text ip.2) (ip.1 + 1) pdf_path)
      (List.filter (fun ip => nonempty (page_text ip.2)) (enumerate 0 pdf)).

(** The public operations of the worker, and a run of several of them. *)
Inductive op :=
| Op_init_llm
| Op_process_document (document_path : string) (doc_id : option string)
| Op_process_prompt (prompt : option string).

Definition run_op (E : Env) (o : op) (s : State) : State :=
  match o with
  | Op_init_llm => final (init_llm s)
  | Op_process_document p d => final (process_document E p d s)
  | Op_process_prompt q => final (process_prompt E q s)
  end.

Definition run_ops (E : Env) (ops : list op) (s : State) : State :=
  fold_left (fun s o => run_op E o s) ops s.

(* ===================================================================== *)
(** ** A small concrete world, for running the definitions *)
(* ===================================================================== *)

Module Demo.

Definition page (text : string) : Page := mkPage (Some text) (fun _ => "/9j/4AAQ").

(** Three documents: two pages of text around a blank one; a scan with
    no selectable text; and bytes that are no PDF (absent from the table). *)
Definition pdfs : list (string * list Page) :=
  [ ("%PDF text", [page " Total: 42 | |net 30 "; page "   "; page "Thanks"]);
    ("%PDF scan", [page ""; page " "]) ].

Definition parse (data : list byte) : option (list Page) :=
  let key := string_of_list_ascii (map ascii_of_byte data) in
  snd <$> find (fun kv => String.eqb kv.1 key) pdfs.

(** A splitter that cuts at every ["|"]. *)
Fixpoint cut (s acc : string) : list string :=
  match s with
  | EmptyString => [acc]
  | String c rest =>
      if Ascii.eqb c "|" then acc :: cut rest EmptyString
      else cut rest (acc +:+ String c EmptyString)
  end.

(** The world: the chat model answers every batch with [reply], the
    retrieval chain every question with [answer]. *)
Definition env (reply answer : option string) : Env :=
  mkEnv "/app/chatbot" parse Json.loads (fun _ _ s => cut s EmptyString)
        (fun _ _ => Ok reply) (fun _ _ => Ok ["chroma.sqlite3"]) (fun _ _ => Ok answer).

Definition files : gmap string (list byte) :=
  {[ "/app/uploads/a.pdf" := bytes_of_string "%PDF text";
     "/app/uploads/b.pdf" := bytes_of_string "%PDF text";
     "/app/uploads/scan.pdf" := bytes_of_string "%PDF scan";
     "/app/uploads/notes.pdf" := bytes_of_string "PK docx" ]}.

(** Before [init_llm]: nothing set, an empty vector-store root. *)
Definition fresh : State :=
  mkState None None None [] files {[ "/app/chatbot/vector_db" := [] ]}.

Definition ready : State := final (init_llm fresh).

(** An index persisted for the identifier ["d0c"] by an earlier run. *)
Definition with_index (s : State) : State :=
  set_fs_dirs (<[ "/app/chatbot/vector_db/d0c" := ["chroma.sqlite3"] ]> (fs_dirs s)) s.

(** A regular file at the path [p]. *)
Definition with_file (p : string) (s : State) : State :=
  set_fs_files (<[ p := bytes_of_string "not a directory" ]> (fs_files s)) s.

(** A conversation under way on an earlier document. *)
Definition earlier_chain : RetrievalQA :=
  from_chain_type (mkChatOpenAI "gpt-4o-mini" (LDec 1 (-1)) 512)
                  (ChromaOpen "/app/chatbot/vector_db/0ld" mkOpenAIEmbeddings).

Definition talking (s : State) : State :=
  set_chat_history [("What is the total?", "42")]
    (set_conversation_retrieval_chain (Some earlier_chain) s).

End Demo.

(** The same world with the remote services down: every call to the chat
    model, the embedding service or the retrieval chain raises. *)
Module Outage.

Definition down : exn := UpstreamError "503 Service Unavailable".

Definition env : Env :=
  mkEnv "/app/chatbot" Demo.parse Json.loads (fun _ _ s => Demo.cut s EmptyString)
        (fun _ _ => Raise down) (fun _ _ => Raise down) (fun _ _ => Raise down).

End Outage.


(* ===================================================================== *)
(** ** Vocabulary of the further properties *)
(* ===================================================================== *)

(** [l] starts with none of the sequences [ws]. *)
Definition clean (ws : list (list Z)) (l : list Z) : Prop :=
  find (fun p => starts_with p l) ws = None.

(** The two other fixed texts of the chat route. *)
Definition type_a_question : string := "Please type a question.".

Definition chat_sorry : string := "Sorry, something went wrong. Please try again.".

(** The request body as the handler reads it: [get_json(...) or {}]. *)
Definition chat_data (E : Env) (body : string) : pyval :=
  match json_loads E body with
  | Some v => if truthy v then v else PDict []
  | None => PDict []
  end.

(** The request asks nothing: the body read as [get_json(...) or {}] is an
    object whose [message] is missing, falsy, or a blank string. *)
Definition asks_nothing (E : Env) (body : string) : Prop :=
  ∃ items, chat_data E body = PDict items ∧
    match dict_get "message" items with
    | None => True
    | Some m => truthy m = false ∨ ∃ text, m = PStr text ∧ strip text = ""
    end.

(** The request is malformed: its body is a JSON value that is truthy and
    no object, or an object whose [message] is truthy and no string. *)
Definition malformed_request (E : Env) (body : string) : Prop :=
  match chat_data E body with
  | PDict items =>
      ∃ m, dict_get "message" items = Some m ∧ truthy m = true ∧ ∀ text, m ≠ PStr text
  | _ => True
  end.

(** The form carries a file [f] that the handler accepts: it has a name,
    and the extension of the name is [.pdf] in some case. *)
Definition accepted_file (files : gmap string FileStorage) (f : FileStorage) : Prop :=
  files !! "file" = Some f ∧ or_empty (filename f) ≠ "" ∧
  lower (splitext (or_empty (filename f))).2 = ".pdf".

(** Where an accepted file is saved, and the state once it is. *)
Definition save_path_of (SERVER_DIR uuid_hex : string) : string :=
  path_join (UPLOAD_FOLDER SERVER_DIR) (uuid_hex +:+ ".pdf").

Definition after_save (SERVER_DIR uuid_hex : string) (f : FileStorage) (s : State) : State :=
  set_fs_files (<[save_path_of SERVER_DIR uuid_hex := stream f]> (fs_files s)) s.

Definition is_llm_call (c : call) : Prop :=
  match c with Call_llm_invoke _ => True | _ => False end.

(** A document as the vision fallback makes them: non-empty content, the
    path as [source], and [ocr] one of the two tags. *)
Definition vision_made (pdf_path : string) (d : Document) : Prop :=
  page_content d ≠ "" ∧
  metadata d !! "source" = Some (MStr pdf_path) ∧
  (metadata d !! "ocr" = Some (MStr "vision") ∨
   metadata d !! "ocr" = Some (MStr "vision_raw")).

(** The metadata of a document extracted from page [p] of [pdf_path]. *)
Definition page_tag (pdf_path : string) (p : Z) : gmap string mval :=
  {[ "page" := MInt p; "source" := MStr pdf_path ]}.

(* ===================================================================== *)
(** * Properties *)
(* ===================================================================== *)

(** Unfolding the monad: a run is then a plain term to evaluate. *)
Ltac run :=
  unfold lift, mbind, M_bind, mret, M_ret, bind, ret, raise, diverge, get, put,
         modify, called, result, final, calls in *.

(** ** The text extractor *)

Lemma extract_pages_acc pdf_path pdf : ∀ i docs,
  extract_pages pdf_path i pdf docs =
  docs ++ map (fun ip => selectable_doc (page_text ip.2) (ip.1 + 1) pdf_path)
              (List.filter (fun ip => nonempty (page_text ip.2)) (enumerate i pdf)).
Proof.
  induction pdf as [|page rest IH]; intros i docs; simpl.
  - by rewrite app_nil_r.
  - rewrite IH. fold (page_text page).
    destruct (nonempty (page_text page)); simpl; [|done].
    by rewrite <- app_assoc.
Qed.

Lemma extract_run E pdf_path s :
  _extract_selectable_text_documents E pdf_path s =
  match fs_files s !! pdf_path with
  | None => (Raises (FileNotFoundError pdf_path), s,
             [Call_extract_selectable_text_documents pdf_path])
  | Some data =>
      match fitz_parse E data with
      | None => (Raises (FileDataError pdf_path), s,
                 [Call_extract_selectable_text_documents pdf_path])
      | Some pdf => (Returns (extract_pages pdf_path 0 pdf []), s,
                     [Call_extract_selectable_text_documents pdf_path])
      end
  end.
Proof.
  unfold _extract_selectable_text_documents, fitz_open. run.
  destruct (fs_files s !! pdf_path) as [data|]; [|done].
  by destruct (fitz_parse E data).
Qed.

Lemma filter_all_blank pdf : ∀ i,
  Forall (fun page => page_text page = "") pdf →
  List.filter (fun ip : Z * Page => nonempty (page_text ip.2)) (enumerate i pdf) = [].
Proof.
  induction pdf as [|page rest IH]; intros i Hall; [done|].
  inversion Hall as [|? ? Hp Hr]; subst. simpl. rewrite Hp. simpl. by apply IH.
Qed.

Lemma enumerate_In {A} (l : list A) : ∀ i j x,
  In (j, x) (enumerate i l) → ∃ n, l !! n = Some x ∧ j = i + Z.of_nat n.
Proof.
  induction l as [|y rest IH]; intros i j x Hin; simpl in Hin; [done|].
  destruct Hin as [Heq|Hin].
  - inversion Heq; subst. exists 0%nat. split; [done|lia].
  - destruct (IH _ _ _ Hin) as (n & Hn & ->). exists (S n). split; [done|lia].
Qed.

Lemma nonempty_true s : nonempty s = true → s ≠ "".
Proof. by destruct s. Qed.

Lemma nonempty_false s : nonempty s = false → s = "".
Proof. by destruct s. Qed.

(** C6. For every file that opens as a PDF, the extractor returns (it does
    not raise), leaves the state alone, and its result is exactly one
    document per page whose trimmed text is non-empty, in page order, with
    [page] the 1-based page number; each document has non-empty content;
    and the result is the empty list when no page has text. *)
Theorem extract_one_document_per_page_with_text
    (E : Env) (s : State) (pdf_path : string) (data : list byte) (pdf : list Page) :
  fs_files s !! pdf_path = Some data →
  fitz_parse E data = Some pdf →
  ∃ docs,
    _extract_selectable_text_documents E pdf_path s
      = (Returns docs, s, [Call_extract_selectable_text_documents pdf_path]) ∧
    docs = one_per_page_with_text pdf_path pdf ∧
    (∀ k d, docs !! k = Some d →
       page_content d ≠ "" ∧
       ∃ n page, pdf !! n = Some page ∧ page_content d = page_text page ∧
                 metadata d !! "page" = Some (MInt (Z.of_nat n + 1))) ∧
    (Forall (fun page => page_text page = "") pdf → docs = []).
Proof.
  intros Hfile Hpdf. exists (one_per_page_with_text pdf_path pdf).
  split; [|split; [done|split]].
  - rewrite extract_run, Hfile, Hpdf. by rewrite extract_pages_acc.
  - intros k d Hk. unfold one_per_page_with_text in Hk.
    apply list_elem_of_lookup_2, list_elem_of_In, in_map_iff in Hk.
    destruct Hk as ([j page] & <- & Hin). apply filter_In in Hin as [Hin Hne].
    simpl in *. split; [by apply nonempty_true|].
    destruct (enumerate_In _ _ _ _ Hin) as (n & Hn & ->).
    exists n, page. split; [done|split; [done|]].
    unfold selectable_doc; simpl. rewrite lookup_insert_eq. repeat f_equal; lia.
  - intros Hall. unfold one_per_page_with_text. by rewrite filter_all_blank.
Qed.

Lemma extract_one_document_per_page_with_text_witness :
  ∃ docs,
    _extract_selectable_text_documents (Demo.env None None) "/app/uploads/a.pdf" Demo.ready
      = (Returns docs, Demo.ready,
         [Call_extract_selectable_text_documents "/app/uploads/a.pdf"]) ∧
    docs = one_per_page_with_text "/app/uploads/a.pdf"
             [Demo.page " Total: 42 | |net 30 "; Demo.page "   "; Demo.page "Thanks"] ∧
    (∀ k d, docs !! k = Some d →
       page_content d ≠ "" ∧
       ∃ n page, [Demo.page " Total: 42 | |net 30 "; Demo.page "   "; Demo.page "Thanks"] !! n
                   = Some page ∧ page_content d = page_text page ∧
                 metadata d !! "page" = Some (MInt (Z.of_nat n + 1))) ∧
    (Forall (fun page => page_text page = "")
            [Demo.page " Total: 42 | |net 30 "; Demo.page "   "; Demo.page "Thanks"] → docs = []).
Proof.
  apply (extract_one_document_per_page_with_text (Demo.env None None) Demo.ready
           "/app/uploads/a.pdf" (bytes_of_string "%PDF text")); reflexivity.
Defined.

(** The run on the three-page document: pages 1 and 3 are kept, trimmed. *)
Example extract_demo :
  one_per_page_with_text "a.pdf" [Demo.page " Total: 42 | |net 30 "; Demo.page "   "; Demo.page "Thanks"]
  = [selectable_doc "Total: 42 | |net 30" 1 "a.pdf"; selectable_doc "Thanks" 3 "a.pdf"].
Proof. reflexivity. Qed.

(** ** Symbolic runs of [process_document] *)

(** The fallback call of line 194 stops at the binding of [zoom]. *)
Lemma vision_call_run E pdf_path s :
  call__vision_ocr_pdf E pdf_path [("max_pages", LInt 12); ("zoom", LDec 14 (-1))] s
  = (Raises zoom_error, s, []).
Proof. reflexivity. Qed.

Lemma build_index_run E document_path persist_dir emb hub s :
  build_index E document_path persist_dir emb hub s =
  let cx := Call_extract_selectable_text_documents document_path in
  match fs_files s !! document_path with
  | None => (Raises (FileNotFoundError document_path), s, [cx])
  | Some data =>
      match fitz_parse E data with
      | None => (Raises (FileDataError document_path), s, [cx])
      | Some pdf =>
          let docs := extract_pages document_path 0 pdf [] in
          if Z.of_nat (length docs) =? 0 then (Raises zoom_error, s, [cx])
          else
            let chunks := chunks_of E docs in
            let cs := [cx; Call_split_documents docs;
                       Call_Chroma_from_documents chunks persist_dir] in
            let chain := Some (from_chain_type hub
                                 (ChromaFromDocuments chunks emb persist_dir)) in
            match persist_dir with
            | Some d =>
                match makedirs_error d s with
                | Some e => (Raises e, s, [cx; Call_split_documents docs])
                | None =>
                    match embed_documents E emb chunks with
                    | Raise e => (Raises e, after_makedirs d s, cs)
                    | Ok files =>
                        (Returns "indexed",
                         set_conversation_retrieval_chain chain
                           (after_persist d files (after_makedirs d s)), cs)
                    end
                end
            | None =>
                match embed_documents E emb chunks with
                | Raise e => (Raises e, s, cs)
                | Ok _ => (Returns "indexed", set_conversation_retrieval_chain chain s, cs)
                end
            end
      end
  end.
Proof.
  unfold build_index.
  unfold mbind at 1, M_bind at 1, bind at 1. rewrite extract_run.
  destruct (fs_files s !! document_path) as [data|]; [|done].
  destruct (fitz_parse E data) as [pdf|]; [|done].
  cbv zeta. set (docs := extract_pages document_path 0 pdf []).
  unfold mbind at 1, M_bind at 1, bind at 1.
  destruct (Z.of_nat (length docs) =? 0) eqn:Hlen.
  - by rewrite vision_call_run.
  - unfold mret at 1, M_ret at 1, ret at 1. cbv iota beta. rewrite Hlen.
    unfold split_documents, Chroma_from_documents, makedirs, persist. run.
    fold (chunks_of E docs).
    destruct persist_dir as [d|]; [destruct (makedirs_error d s)|];
      try destruct (embed_documents E emb (chunks_of E docs)); reflexivity.
Qed.

Lemma process_document_run E document_path doc_id s :
  process_document E document_path doc_id s =
  match embeddings s, llm_hub s with
  | Some emb, Some hub =>
      let s1 := set_chat_history [] s in
      match persist_dir_of E doc_id with
      | Some d =>
          if isdir d s1 && bool_decide (listdir d s1 ≠ []) then
            (Returns "cached",
             set_conversation_retrieval_chain
               (Some (from_chain_type hub (ChromaOpen d emb))) s1,
             [Call_Chroma_open d])
          else build_index E document_path (Some d) emb hub s1
      | None => build_index E document_path None emb hub s1
      end
  | _, _ => (Raises not_initialized_error, s, [])
  end.
Proof.
  unfold process_document.
  unfold mbind at 1, M_bind at 1, bind at 1, get at 1. cbv iota beta.
  destruct (embeddings s) as [emb|]; [|done].
  destruct (llm_hub s) as [hub|]; [|done].
  unfold mbind at 1, M_bind at 1, bind at 1, modify at 1. cbv iota beta.
  unfold mbind at 1, M_bind at 1, bind at 1, get at 1. cbv iota beta zeta.
  set (s1 := set_chat_history [] s).
  destruct (persist_dir_of E doc_id) as [d|].
  - destruct (isdir d s1 && bool_decide (listdir d s1 ≠ [])).
    + reflexivity.
    + by destruct (build_index E document_path (Some d) emb hub s1) as [[r s2] c].
  - by destruct (build_index E document_path None emb hub s1) as [[r s2] c].
Qed.

Lemma cache_test_true E doc_id s d :
  persist_dir_of E doc_id = Some d →
  isdir d s && bool_decide (listdir d s ≠ []) = true ↔ cached_index E doc_id s.
Proof.
  intros Hd. unfold isdir, listdir, cached_index. rewrite Hd. split.
  - intros [Hdir Hls]%andb_prop.
    apply bool_decide_eq_true in Hdir as [entries Hentries].
    apply bool_decide_eq_true in Hls. rewrite Hentries in Hls. eauto.
  - intros (d' & entries & [= <-] & Hentries & Hne). rewrite Hentries.
    apply andb_true_intro. split; apply bool_decide_eq_true; eauto.
Qed.

Lemma set_chat_history_cached E doc_id h s :
  cached_index E doc_id (set_chat_history h s) ↔ cached_index E doc_id s.
Proof. reflexivity. Qed.

(** The body of [_vision_ocr_pdf] is entered by no run of [process_document]. *)
Lemma process_document_never_enters_vision E document_path doc_id s p :
  ¬ In (Call_vision_ocr_pdf p) (calls (process_document E document_path doc_id s)).
Proof.
  rewrite process_document_run.
  destruct (embeddings s) as [emb|]; [|simpl; tauto].
  destruct (llm_hub s) as [hub|]; [|simpl; tauto].
  cbv zeta.
  assert (Hb : ∀ pd s1, ¬ In (Call_vision_ocr_pdf p)
                           (calls (build_index E document_path pd emb hub s1))).
  { intros pd s1. rewrite build_index_run. cbv zeta.
    destruct (fs_files s1 !! document_path) as [data|];
      [|simpl; intros [?|[]]; discriminate].
    destruct (fitz_parse E data) as [pdf|]; [|simpl; intros [?|[]]; discriminate].
    destruct (_ =? 0); [simpl; intros [?|[]]; discriminate|].
    destruct pd as [d0|]; [destruct (makedirs_error d0 s1)|];
      try destruct (embed_documents _ _ _); simpl;
      repeat (intros [?|H]; [discriminate|revert H]); done. }
  destruct (persist_dir_of E doc_id) as [d|]; [|apply Hb].
  destruct (_ && _); [|apply Hb].
  simpl. intros [?|[]]; discriminate.
Qed.

(** ** The fallback of [process_document] *)

(** C1. With the handles set and no cached index for [doc_id], on a file
    that opens as a PDF: when the extractor returns at least one document
    the body of the vision fallback is not entered; when it returns none,
    the call of line 194 raises [TypeError] on its keyword [zoom], which
    [_vision_ocr_pdf] does not accept, so the body is not entered either
    and [process_document] raises. *)
Theorem vision_fallback_call_raises_TypeError
    (E : Env) (s : State) (document_path : string) (doc_id : option string)
    (docs : list Document) :
  initialized s →
  ¬ cached_index E doc_id s →
  result (_extract_selectable_text_documents E document_path s) = Returns docs →
  let r := process_document E document_path doc_id s in
  (∀ p, ¬ In (Call_vision_ocr_pdf p) (calls r)) ∧
  (docs = [] → result r = Raises zoom_error ∧
               calls r = [Call_extract_selectable_text_documents document_path]).
Proof.
  intros [[hub Hhub] [emb Hemb]] Hnc Hex r.
  split; [intros p; apply process_document_never_enters_vision|].
  intros ->. subst r. rewrite process_document_run, Hemb, Hhub. cbv zeta.
  rewrite extract_run in Hex.
  assert (Hb : ∀ pd,
    build_index E document_path pd emb hub (set_chat_history [] s)
    = (Raises zoom_error, set_chat_history [] s,
       [Call_extract_selectable_text_documents document_path])).
  { intros pd. rewrite build_index_run. cbv zeta. simpl fs_files.
    destruct (fs_files s !! document_path) as [data|]; [|discriminate].
    destruct (fitz_parse E data) as [pdf|]; [|discriminate].
    injection Hex as ->. reflexivity. }
  destruct (persist_dir_of E doc_id) as [d|] eqn:Hd; [|by rewrite Hb].
  destruct (_ && _) eqn:Hc; [|by rewrite Hb].
  exfalso. apply Hnc. by apply (cache_test_true E doc_id (set_chat_history [] s) d).
Qed.

Lemma demo_ready_initialized : initialized Demo.ready.
Proof. split; eexists; reflexivity. Defined.

Lemma demo_ready_no_index : ¬ cached_index (Demo.env None None) (Some "d0c") Demo.ready.
Proof.
  intros (d & entries & Hd & Hentries & _).
  injection Hd as <-. vm_compute in Hentries. discriminate.
Defined.

Lemma vision_fallback_call_raises_TypeError_witness :
  (∀ p, ¬ In (Call_vision_ocr_pdf p)
            (calls (process_document (Demo.env None None) "/app/uploads/scan.pdf"
                      (Some "d0c") Demo.ready))) ∧
  (@nil Document = [] →
   result (process_document (Demo.env None None) "/app/uploads/scan.pdf"
             (Some "d0c") Demo.ready) = Raises zoom_error ∧
   calls (process_document (Demo.env None None) "/app/uploads/scan.pdf"
            (Some "d0c") Demo.ready)
     = [Call_extract_selectable_text_documents "/app/uploads/scan.pdf"]).
Proof.
  apply (vision_fallback_call_raises_TypeError (Demo.env None None) Demo.ready
           "/app/uploads/scan.pdf" (Some "d0c") []).
  - exact demo_ready_initialized.
  - exact demo_ready_no_index.
  - reflexivity.
Defined.

(** ** The cache hit *)

Lemma cache_hit_run E document_path doc_id s d hub emb :
  persist_dir_of E doc_id = Some d → dir_nonempty d s →
  llm_hub s = Some hub → embeddings s = Some emb →
  process_document E document_path doc_id s
  = (Returns "cached",
     set_conversation_retrieval_chain
       (Some (from_chain_type hub (ChromaOpen d emb))) (set_chat_history [] s),
     [Call_Chroma_open d]).
Proof.
  intros Hd (entries & He & Hne) Hhub Hemb.
  rewrite process_document_run, Hemb, Hhub. cbv zeta. rewrite Hd.
  assert (Hc : isdir d (set_chat_history [] s)
               && bool_decide (listdir d (set_chat_history [] s) ≠ []) = true).
  { apply (cache_test_true E doc_id _ d Hd). exists d, entries. eauto. }
  by rewrite Hc.
Qed.

(** C2, as amended. For every call with [doc_id] given and a present,
    non-empty persist directory: the run calls nothing but the opening of
    the persisted store (no extraction, no vision fallback, no splitting,
    no index building); and when the handles are set it returns
    ["cached"], with the log reset and the chain built on that store. *)
Theorem cached_index_is_loaded_without_extraction
    (E : Env) (s : State) (document_path : string) (doc_id : option string) :
  cached_index E doc_id s →
  let r := process_document E document_path doc_id s in
  (∀ c, In c (calls r) → ∃ d, c = Call_Chroma_open d) ∧
  (initialized s →
   ∃ d hub emb,
     persist_dir_of E doc_id = Some d ∧ llm_hub s = Some hub ∧ embeddings s = Some emb ∧
     r = (Returns "cached",
          set_conversation_retrieval_chain
            (Some (from_chain_type hub (ChromaOpen d emb))) (set_chat_history [] s),
          [Call_Chroma_open d])).
Proof.
  intros Hc r. subst r. rewrite process_document_run.
  pose proof Hc as (d & entries & Hd & _).
  apply (set_chat_history_cached E doc_id []), (cache_test_true E doc_id _ d Hd) in Hc.
  split.
  - destruct (embeddings s) as [emb|]; [|simpl; tauto].
    destruct (llm_hub s) as [hub|]; [|simpl; tauto].
    cbv zeta. rewrite Hd, Hc. simpl. intros c [<-|[]]. eauto.
  - intros [[hub Hhub] [emb Hemb]]. exists d, hub, emb.
    rewrite Hemb, Hhub. cbv zeta. by rewrite Hd, Hc.
Qed.

Lemma demo_indexed_cached s : cached_index (Demo.env None None) (Some "d0c") (Demo.with_index s).
Proof.
  exists "/app/chatbot/vector_db/d0c", ["chroma.sqlite3"].
  split; [reflexivity|]. split; [apply lookup_insert_eq|discriminate].
Defined.

Lemma cached_index_is_loaded_without_extraction_witness :
  (∀ c, In c (calls (process_document (Demo.env None None) "/app/uploads/b.pdf"
                       (Some "d0c") (Demo.with_index Demo.ready))) →
        ∃ d, c = Call_Chroma_open d) ∧
  (initialized (Demo.with_index Demo.ready) →
   ∃ d hub emb,
     persist_dir_of (Demo.env None None) (Some "d0c") = Some d ∧
     llm_hub (Demo.with_index Demo.ready) = Some hub ∧
     embeddings (Demo.with_index Demo.ready) = Some emb ∧
     process_document (Demo.env None None) "/app/uploads/b.pdf" (Some "d0c")
                      (Demo.with_index Demo.ready)
     = (Returns "cached",
        set_conversation_retrieval_chain
          (Some (from_chain_type hub (ChromaOpen d emb)))
          (set_chat_history [] (Demo.with_index Demo.ready)),
        [Call_Chroma_open d])).
Proof.
  apply (cached_index_is_loaded_without_extraction (Demo.env None None)
           (Demo.with_index Demo.ready) "/app/uploads/b.pdf" (Some "d0c")).
  apply demo_indexed_cached.
Defined.

(** C2 as stated fails before [init_llm]: the directory for ["d0c"] is
    present and non-empty, and the call raises instead of returning
    ["cached"]. *)
Lemma cached_index_before_init_raises :
  cached_index (Demo.env None None) (Some "d0c") (Demo.with_index Demo.fresh) ∧
  result (process_document (Demo.env None None) "/app/uploads/b.pdf" (Some "d0c")
            (Demo.with_index Demo.fresh))
  = Raises not_initialized_error.
Proof. split; [apply demo_indexed_cached|reflexivity]. Qed.

(** ** The chunker *)

Lemma filter_flat_map {A B} (P : B → Prop) `{!∀ x, Decision (P x)} (f : A → list B) l :
  filter P (flat_map f l) = flat_map (fun x => filter P (f x)) l.
Proof.
  induction l as [|x rest IH]; simpl; [done|]. by rewrite filter_app, IH.
Qed.

Lemma chunks_of_nonblank E docs :
  Forall (fun c => strip (page_content c) ≠ "") (chunks_of E docs).
Proof.
  apply Forall_forall. intros c Hc. unfold chunks_of in Hc.
  apply list_elem_of_filter in Hc as [Hc _]. by apply nonempty_true.
Qed.

(** C7. Whatever list of chunks [process_document] hands to the index
    construction: no chunk in it is blank (its trimmed content is
    non-empty), and the list is, for the documents the extractor returned
    taken in their order, the pieces of each document in split order,
    the blank pieces left out. *)
Theorem indexed_chunks_nonblank_in_document_order
    (E : Env) (s : State) (document_path : string) (doc_id : option string)
    (chunks : list Document) (persist_directory : option string) :
  In (Call_Chroma_from_documents chunks persist_directory)
     (calls (process_document E document_path doc_id s)) →
  Forall (fun c => strip (page_content c) ≠ "") chunks ∧
  ∃ docs,
    result (_extract_selectable_text_documents E document_path s) = Returns docs ∧
    In (Call_split_documents docs) (calls (process_document E document_path doc_id s)) ∧
    chunks = flat_map (fun d => filter (fun c => nonblank c = true) (split_one E 900 120 d))
                      docs.
Proof.
  rewrite process_document_run.
  destruct (embeddings s) as [emb|]; [|simpl; tauto].
  destruct (llm_hub s) as [hub|]; [|simpl; tauto].
  cbv zeta.
  assert (Hb : ∀ pd,
    In (Call_Chroma_from_documents chunks persist_directory)
       (calls (build_index E document_path pd emb hub (set_chat_history [] s))) →
    Forall (fun c => strip (page_content c) ≠ "") chunks ∧
    ∃ docs,
      result (_extract_selectable_text_documents E document_path s) = Returns docs ∧
      In (Call_split_documents docs)
         (calls (build_index E document_path pd emb hub (set_chat_history [] s))) ∧
      chunks = flat_map
                 (fun d => filter (fun c => nonblank c = true) (split_one E 900 120 d)) docs).
  { intros pd. rewrite build_index_run, extract_run. cbv zeta. simpl fs_files.
    destruct (fs_files s !! document_path) as [data|];
      [|simpl; intros [?|[]]; discriminate].
    destruct (fitz_parse E data) as [pdf|]; [|simpl; intros [?|[]]; discriminate].
    destruct (_ =? 0); [simpl; intros [?|[]]; discriminate|].
    set (docs := extract_pages document_path 0 pdf []).
    intros Hin.
    assert (Hchunks : chunks = chunks_of E docs).
    { destruct pd as [d0|]; [destruct (makedirs_error d0 _)|];
        try destruct (embed_documents _ _ _); simpl in Hin;
        repeat (destruct Hin as [Heq|Hin]; [try discriminate; by injection Heq|]); done. }
    subst chunks. split; [apply chunks_of_nonblank|].
    exists docs. split; [done|]. split; [|apply filter_flat_map].
    destruct pd as [d0|]; [destruct (makedirs_error d0 _)|];
      try destruct (embed_documents _ _ _); simpl; auto. }
  destruct (persist_dir_of E doc_id) as [d|]; [|apply Hb].
  destruct (_ && _); [|apply Hb].
  simpl. intros [?|[]]; discriminate.
Qed.

(** ** Errors after the cache check *)

Lemma after_makedirs_globals d s :
  chat_history (after_makedirs d s) = chat_history s ∧
  conversation_retrieval_chain (after_makedirs d s) = conversation_retrieval_chain s ∧
  llm_hub (after_makedirs d s) = llm_hub s ∧
  embeddings (after_makedirs d s) = embeddings s.
Proof. unfold after_makedirs. by destruct (isdir d s). Qed.

(** C9. When [process_document] raises past the initialization guard,
    that is in the extraction or later, since the cache branch does not
    raise: the extractor was called, the conversation log is empty
    afterwards, and the chain is the one that was set before the call. *)
Theorem raise_after_cache_check_clears_log_keeps_chain
    (E : Env) (s : State) (document_path : string) (doc_id : option string) (e : exn) :
  initialized s →
  result (process_document E document_path doc_id s) = Raises e →
  In (Call_extract_selectable_text_documents document_path)
     (calls (process_document E document_path doc_id s)) ∧
  chat_history (final (process_document E document_path doc_id s)) = [] ∧
  conversation_retrieval_chain (final (process_document E document_path doc_id s))
    = conversation_retrieval_chain s.
Proof.
  intros [[hub Hhub] [emb Hemb]]. rewrite process_document_run, Hemb, Hhub. cbv zeta.
  assert (Hb : ∀ pd,
    result (build_index E document_path pd emb hub (set_chat_history [] s)) = Raises e →
    In (Call_extract_selectable_text_documents document_path)
       (calls (build_index E document_path pd emb hub (set_chat_history [] s))) ∧
    chat_history (final (build_index E document_path pd emb hub (set_chat_history [] s)))
      = [] ∧
    conversation_retrieval_chain
      (final (build_index E document_path pd emb hub (set_chat_history [] s)))
      = conversation_retrieval_chain s).
  { intros pd. rewrite build_index_run. cbv zeta. simpl fs_files.
    destruct (fs_files s !! document_path) as [data|]; [|simpl; auto].
    destruct (fitz_parse E data) as [pdf|]; [|simpl; auto].
    destruct (_ =? 0); [simpl; auto|].
    destruct pd as [d|]; [destruct (makedirs_error d _)|];
      try destruct (embed_documents _ _ _); simpl; try discriminate;
      intros _; (split; [auto|]); try done.
    unfold final; simpl.
    destruct (after_makedirs_globals d (set_chat_history [] s)) as (-> & -> & _). done. }
  destruct (persist_dir_of E doc_id) as [d|]; [|apply Hb].
  destruct (_ && _); [|apply Hb].
  discriminate.
Qed.

Lemma indexed_chunks_nonblank_in_document_order_witness :
  Forall (fun c => strip (page_content c) ≠ "")
    [mkDocument "Total: 42 " (metadata (selectable_doc "" 1 "/app/uploads/a.pdf"));
     mkDocument "net 30" (metadata (selectable_doc "" 1 "/app/uploads/a.pdf"));
     mkDocument "Thanks" (metadata (selectable_doc "" 3 "/app/uploads/a.pdf"))] ∧
  ∃ docs,
    result (_extract_selectable_text_documents (Demo.env None None) "/app/uploads/a.pdf"
              Demo.ready) = Returns docs ∧
    In (Call_split_documents docs)
       (calls (process_document (Demo.env None None) "/app/uploads/a.pdf" (Some "d0c")
                 Demo.ready)) ∧
    [mkDocument "Total: 42 " (metadata (selectable_doc "" 1 "/app/uploads/a.pdf"));
     mkDocument "net 30" (metadata (selectable_doc "" 1 "/app/uploads/a.pdf"));
     mkDocument "Thanks" (metadata (selectable_doc "" 3 "/app/uploads/a.pdf"))]
    = flat_map (fun d => filter (fun c => nonblank c = true)
                                (split_one (Demo.env None None) 900 120 d)) docs.
Proof.
  apply (indexed_chunks_nonblank_in_document_order (Demo.env None None) Demo.ready
           "/app/uploads/a.pdf" (Some "d0c") _
           (Some "/app/chatbot/vector_db/d0c")).
  vm_compute. do 2 right. left. reflexivity.
Defined.

Lemma raise_after_cache_check_clears_log_keeps_chain_witness :
  In (Call_extract_selectable_text_documents "/app/uploads/scan.pdf")
     (calls (process_document (Demo.env None None) "/app/uploads/scan.pdf" (Some "d0c")
               (Demo.talking Demo.ready))) ∧
  chat_history (final (process_document (Demo.env None None) "/app/uploads/scan.pdf"
                         (Some "d0c") (Demo.talking Demo.ready))) = [] ∧
  conversation_retrieval_chain
    (final (process_document (Demo.env None None) "/app/uploads/scan.pdf" (Some "d0c")
              (Demo.talking Demo.ready)))
  = conversation_retrieval_chain (Demo.talking Demo.ready).
Proof.
  apply (raise_after_cache_check_clears_log_keeps_chain (Demo.env None None)
           (Demo.talking Demo.ready) "/app/uploads/scan.pdf" (Some "d0c") zoom_error).
  - split; eexists; reflexivity.
  - reflexivity.
Defined.

(** That run: a log of one exchange and a chain on an earlier document
    before the call, which raises on the scan. *)
Example raise_demo :
  chat_history (Demo.talking Demo.ready) = [("What is the total?", "42")] ∧
  conversation_retrieval_chain (Demo.talking Demo.ready) = Some Demo.earlier_chain ∧
  result (process_document (Demo.env None None) "/app/uploads/scan.pdf" (Some "d0c")
            (Demo.talking Demo.ready)) = Raises zoom_error.
Proof. repeat split. Qed.

(** ** Indexed, then cached *)

Lemma cached_index_dir E doc_id s :
  cached_index E doc_id s ↔ ∃ d, persist_dir_of E doc_id = Some d ∧ dir_nonempty d s.
Proof.
  unfold cached_index, dir_nonempty. split.
  - intros (d & entries & Hd & He & Hne). exists d. eauto.
  - intros (d & Hd & entries & He & Hne). exists d, entries. eauto.
Qed.

Lemma after_makedirs_dir d0 d s : dir_nonempty d0 s → dir_nonempty d0 (after_makedirs d s).
Proof.
  intros (entries & Hd0 & Hne). unfold after_makedirs, isdir.
  destruct (bool_decide_reflect (is_Some (fs_dirs s !! d))) as [Hd|Hd]; [by exists entries|].
  exists entries. split; [|done]. simpl. rewrite lookup_insert_ne; [done|].
  intros ->. apply Hd. by rewrite Hd0.
Qed.

Lemma after_persist_dir d0 d files s : dir_nonempty d0 s → dir_nonempty d0 (after_persist d files s).
Proof.
  intros (entries & Hd0 & Hne). unfold after_persist, dir_nonempty. simpl.
  destruct (decide (d = d0)) as [->|Hdiff].
  - rewrite lookup_insert_eq. unfold listdir. rewrite Hd0. simpl.
    exists (entries ++ files). split; [done|]. by destruct entries.
  - rewrite lookup_insert_ne; [|done]. by exists entries.
Qed.

(** What a run of [build_index] leaves: the handles as they were, and
    every non-empty directory still non-empty. *)
Lemma build_index_keeps E document_path pd emb hub s d0 :
  let s' := final (build_index E document_path pd emb hub s) in
  llm_hub s' = llm_hub s ∧ embeddings s' = embeddings s ∧
  (dir_nonempty d0 s → dir_nonempty d0 s').
Proof.
  rewrite build_index_run. cbv zeta.
  destruct (fs_files s !! document_path) as [data|]; [|done].
  destruct (fitz_parse E data) as [pdf|]; [|done].
  destruct (_ =? 0); [done|].
  destruct pd as [d|]; [destruct (makedirs_error d s)|];
    try destruct (embed_documents _ _ _); unfold final; simpl; try done.
  - destruct (after_makedirs_globals d s) as (_ & _ & -> & ->).
    split; [done|]. split; [done|]. intros H.
    by apply (after_persist_dir d0 d), after_makedirs_dir.
  - destruct (after_makedirs_globals d s) as (_ & _ & -> & ->).
    split; [done|]. split; [done|]. apply after_makedirs_dir.
Qed.

Lemma process_document_keeps E document_path doc_id s d0 :
  let s' := final (process_document E document_path doc_id s) in
  (initialized s → initialized s') ∧ (dir_nonempty d0 s → dir_nonempty d0 s').
Proof.
  rewrite process_document_run. cbv zeta. unfold initialized.
  destruct (embeddings s) as [emb|] eqn:Hemb;
    [|unfold final; simpl; rewrite Hemb; split; [intros [_ [x [=]]]|done]].
  destruct (llm_hub s) as [hub|] eqn:Hhub;
    [|unfold final; simpl; rewrite Hhub; split; [intros [[x [=]] _]|done]].
  assert (Hb : ∀ pd,
    let s' := final (build_index E document_path pd emb hub (set_chat_history [] s)) in
    (is_Some (Some hub) ∧ is_Some (Some emb) → is_Some (llm_hub s') ∧ is_Some (embeddings s')) ∧
    (dir_nonempty d0 s → dir_nonempty d0 s')).
  { intros pd. cbv zeta.
    destruct (build_index_keeps E document_path pd emb hub (set_chat_history [] s) d0)
      as (-> & -> & Hdir).
    simpl. rewrite Hhub, Hemb. split; [done|]. intros H. by apply Hdir. }
  destruct (persist_dir_of E doc_id) as [d|]; [|apply Hb].
  destruct (_ && _); [|apply Hb].
  unfold final; simpl. rewrite Hhub, Hemb. done.
Qed.

Lemma process_prompt_keeps E prompt s d0 :
  let s' := final (process_prompt E prompt s) in
  (initialized s → initialized s') ∧ (dir_nonempty d0 s → dir_nonempty d0 s').
Proof.
  unfold process_prompt. run.
  destruct (conversation_retrieval_chain s) as [chain|]; [|done].
  destruct (negb _); [done|].
  by destruct (qa_invoke E chain _).
Qed.

Lemma run_ops_keeps E ops : ∀ s d0,
  (initialized s → initialized (run_ops E ops s)) ∧
  (dir_nonempty d0 s → dir_nonempty d0 (run_ops E ops s)).
Proof.
  induction ops as [|o rest IH]; intros s d0; [done|].
  unfold run_ops in *. simpl.
  destruct (IH (run_op E o s) d0) as [Hi Hd].
  assert (Ho : (initialized s → initialized (run_op E o s)) ∧
               (dir_nonempty d0 s → dir_nonempty d0 (run_op E o s))).
  { destruct o as [|p d|q]; simpl.
    - split; [|done]. intros _. split; eexists; reflexivity.
    - apply process_document_keeps.
    - apply process_prompt_keeps. }
  destruct Ho as [Hoi Hod]. split; auto.
Qed.

Lemma process_document_returns_initialized E document_path doc_id s status :
  result (process_document E document_path doc_id s) = Returns status → initialized s.
Proof.
  rewrite process_document_run. unfold initialized.
  destruct (embeddings s); [|discriminate]. destruct (llm_hub s); [|discriminate]. eauto.
Qed.

(** A call for a [doc_id] that is given, on a store that holds at least
    one file on disk, leaves a non-empty directory under [doc_id] when it
    returns ["indexed"]. *)
Lemma indexed_leaves_index E s document_path doc_id :
  given (Some doc_id) = true →
  (∀ emb chunks files, embed_documents E emb chunks = Ok files → files ≠ []) →
  result (process_document E document_path (Some doc_id) s) = Returns "indexed" →
  cached_index E (Some doc_id) (final (process_document E document_path (Some doc_id) s)).
Proof.
  intros Hgiven Hfiles. rewrite process_document_run.
  destruct (embeddings s) as [emb|]; [|discriminate].
  destruct (llm_hub s) as [hub|]; [|discriminate].
  cbv zeta. unfold persist_dir_of. rewrite Hgiven.
  set (d := path_join (VECTOR_DB_DIR E) (or_empty (Some doc_id))).
  destruct (_ && _); [discriminate|].
  rewrite build_index_run. cbv zeta.
  destruct (fs_files _ !! document_path) as [data|]; [|discriminate].
  destruct (fitz_parse E data) as [pdf|]; [|discriminate].
  destruct (_ =? 0); [discriminate|].
  destruct (makedirs_error d _); [discriminate|].
  destruct (embed_documents _ _ _) as [files|] eqn:Hembed; [|discriminate].
  intros _. unfold cached_index, persist_dir_of. rewrite Hgiven.
  exists d, (listdir d (after_makedirs d (set_chat_history [] s)) ++ files).
  split; [done|]. split.
  - unfold final; simpl. apply lookup_insert_eq.
  - apply Hfiles in Hembed. by destruct (listdir _ _), files.
Qed.

Lemma given_nonempty doc_id : doc_id ≠ "" → given (Some doc_id) = true.
Proof. by destruct doc_id. Qed.

(** C3. For a [doc_id] that is not empty, and a store that keeps at least
    one file in its directory: when a call for [doc_id] returns
    ["indexed"], every later call for the same [doc_id], whatever its path
    and whatever calls of the worker's operations came in between, returns
    ["cached"]. *)
Theorem indexed_then_cached
    (E : Env) (s : State) (document_path document_path' doc_id : string) (ops : list op) :
  doc_id ≠ "" →
  (∀ emb chunks files, embed_documents E emb chunks = Ok files → files ≠ []) →
  result (process_document E document_path (Some doc_id) s) = Returns "indexed" →
  result (process_document E document_path' (Some doc_id)
            (run_ops E ops (final (process_document E document_path (Some doc_id) s))))
  = Returns "cached".
Proof.
  intros Hgiven%given_nonempty Hfiles Hret.
  pose proof (indexed_leaves_index E s document_path doc_id Hgiven Hfiles Hret) as Hcached.
  apply process_document_returns_initialized in Hret.
  set (s1 := final (process_document E document_path (Some doc_id) s)) in *.
  assert (Hinit1 : initialized s1).
  { by apply (process_document_keeps E document_path (Some doc_id) s ""). }
  apply cached_index_dir in Hcached as (d & Hd & Hdir).
  destruct (run_ops_keeps E ops s1 d) as [Hi Hk].
  destruct (Hi Hinit1) as [[hub Hhub] [emb Hemb]].
  by rewrite (cache_hit_run E document_path' (Some doc_id) _ d hub emb Hd (Hk Hdir) Hhub Hemb).
Qed.

Lemma indexed_then_cached_witness :
  result (process_document (Demo.env None (Some "42")) "/app/uploads/b.pdf" (Some "d0c")
            (run_ops (Demo.env None (Some "42"))
               [Op_process_prompt (Some "What is the total?");
                Op_process_document "/app/uploads/scan.pdf" None;
                Op_init_llm]
               (final (process_document (Demo.env None (Some "42")) "/app/uploads/a.pdf"
                         (Some "d0c") Demo.ready))))
  = Returns "cached".
Proof.
  apply (indexed_then_cached (Demo.env None (Some "42")) Demo.ready "/app/uploads/a.pdf"
           "/app/uploads/b.pdf" "d0c").
  - discriminate.
  - intros emb chunks files [= <-]. discriminate.
  - reflexivity.
Defined.

(** C3 as stated, for every [doc_id], fails for the empty one and for
    [None], the default: nothing is persisted ([if doc_id:] of line 171,
    no [persist_directory] at line 213), so that the same call made again
    on the state the first has left returns ["indexed"] again. *)
Lemma indexed_again_without_doc_id :
  result (process_document (Demo.env None None) "/app/uploads/a.pdf" (Some "") Demo.ready)
    = Returns "indexed" ∧
  result (process_document (Demo.env None None) "/app/uploads/a.pdf" (Some "")
            (final (process_document (Demo.env None None) "/app/uploads/a.pdf" (Some "")
                      Demo.ready)))
    = Returns "indexed" ∧
  result (process_document (Demo.env None None) "/app/uploads/a.pdf" None Demo.ready)
    = Returns "indexed" ∧
  result (process_document (Demo.env None None) "/app/uploads/a.pdf" None
            (final (process_document (Demo.env None None) "/app/uploads/a.pdf" None
                      Demo.ready)))
    = Returns "indexed".
Proof. repeat split; vm_compute; reflexivity. Qed.

(** ** The content fingerprint *)

Lemma update_chunks_run size : 0 < size → ∀ fuel f h s,
  (length f ≤ fuel)%nat →
  update_chunks fuel size f h s = (Returns (h ++ f), s, []).
Proof.
  intros Hsize. induction fuel as [|fuel IH]; intros f h s Hlen; simpl.
  - destruct f; [|simpl in Hlen; lia]. rewrite take_nil. run.
    rewrite app_nil_r. reflexivity.
  - destruct (take (Z.to_nat size) f) as [|b chunk] eqn:Htake.
    + destruct f as [|b f].
      * run. rewrite app_nil_r. reflexivity.
      * destruct (Z.to_nat size) eqn:Hn; [lia|discriminate].
    + rewrite IH.
      * rewrite <- Htake, <- app_assoc. by rewrite take_drop.
      * rewrite length_drop. assert (length f ≠ 0)%nat
          by (destruct f; [by rewrite take_nil in Htake|done]).
        lia.
Qed.

Lemma sha256_file_run path s data :
  fs_files s !! path = Some data →
  sha256_file path s = (Returns (Sha256.hexdigest data), s, []).
Proof.
  intros Hfile. unfold sha256_file.
  unfold mbind at 1, M_bind at 1, bind at 1, get at 1. cbv iota beta. rewrite Hfile.
  unfold mbind, M_bind, bind. rewrite update_chunks_run; [|lia|lia]. reflexivity.
Qed.

Lemma hex_of_bytes_length l : String.length (Sha256.hex_of_bytes l) = (2 * length l)%nat.
Proof.
  unfold Sha256.hex_of_bytes.
  assert (H : ∀ cs, String.length (string_of_list_ascii cs) = length cs).
  { induction cs as [|c cs IH]; simpl; [done|]. by rewrite IH. }
  rewrite H. induction l as [|b l IH]; simpl; [done|]. rewrite IH. lia.
Qed.

Lemma digest_length msg : length (Sha256.digest msg) = 32%nat.
Proof. unfold Sha256.digest. cbv zeta. rewrite !length_app. reflexivity. Qed.

Lemma hex_digit_is_hex n : Sha256.is_hex_digit (Sha256.hex_digit n) = true.
Proof.
  unfold Sha256.hex_digit.
  assert (Hn : (Z.to_nat (n mod 16) < 16)%nat).
  { pose proof (Z.mod_pos_bound n 16). lia. }
  generalize dependent (Z.to_nat (n mod 16)). intros k Hk.
  do 16 (destruct k as [|k]; [reflexivity|]). lia.
Qed.

Lemma hex_of_bytes_is_hex l :
  Forall (fun c => Sha256.is_hex_digit c = true)
         (list_ascii_of_string (Sha256.hex_of_bytes l)).
Proof.
  unfold Sha256.hex_of_bytes. rewrite list_ascii_of_string_of_list_ascii.
  induction l as [|b l IH]; simpl; [constructor|].
  repeat constructor; auto using hex_digit_is_hex.
Qed.

Lemma build_index_not_cached E document_path pd emb hub s :
  result (build_index E document_path pd emb hub s) ≠ Returns "cached".
Proof.
  rewrite build_index_run. cbv zeta.
  destruct (fs_files s !! document_path) as [data|]; [|discriminate].
  destruct (fitz_parse E data) as [pdf|]; [|discriminate].
  destruct (_ =? 0); [discriminate|].
  destruct pd as [d0|]; [destruct (makedirs_error d0 _)|];
    try destruct (embed_documents _ _ _); discriminate.
Qed.

(** Whether a call is answered from the cache is decided by the
    identifier and the state, and not by the path of the document. *)
Lemma cached_iff E document_path doc_id s :
  result (process_document E document_path doc_id s) = Returns "cached"
  ↔ initialized s ∧ cached_index E doc_id s.
Proof.
  split.
  - intros Hret. split; [by eapply process_document_returns_initialized|].
    revert Hret. rewrite process_document_run.
    destruct (embeddings s) as [emb|]; [|discriminate].
    destruct (llm_hub s) as [hub|]; [|discriminate].
    cbv zeta.
    destruct (persist_dir_of E doc_id) as [d|] eqn:Hd;
      [|intros H; by apply build_index_not_cached in H].
    destruct (_ && _) eqn:Hc; [|intros H; by apply build_index_not_cached in H].
    intros _. by apply (cache_test_true E doc_id (set_chat_history [] s) d).
  - intros [[[hub Hhub] [emb Hemb]] (d & Hd & Hdir)%cached_index_dir].
    by rewrite (cache_hit_run E document_path doc_id s d hub emb).
Qed.

(** C4. Two files with the same bytes, wherever they are and whatever
    they are called, get the same identifier from [sha256_file]: the
    SHA-256 of the bytes, written as 64 hexadecimal characters.  And the
    identifier alone selects the cache entry: the persist directory is a
    function of it, and whether [process_document] answers ["cached"]
    depends on the identifier and the state, not on the document path. *)
Theorem fingerprint_of_bytes_is_sole_cache_key
    (E : Env) (s1 s2 : State) (path1 path2 : string) (data : list byte) :
  fs_files s1 !! path1 = Some data →
  fs_files s2 !! path2 = Some data →
  ∃ id,
    result (sha256_file path1 s1) = Returns id ∧
    result (sha256_file path2 s2) = Returns id ∧
    id = Sha256.hexdigest data ∧
    String.length id = 64%nat ∧
    Forall (fun c => Sha256.is_hex_digit c = true) (list_ascii_of_string id) ∧
    persist_dir_of E (Some id) = Some (path_join (VECTOR_DB_DIR E) id) ∧
    (∀ s pa pb,
       result (process_document E pa (Some id) s) = Returns "cached"
       ↔ result (process_document E pb (Some id) s) = Returns "cached").
Proof.
  intros H1 H2. exists (Sha256.hexdigest data).
  rewrite (sha256_file_run _ _ _ H1), (sha256_file_run _ _ _ H2).
  assert (Hlen : String.length (Sha256.hexdigest data) = 64%nat).
  { unfold Sha256.hexdigest. by rewrite hex_of_bytes_length, digest_length. }
  split; [done|]. split; [done|]. split; [done|]. split; [done|].
  split; [apply hex_of_bytes_is_hex|]. split.
  - unfold persist_dir_of, given. simpl or_empty.
    destruct (Sha256.hexdigest data) eqn:Hid; [discriminate|reflexivity].
  - intros s pa pb. by rewrite !cached_iff.
Qed.

Lemma fingerprint_of_bytes_is_sole_cache_key_witness :
  ∃ id,
    result (sha256_file "/app/uploads/a.pdf" Demo.fresh) = Returns id ∧
    result (sha256_file "/app/uploads/b.pdf" Demo.ready) = Returns id ∧
    id = Sha256.hexdigest (bytes_of_string "%PDF text") ∧
    String.length id = 64%nat ∧
    Forall (fun c => Sha256.is_hex_digit c = true) (list_ascii_of_string id) ∧
    persist_dir_of (Demo.env None None) (Some id)
      = Some (path_join (VECTOR_DB_DIR (Demo.env None None)) id) ∧
    (∀ s pa pb,
       result (process_document (Demo.env None None) pa (Some id) s) = Returns "cached"
       ↔ result (process_document (Demo.env None None) pb (Some id) s) = Returns "cached").
Proof.
  apply (fingerprint_of_bytes_is_sole_cache_key (Demo.env None None) Demo.fresh Demo.ready
           "/app/uploads/a.pdf" "/app/uploads/b.pdf" (bytes_of_string "%PDF text"));
    reflexivity.
Defined.

(** The standard test vector, and two uploads of the same bytes. *)
Example sha256_demo :
  Sha256.hexdigest (bytes_of_string "abc")
    = "ba7816bf8f01cfea414140de5dae2223b00361a396177a9cb410ff61f20015ad" ∧
  result (sha256_file "/app/uploads/a.pdf" Demo.fresh)
    = result (sha256_file "/app/uploads/b.pdf" Demo.fresh).
Proof. split; vm_compute; reflexivity. Qed.

(** ** The vision fallback, batch by batch *)

Lemma store_pages_extends pdf_path pairs : ∀ docs,
  ∃ more, (store_pages pdf_path pairs docs).1 = docs ++ more.
Proof.
  induction pairs as [|[item idx] rest IH]; intros docs; simpl.
  - exists []. by rewrite app_nil_r.
  - destruct (item_text item) as [text|e]; simpl.
    + destruct (nonempty text).
      * destruct (IH (docs ++ [vision_doc text (idx + 1) pdf_path])) as [more ->].
        eexists. by rewrite <- app_assoc.
      * apply IH.
    + exists []. by rewrite app_nil_r.
Qed.

Lemma try_parse_extends E pdf_path raw batch_indices docs :
  ∃ more, (try_parse E pdf_path raw batch_indices docs).1 = docs ++ more.
Proof.
  unfold try_parse.
  destruct (json_loads E raw) as [data|]; [|exists []; by rewrite app_nil_r].
  destruct (py_get data "pages") as [pages|e]; [|exists []; by rewrite app_nil_r].
  destruct (py_iter _) as [items|e]; [|exists []; by rewrite app_nil_r].
  apply store_pages_extends.
Qed.

Lemma vision_batch_run E hub pdf_path pdf dpi batch_start batch_end docs images resp s :
  image_parts pdf dpi (range batch_start batch_end) = Ok images →
  llm_invoke E hub (TextPart vision_prompt :: images) = Ok resp →
  vision_batch E hub pdf_path pdf dpi batch_start batch_end docs s
  = (Returns (store_batch E pdf_path (strip (or_empty resp)) batch_start batch_end docs),
     s, [Call_llm_invoke (TextPart vision_prompt :: images)]).
Proof.
  intros Himg Hresp. unfold vision_batch. rewrite Himg. run.
  cbv beta iota zeta. rewrite Hresp. by rewrite app_nil_r.
Qed.

Lemma vision_batch_no_divergence E hub pdf_path pdf dpi batch_start batch_end docs s :
  result (vision_batch E hub pdf_path pdf dpi batch_start batch_end docs s) ≠ Diverges.
Proof.
  unfold vision_batch.
  destruct (image_parts pdf dpi (range batch_start batch_end)) as [images|e];
    [|discriminate].
  run. cbv beta iota zeta.
  destruct (llm_invoke E hub (TextPart vision_prompt :: images)); discriminate.
Qed.

(** With batches of at least one page the [while] loop ends: it returns
    or raises within [pages_to_process - batch_start] turns. *)
Lemma vision_loop_ends E hub pdf_path pdf dpi batch_size pages_to_process :
  1 ≤ batch_size →
  ∀ fuel batch_start docs s,
    (Z.to_nat (pages_to_process - batch_start) ≤ fuel)%nat →
    result (vision_loop E fuel hub pdf_path pdf dpi batch_size pages_to_process
                        batch_start docs s) ≠ Diverges.
Proof.
  intros Hsize. induction fuel as [|fuel IH]; intros batch_start docs s Hfuel; simpl.
  - destruct (Z.ltb_spec batch_start pages_to_process); [lia|discriminate].
  - destruct (Z.ltb_spec batch_start pages_to_process) as [Hlt|]; [|discriminate].
    cbv zeta. unfold mbind, M_bind, bind.
    pose proof (vision_batch_no_divergence E hub pdf_path pdf dpi batch_start
                  (Z.min (batch_start + batch_size) pages_to_process) docs s) as Hb.
    destruct (vision_batch _ _ _ _ _ _ _ _ _) as [[[docs'| |] s1] c1];
      [|discriminate|by destruct Hb].
    specialize (IH (Z.min (batch_start + batch_size) pages_to_process) docs' s1).
    destruct (vision_loop _ _ _ _ _ _ _ _ _ _ _) as [[r s2] c2].
    unfold result in *. simpl in *. apply IH. lia.
Qed.

(** X27. With batches of at least one page [_vision_ocr_pdf] always
    comes back, returning or raising, whatever the file and whatever the
    model does. *)
Lemma vision_ocr_pdf_ends E pdf_path max_pages dpi batch_size s :
  1 ≤ batch_size →
  result (_vision_ocr_pdf E pdf_path max_pages dpi batch_size s) ≠ Diverges.
Proof.
  intros Hsize. unfold _vision_ocr_pdf, fitz_open. run.
  destruct (llm_hub s) as [hub|]; [|discriminate].
  destruct (fs_files s !! pdf_path) as [data|]; [|discriminate].
  destruct (fitz_parse E data) as [pdf|]; [|discriminate].
  pose proof (vision_loop_ends E hub pdf_path pdf dpi batch_size
                (Z.min (Z.of_nat (length pdf)) max_pages) Hsize
                (Z.to_nat (Z.min (Z.of_nat (length pdf)) max_pages)) 0 [] s) as Hloop.
  destruct (vision_loop _ _ _ _ _ _ _ _ _ _ _) as [[r s2] c2].
  unfold result in Hloop. simpl in *. apply Hloop. lia.
Qed.

(** C5, as amended. For every batch whose reply, once trimmed, is not
    empty and makes the [try] block raise (be it [json.loads] or the walk
    over the parsed value): the batch does not raise, and the last
    document it appends holds the raw reply, tagged [ocr = "vision_raw"]
    and [page_range = "<batch_start+1>-<batch_end>"]; the documents
    appended before the exception stay; and when it is [json.loads] that
    raised, the raw document is the only one appended. *)
Theorem unparsed_reply_is_stored_raw
    (E : Env) (hub : ChatOpenAI) (pdf_path : string) (pdf : list Page)
    (dpi batch_start batch_end : Z) (docs docs' : list Document)
    (images : list content_part) (resp : option string) (e : exn) (s : State) :
  image_parts pdf dpi (range batch_start batch_end) = Ok images →
  llm_invoke E hub (TextPart vision_prompt :: images) = Ok resp →
  try_parse E pdf_path (strip (or_empty resp)) (range batch_start batch_end) docs
    = (docs', Some e) →
  strip (or_empty resp) ≠ "" →
  let raw_doc := vision_raw_doc (strip (or_empty resp)) batch_start batch_end pdf_path in
  result (vision_batch E hub pdf_path pdf dpi batch_start batch_end docs s)
    = Returns (docs' ++ [raw_doc]) ∧
  (∃ more, docs' = docs ++ more) ∧
  (json_loads E (strip (or_empty resp)) = None → docs' = docs) ∧
  page_content raw_doc = strip (or_empty resp) ∧
  metadata raw_doc !! "ocr" = Some (MStr "vision_raw") ∧
  metadata raw_doc !! "page_range"
    = Some (MStr (str_of_int (batch_start + 1) +:+ "-" +:+ str_of_int batch_end)).
Proof.
  intros Himg Hresp Hparse Hraw raw_doc.
  split; [|split; [|split; [|split; [done|split]]]].
  - rewrite (vision_batch_run _ _ _ _ _ _ _ _ images resp); [|done|done].
    unfold result, store_batch; simpl. rewrite Hparse.
    destruct (strip (or_empty resp)); [done|reflexivity].
  - destruct (try_parse_extends E pdf_path (strip (or_empty resp))
                (range batch_start batch_end) docs) as [more Hmore].
    rewrite Hparse in Hmore. eauto.
  - intros Hloads. unfold try_parse in Hparse. rewrite Hloads in Hparse. congruence.
  - unfold raw_doc, vision_raw_doc; simpl.
    rewrite lookup_insert_ne; [|done]. rewrite lookup_insert_ne; [|done].
    apply lookup_singleton_eq.
  - unfold raw_doc, vision_raw_doc; simpl. apply lookup_insert_eq.
Qed.

Lemma unparsed_reply_is_stored_raw_witness :
  result (vision_batch (Demo.env (Some " I cannot read this. ") None)
            (mkChatOpenAI "gpt-4o-mini" (LDec 1 (-1)) 512) "/app/uploads/scan.pdf"
            [Demo.page ""; Demo.page " "] 140 0 2 [] Demo.ready)
    = Returns ([] ++ [vision_raw_doc (strip (or_empty (Some " I cannot read this. ")))
                        0 2 "/app/uploads/scan.pdf"]) ∧
  (∃ more, @nil Document = [] ++ more) ∧
  (json_loads (Demo.env (Some " I cannot read this. ") None)
     (strip (or_empty (Some " I cannot read this. "))) = None → @nil Document = []) ∧
  page_content (vision_raw_doc (strip (or_empty (Some " I cannot read this. ")))
                  0 2 "/app/uploads/scan.pdf")
    = strip (or_empty (Some " I cannot read this. ")) ∧
  metadata (vision_raw_doc (strip (or_empty (Some " I cannot read this. ")))
              0 2 "/app/uploads/scan.pdf") !! "ocr" = Some (MStr "vision_raw") ∧
  metadata (vision_raw_doc (strip (or_empty (Some " I cannot read this. ")))
              0 2 "/app/uploads/scan.pdf") !! "page_range"
    = Some (MStr (str_of_int (0 + 1) +:+ "-" +:+ str_of_int 2)).
Proof.
  apply (unparsed_reply_is_stored_raw (Demo.env (Some " I cannot read this. ") None)
           (mkChatOpenAI "gpt-4o-mini" (LDec 1 (-1)) 512) "/app/uploads/scan.pdf"
           [Demo.page ""; Demo.page " "] 140 0 2 [] []
           [ImageUrlPart "data:image/jpeg;base64,/9j/4AAQ";
            ImageUrlPart "data:image/jpeg;base64,/9j/4AAQ"]
           (Some " I cannot read this. ") JSONDecodeError Demo.ready).
  - reflexivity.
  - reflexivity.
  - vm_compute. reflexivity.
  - vm_compute. discriminate.
Defined.

(** C5 as stated fails on a blank reply: it is not JSON, the guard
    [if raw:] stores nothing, and the run over the two-page scan returns
    no document at all. *)
Lemma blank_reply_yields_nothing :
  json_loads (Demo.env (Some "  ") None) (strip (or_empty (Some "  "))) = None ∧
  store_batch (Demo.env (Some "  ") None) "/app/uploads/scan.pdf"
              (strip (or_empty (Some "  "))) 0 2 [] = [] ∧
  result (_vision_ocr_pdf (Demo.env (Some "  ") None) "/app/uploads/scan.pdf" 20 140 3
            Demo.ready) = Returns [].
Proof. repeat split; vm_compute; reflexivity. Qed.

(** ** Questions *)

Lemma process_prompt_without_chain E prompt s :
  conversation_retrieval_chain s = None →
  process_prompt E prompt s = (Returns upload_first, s, []).
Proof. intros Hnone. unfold process_prompt. run. by rewrite Hnone. Qed.

(** C8. With no retrieval chain set: [process_prompt] returns the fixed
    guidance text for every prompt and touches nothing; and [/chat], on a
    body whose [message] is a non-empty string, replies with status 200,
    carrying that guidance text under all four keys as soon as the
    message is not blank. *)
Theorem chat_before_upload_gives_guidance
    (E : Env) (s : State) (body message : string) (items : list (string * pyval)) :
  conversation_retrieval_chain s = None →
  json_loads E body = Some (PDict items) →
  dict_get "message" items = Some (PStr message) →
  message ≠ "" →
  (∀ prompt, process_prompt E prompt s = (Returns upload_first, s, [])) ∧
  (∃ payload, chat E body s = (Returns (payload, 200), s, [])) ∧
  (strip message ≠ "" → chat E body s = (Returns (chat_payload upload_first, 200), s, [])).
Proof.
  intros Hnone Hbody Hmsg Hne.
  split; [intros prompt; by apply process_prompt_without_chain|].
  assert (Hchat : chat E body s =
    if nonempty (strip message)
    then (Returns (chat_payload upload_first, 200), s, [])
    else (Returns (chat_payload "Please type a question.", 200), s, [])).
  { unfold chat, catch. rewrite Hbody.
    assert (Htruthy : truthy (PDict items) = true) by (by destruct items).
    rewrite Htruthy. unfold py_get. rewrite Hmsg. unfold or_empty_val.
    run. cbv beta iota zeta delta [truthy].
    assert (Hm : nonempty message = true) by (by destruct message).
    rewrite Hm. unfold str_strip. cbv beta iota.
    destruct (nonempty (strip message)) eqn:Hs; cbv beta iota delta [negb];
      [|reflexivity].
    rewrite (process_prompt_without_chain E _ s Hnone). reflexivity. }
  rewrite Hchat. split.
  - destruct (nonempty (strip message)); eauto.
  - intros Hs. destruct (nonempty (strip message)) eqn:Hn; [done|].
    by apply nonempty_false in Hn.
Qed.

Lemma chat_before_upload_gives_guidance_witness :
  (∀ prompt, process_prompt (Demo.env None None) prompt Demo.ready
             = (Returns upload_first, Demo.ready, [])) ∧
  (∃ payload, chat (Demo.env None None)
                ("{" +:+ Json.q "message" +:+ ": " +:+ Json.q " What is the total? " +:+ "}")
                Demo.ready = (Returns (payload, 200), Demo.ready, [])) ∧
  (strip " What is the total? " ≠ "" →
   chat (Demo.env None None)
     ("{" +:+ Json.q "message" +:+ ": " +:+ Json.q " What is the total? " +:+ "}")
     Demo.ready = (Returns (chat_payload upload_first, 200), Demo.ready, [])).
Proof.
  apply (chat_before_upload_gives_guidance (Demo.env None None) Demo.ready
           ("{" +:+ Json.q "message" +:+ ": " +:+ Json.q " What is the total? " +:+ "}")
           " What is the total? " [("message", PStr " What is the total? ")]).
  - reflexivity.
  - vm_compute. reflexivity.
  - reflexivity.
  - discriminate.
Defined.

(** C10. With a chain set, on a prompt that is not blank, when the chain
    answers: exactly one pair is appended to the log, made of the trimmed
    prompt and the chain's trimmed answer; the value returned is that
    answer, or ["No response."] when the answer is empty, in which case
    what is returned differs from what is logged. *)
Theorem prompt_logs_answer_but_may_return_placeholder
    (E : Env) (s : State) (chain : RetrievalQA) (prompt out : option string) :
  conversation_retrieval_chain s = Some chain →
  strip (or_empty prompt) ≠ "" →
  qa_invoke E chain (strip (or_empty prompt)) = Ok out →
  let r := process_prompt E prompt s in
  let answer := strip (or_empty out) in
  result r = Returns (if nonempty answer then answer else "No response.") ∧
  chat_history (final r) = chat_history s ++ [(strip (or_empty prompt), answer)] ∧
  conversation_retrieval_chain (final r) = Some chain ∧
  (answer = "" → result r = Returns "No response." ∧ result r ≠ Returns answer).
Proof.
  intros Hchain Hprompt Hout r answer.
  assert (Hr : r = (Returns (if nonempty answer then answer else "No response."),
                    set_chat_history
                      (chat_history s ++ [(strip (or_empty prompt), answer)]) s,
                    [Call_qa_invoke (strip (or_empty prompt))])).
  { subst r. unfold process_prompt. run. rewrite Hchain. cbv zeta.
    destruct (nonempty (strip (or_empty prompt))) eqn:Hn;
      [|by apply nonempty_false in Hn].
    simpl negb. cbv iota beta. rewrite Hout. reflexivity. }
  rewrite Hr. unfold result, final; simpl.
  split; [done|]. split; [done|]. split; [done|].
  intros ->. simpl. split; [done|discriminate].
Qed.

Lemma prompt_logs_answer_but_may_return_placeholder_witness :
  result (process_prompt (Demo.env None (Some "  ")) (Some " What is the total? ")
            (Demo.talking Demo.ready))
    = Returns (if nonempty (strip (or_empty (Some "  ")))
               then strip (or_empty (Some "  ")) else "No response.") ∧
  chat_history (final (process_prompt (Demo.env None (Some "  "))
                         (Some " What is the total? ") (Demo.talking Demo.ready)))
    = chat_history (Demo.talking Demo.ready)
      ++ [(strip (or_empty (Some " What is the total? ")), strip (or_empty (Some "  ")))] ∧
  conversation_retrieval_chain
    (final (process_prompt (Demo.env None (Some "  ")) (Some " What is the total? ")
              (Demo.talking Demo.ready))) = Some Demo.earlier_chain ∧
  (strip (or_empty (Some "  ")) = "" →
   result (process_prompt (Demo.env None (Some "  ")) (Some " What is the total? ")
             (Demo.talking Demo.ready)) = Returns "No response." ∧
   result (process_prompt (Demo.env None (Some "  ")) (Some " What is the total? ")
             (Demo.talking Demo.ready)) ≠ Returns (strip (or_empty (Some "  ")))).
Proof.
  apply (prompt_logs_answer_but_may_return_placeholder (Demo.env None (Some "  "))
           (Demo.talking Demo.ready) Demo.earlier_chain (Some " What is the total? ")
           (Some "  ")).
  - reflexivity.
  - vm_compute. discriminate.
  - reflexivity.
Defined.

(** A chain that answers with blanks: the log gains the pair with an
    empty answer, the caller is told ["No response."]. *)
Example prompt_demo :
  process_prompt (Demo.env None (Some "  ")) (Some " What is the total? ")
                 (Demo.talking Demo.ready)
  = (Returns "No response.",
     set_chat_history [("What is the total?", "42"); ("What is the total?", "")]
                      (Demo.talking Demo.ready),
     [Call_qa_invoke "What is the total?"]).
Proof. vm_compute. reflexivity. Qed.

(** Replies of other shapes, on the two-page scan.  A reply that parses
    but breaks off at its second item keeps the first page and adds the
    raw text; one that parses to an object without pages stores nothing,
    and raises nothing. *)
Example reply_shapes :
  let scan := "/app/uploads/scan.pdf" in
  let half := "{" +:+ Json.q "pages" +:+ ": [{" +:+ Json.q "text" +:+ ": "
              +:+ Json.q " Invoice " +:+ "}, 5]}" in
  let both := "{" +:+ Json.q "pages" +:+ ": [{" +:+ Json.q "page" +:+ ": 1, "
              +:+ Json.q "text" +:+ ": " +:+ Json.q "Invoice" +:+ "}, {"
              +:+ Json.q "page" +:+ ": 2, " +:+ Json.q "text" +:+ ": " +:+ Json.q ""
              +:+ "}]}" in
  result (_vision_ocr_pdf (Demo.env (Some half) None) scan 20 140 3 Demo.ready)
    = Returns [vision_doc "Invoice" 1 scan; vision_raw_doc half 0 2 scan] ∧
  result (_vision_ocr_pdf (Demo.env (Some both) None) scan 20 140 3 Demo.ready)
    = Returns [vision_doc "Invoice" 1 scan] ∧
  result (_vision_ocr_pdf (Demo.env (Some "{}") None) scan 20 140 3 Demo.ready)
    = Returns [] ∧
  result (_vision_ocr_pdf (Demo.env (Some "[]") None) scan 20 140 3 Demo.ready)
    = Returns [vision_raw_doc "[]" 0 2 scan] ∧
  result (_vision_ocr_pdf (Demo.env (Some "{}") None) scan 20 140 0 Demo.ready)
    = Diverges.
Proof. cbv zeta. repeat split; vm_compute; reflexivity. Qed.

(* ===================================================================== *)
(** * Further properties of the worker and the server *)
(* ===================================================================== *)

(** ** [process_document]: outcomes *)

Lemma build_index_calls_first E document_path pd emb hub s :
  ∃ rest, calls (build_index E document_path pd emb hub s)
          = Call_extract_selectable_text_documents document_path :: rest.
Proof.
  rewrite build_index_run. cbv zeta.
  destruct (fs_files s !! document_path) as [data|]; [|by eexists].
  destruct (fitz_parse E data) as [pdf|]; [|by eexists].
  destruct (_ =? 0); [by eexists|].
  destruct pd as [d0|]; [destruct (makedirs_error d0 _)|];
    try destruct (embed_documents _ _ _); by eexists.
Qed.

(** X1. Before [init_llm], and only then, [process_document] raises the
    initialization error having done nothing: no call made, and the state,
    conversation log included, exactly as it was. *)
Theorem process_document_before_init_changes_nothing
    (E : Env) (document_path : string) (doc_id : option string) (s : State) :
  ¬ initialized s ↔
  process_document E document_path doc_id s = (Raises not_initialized_error, s, []).
Proof.
  rewrite process_document_run. unfold initialized. split.
  - intros Hni.
    destruct (embeddings s) as [emb|]; [|done].
    destruct (llm_hub s) as [hub|]; [|done].
    exfalso. apply Hni. split; eauto.
  - intros Hrun [[hub Hhub] [emb Hemb]]. rewrite Hemb, Hhub in Hrun. cbv zeta in Hrun.
    assert (Hb : ∀ pd, build_index E document_path pd emb hub (set_chat_history [] s)
                       ≠ (Raises not_initialized_error, s, [])).
    { intros pd Heq.
      destruct (build_index_calls_first E document_path pd emb hub (set_chat_history [] s))
        as [rest Hrest].
      rewrite Heq in Hrest. discriminate. }
    destruct (persist_dir_of E doc_id) as [d|]; [|by apply Hb in Hrun].
    destruct (_ && _); [discriminate|by apply Hb in Hrun].
Qed.





(** A regular file where the index of ["d0c"] would be persisted: the call
    raises at [os.makedirs], after the extractor and the splitter and
    before anything is embedded; the same file is an ancestor of the
    directory for ["d0c/2024"]. *)
Example makedirs_demo :
  let s := Demo.with_file "/app/chatbot/vector_db/d0c" Demo.ready in
  result (process_document (Demo.env None None) "/app/uploads/a.pdf" (Some "d0c") s)
    = Raises (FileExistsError "/app/chatbot/vector_db/d0c") ∧
  length (calls (process_document (Demo.env None None) "/app/uploads/a.pdf" (Some "d0c") s))
    = 2%nat ∧
  final (process_document (Demo.env None None) "/app/uploads/a.pdf" (Some "d0c") s) = s ∧
  result (process_document (Demo.env None None) "/app/uploads/a.pdf" (Some "d0c/2024") s)
    = Raises (NotADirectoryError "/app/chatbot/vector_db/d0c/2024").
Proof. cbv zeta. repeat split; vm_compute; reflexivity. Qed.

(** X3. Without a [doc_id] ([None] or the empty string) nothing is
    persisted: the directories and the files are as before, the answer is
    never ["cached"], no persisted store is opened, and a store that is
    built is built without a directory. *)
Theorem without_doc_id_nothing_is_persisted
    (E : Env) (document_path : string) (doc_id : option string) (s : State) :
  given doc_id = false →
  fs_dirs (final (process_document E document_path doc_id s)) = fs_dirs s ∧
  fs_files (final (process_document E document_path doc_id s)) = fs_files s ∧
  result (process_document E document_path doc_id s) ≠ Returns "cached" ∧
  ∀ c, In c (calls (process_document E document_path doc_id s)) →
       (∀ d, c ≠ Call_Chroma_open d) ∧
       (∀ chunks pd, c = Call_Chroma_from_documents chunks pd → pd = None).
Proof.
  intros Hgiven. rewrite process_document_run.
  destruct (embeddings s) as [emb|];
    [|repeat split; try done; intros _ []].
  destruct (llm_hub s) as [hub|];
    [|repeat split; try done; intros _ []].
  cbv zeta. unfold persist_dir_of. rewrite Hgiven.
  rewrite build_index_run. cbv zeta. simpl fs_files.
  destruct (fs_files s !! document_path) as [data|].
  2: { repeat split; try done; destruct H as [<-|[]]; discriminate. }
  destruct (fitz_parse E data) as [pdf|].
  2: { repeat split; try done; destruct H as [<-|[]]; discriminate. }
  destruct (_ =? 0).
  { repeat split; try done; destruct H as [<-|[]]; discriminate. }
  destruct (embed_documents _ _ _);
    (repeat split; try done;
     [ intros d; destruct H as [<-|[<-|[<-|[]]]]; discriminate
     | intros chunks pd Hc; destruct H as [<-|[<-|[<-|[]]]]; try discriminate;
       by injection Hc as _ <- ]).
Qed.

Lemma without_doc_id_nothing_is_persisted_witness :
  fs_dirs (final (process_document (Demo.env None None) "/app/uploads/a.pdf" (Some "")
                    Demo.ready)) = fs_dirs Demo.ready ∧
  fs_files (final (process_document (Demo.env None None) "/app/uploads/a.pdf" (Some "")
                     Demo.ready)) = fs_files Demo.ready ∧
  result (process_document (Demo.env None None) "/app/uploads/a.pdf" (Some "") Demo.ready)
    ≠ Returns "cached" ∧
  ∀ c, In c (calls (process_document (Demo.env None None) "/app/uploads/a.pdf" (Some "")
                      Demo.ready)) →
       (∀ d, c ≠ Call_Chroma_open d) ∧
       (∀ chunks pd, c = Call_Chroma_from_documents chunks pd → pd = None).
Proof.
  apply (without_doc_id_nothing_is_persisted (Demo.env None None) "/app/uploads/a.pdf"
           (Some "") Demo.ready).
  reflexivity.
Defined.

(** X4. When [process_document] returns ["indexed"]: the extractor had
    returned at least one document; the calls were the extractor, the
    splitter and the index construction, in this order, the last on the
    non-blank chunks of those documents; the chain is the one built on
    that store with the current model; the conversation log is empty;
    and the content of every file is as it was. *)
Theorem indexed_postcondition
    (E : Env) (document_path : string) (doc_id : option string) (s : State) :
  result (process_document E document_path doc_id s) = Returns "indexed" →
  ∃ hub emb docs,
    llm_hub s = Some hub ∧ embeddings s = Some emb ∧
    result (_extract_selectable_text_documents E document_path s) = Returns docs ∧
    docs ≠ [] ∧
    calls (process_document E document_path doc_id s)
      = [Call_extract_selectable_text_documents document_path;
         Call_split_documents docs;
         Call_Chroma_from_documents (chunks_of E docs) (persist_dir_of E doc_id)] ∧
    conversation_retrieval_chain (final (process_document E document_path doc_id s))
      = Some (from_chain_type hub
                (ChromaFromDocuments (chunks_of E docs) emb (persist_dir_of E doc_id))) ∧
    chat_history (final (process_document E document_path doc_id s)) = [] ∧
    fs_files (final (process_document E document_path doc_id s)) = fs_files s.
Proof.
  rewrite process_document_run, extract_run.
  destruct (embeddings s) as [emb|]; [|discriminate].
  destruct (llm_hub s) as [hub|]; [|discriminate].
  cbv zeta.
  assert (Hb : ∀ pd,
    result (build_index E document_path pd emb hub (set_chat_history [] s))
      = Returns "indexed" →
    ∃ docs,
      result match fs_files s !! document_path with
             | Some data =>
                 match fitz_parse E data with
                 | Some pdf =>
                     (Returns (extract_pages document_path 0 pdf []), s,
                      [Call_extract_selectable_text_documents document_path])
                 | None =>
                     (Raises (FileDataError document_path), s,
                      [Call_extract_selectable_text_documents document_path])
                 end
             | None =>
                 (Raises (FileNotFoundError document_path), s,
                  [Call_extract_selectable_text_documents document_path])
             end = Returns docs ∧
      docs ≠ [] ∧
      calls (build_index E document_path pd emb hub (set_chat_history [] s))
        = [Call_extract_selectable_text_documents document_path;
           Call_split_documents docs;
           Call_Chroma_from_documents (chunks_of E docs) pd] ∧
      conversation_retrieval_chain
        (final (build_index E document_path pd emb hub (set_chat_history [] s)))
        = Some (from_chain_type hub (ChromaFromDocuments (chunks_of E docs) emb pd)) ∧
      chat_history (final (build_index E document_path pd emb hub (set_chat_history [] s)))
        = [] ∧
      fs_files (final (build_index E document_path pd emb hub (set_chat_history [] s)))
        = fs_files s).
  { intros pd. rewrite build_index_run. cbv zeta. simpl fs_files.
    destruct (fs_files s !! document_path) as [data|]; [|discriminate].
    destruct (fitz_parse E data) as [pdf|]; [|discriminate].
    destruct (_ =? 0) eqn:Hlen; [discriminate|].
    set (docs := extract_pages document_path 0 pdf []) in *.
    assert (Hdocs : docs ≠ []) by (intros Heq; by rewrite Heq in Hlen).
    destruct pd as [d|]; [destruct (makedirs_error d _)|];
      try destruct (embed_documents _ _ _); try discriminate;
      intros _; exists docs; repeat split; try done.
    - unfold final; simpl.
      by destruct (after_makedirs_globals d (set_chat_history [] s)) as (-> & _).
    - unfold final, after_persist, after_makedirs; simpl.
      by destruct (isdir d (set_chat_history [] s)). }
  destruct (persist_dir_of E doc_id) as [d|] eqn:Hd.
  - destruct (_ && _); [discriminate|].
    intros H. destruct (Hb _ H) as (docs & ?). exists hub, emb, docs. tauto.
  - intros H. destruct (Hb _ H) as (docs & ?). exists hub, emb, docs. tauto.
Qed.

Lemma indexed_postcondition_witness :
  ∃ hub emb docs,
    llm_hub Demo.ready = Some hub ∧ embeddings Demo.ready = Some emb ∧
    result (_extract_selectable_text_documents (Demo.env None None) "/app/uploads/a.pdf"
              Demo.ready) = Returns docs ∧
    docs ≠ [] ∧
    calls (process_document (Demo.env None None) "/app/uploads/a.pdf" (Some "d0c")
             Demo.ready)
      = [Call_extract_selectable_text_documents "/app/uploads/a.pdf";
         Call_split_documents docs;
         Call_Chroma_from_documents (chunks_of (Demo.env None None) docs)
           (persist_dir_of (Demo.env None None) (Some "d0c"))] ∧
    conversation_retrieval_chain
      (final (process_document (Demo.env None None) "/app/uploads/a.pdf" (Some "d0c")
                Demo.ready))
      = Some (from_chain_type hub
                (ChromaFromDocuments (chunks_of (Demo.env None None) docs) emb
                   (persist_dir_of (Demo.env None None) (Some "d0c")))) ∧
    chat_history (final (process_document (Demo.env None None) "/app/uploads/a.pdf"
                           (Some "d0c") Demo.ready)) = [] ∧
    fs_files (final (process_document (Demo.env None None) "/app/uploads/a.pdf"
                       (Some "d0c") Demo.ready)) = fs_files Demo.ready.
Proof.
  apply (indexed_postcondition (Demo.env None None) "/app/uploads/a.pdf" (Some "d0c")
           Demo.ready).
  reflexivity.
Defined.

(** ** [str.strip] is idempotent *)

Lemma find_none_intro {A} (f : A → bool) l :
  (∀ x, In x l → f x = false) → find f l = None.
Proof.
  induction l as [|a l IH]; intros H; simpl; [done|].
  rewrite (H a); [|by left]. apply IH. intros x Hx. apply H. by right.
Qed.

Lemma lstrip_go_clean ws : Forall (fun p => p ≠ []) ws →
  ∀ fuel l, (length l ≤ fuel)%nat →
    clean ws (lstrip_go ws fuel l) ∧ ∃ k, l = k ++ lstrip_go ws fuel l.
Proof.
  intros Hws. induction fuel as [|fuel IH]; intros l Hlen; simpl.
  - destruct l; [|simpl in Hlen; lia]. split; [|by exists []].
    unfold clean. apply find_none_intro. intros p Hp. unfold starts_with.
    apply bool_decide_eq_false. rewrite take_nil. intros Heq.
    rewrite Forall_forall in Hws. apply (Hws p); [by apply list_elem_of_In|done].
  - destruct (find (fun p => starts_with p l) ws) as [p|] eqn:Hfind.
    + apply find_some in Hfind as [Hin Hstart].
      apply bool_decide_eq_true in Hstart.
      assert (Hp : p ≠ []).
      { rewrite Forall_forall in Hws. apply Hws. by apply list_elem_of_In. }
      assert (Hlp : (0 < length p ≤ length l)%nat).
      { split; [destruct p; [done|simpl; lia]|].
        rewrite <- Hstart at 1. rewrite length_take. lia. }
      destruct (IH (drop (length p) l)) as [Hclean [k Hk]].
      { rewrite length_drop. lia. }
      split; [done|]. exists (take (length p) l ++ k).
      rewrite <- app_assoc, <- Hk. by rewrite take_drop.
    + split; [done|by exists []].
Qed.

Lemma lstrip_go_of_clean ws fuel l : clean ws l → lstrip_go ws fuel l = l.
Proof. unfold clean. intros Hclean. destruct fuel; simpl; [done|by rewrite Hclean]. Qed.

Lemma clean_prefix ws l k : clean ws (l ++ k) → Forall (fun p => p ≠ []) ws → clean ws l.
Proof.
  unfold clean. intros Hclean Hws. apply find_none_intro. intros p Hp.
  pose proof (find_none _ _ Hclean p Hp) as Hp'. simpl in Hp'. clear Hclean.
  rename Hp' into Hclean.
  unfold starts_with in *. apply bool_decide_eq_false.
  apply bool_decide_eq_false in Hclean. intros Heq. apply Hclean.
  assert (length p ≤ length l)%nat.
  { rewrite <- Heq at 1. rewrite length_take. lia. }
  by rewrite take_app_le.
Qed.

Lemma whitespace_nonempty : Forall (fun p : list Z => p ≠ []) whitespace.
Proof. unfold whitespace. repeat constructor; discriminate. Qed.

Lemma rev_whitespace_nonempty : Forall (fun p : list Z => p ≠ []) (map (@rev Z) whitespace).
Proof. unfold whitespace. repeat constructor; discriminate. Qed.

Lemma codes_range s : Forall (fun z => 0 ≤ z < 256) (codes s).
Proof.
  unfold codes. apply Forall_map, Forall_forall. intros c _. simpl.
  pose proof (nat_ascii_bounded c). lia.
Qed.

Lemma codes_of_codes l : Forall (fun z => 0 ≤ z < 256) l → codes (of_codes l) = l.
Proof.
  unfold codes, of_codes. rewrite list_ascii_of_string_of_list_ascii.
  induction 1 as [|z l Hz _ IH]; simpl; [done|].
  rewrite IH, nat_ascii_embedding; [|lia]. f_equal. lia.
Qed.

Lemma strip_idempotent s : strip (strip s) = strip s.
Proof.
  set (y := lstrip (codes s)). set (x := rstrip y).
  assert (Hs : strip s = of_codes x) by reflexivity.
  destruct (lstrip_go_clean whitespace whitespace_nonempty (length (codes s)) (codes s))
    as [Hy [k Hk]]; [done|]. fold (lstrip (codes s)) in Hy, Hk. fold y in Hy, Hk.
  destruct (lstrip_go_clean (map (@rev Z) whitespace) rev_whitespace_nonempty
              (length (rev y)) (rev y)) as [Hx [k' Hk']]; [done|].
  assert (Hrevx : rev x = lstrip_go (map (@rev Z) whitespace) (length (rev y)) (rev y)).
  { unfold x, rstrip. cbv zeta. by rewrite rev_involutive. }
  rewrite <- Hrevx in Hx, Hk'.
  assert (Hyx : y = x ++ rev k').
  { rewrite <- (rev_involutive y), Hk', rev_app_distr. by rewrite rev_involutive. }
  assert (Hrange : Forall (fun z => 0 ≤ z < 256) x).
  { pose proof (codes_range s) as Hc. rewrite Hk, Hyx in Hc.
    apply Forall_app in Hc as [_ Hc]. by apply Forall_app in Hc as [Hc _]. }
  assert (Hl : lstrip x = x).
  { apply lstrip_go_of_clean. rewrite Hyx in Hy.
    by apply clean_prefix in Hy; [|apply whitespace_nonempty]. }
  assert (Hr : rstrip x = x).
  { unfold rstrip. cbv zeta. rewrite lstrip_go_of_clean; [|done].
    by rewrite rev_involutive. }
  rewrite Hs. unfold strip. rewrite codes_of_codes; [|done]. by rewrite Hl, Hr.
Qed.

(** ** [process_prompt] *)

Lemma process_prompt_run E prompt s :
  process_prompt E prompt s =
  match conversation_retrieval_chain s with
  | None => (Returns upload_first, s, [])
  | Some chain =>
      let q := strip (or_empty prompt) in
      if nonempty q then
        match qa_invoke E chain q with
        | Ok out =>
            let answer := strip (or_empty out) in
            (Returns (if nonempty answer then answer else "No response."),
             set_chat_history (chat_history s ++ [(q, answer)]) s,
             [Call_qa_invoke q])
        | Raise e => (Raises e, s, [Call_qa_invoke q])
        end
      else (Returns type_a_question, s, [])
  end.
Proof.
  unfold process_prompt. run.
  destruct (conversation_retrieval_chain s) as [chain|]; [|done].
  cbv zeta. destruct (nonempty (strip (or_empty prompt))); cbv beta iota delta [negb];
    [|done].
  by destruct (qa_invoke E chain _).
Qed.

(** X5. Whatever the prompt and the state, [process_prompt] comes back,
    never with the empty string; it appends at most one pair to the
    conversation log and changes nothing else; and when it raises, the
    state is exactly as before. *)
Theorem process_prompt_effects (E : Env) (prompt : option string) (s : State) :
  result (process_prompt E prompt s) ≠ Diverges ∧
  result (process_prompt E prompt s) ≠ Returns "" ∧
  (∃ more, (length more ≤ 1)%nat ∧
           final (process_prompt E prompt s)
             = set_chat_history (chat_history s ++ more) s) ∧
  (∀ e, result (process_prompt E prompt s) = Raises e →
        final (process_prompt E prompt s) = s).
Proof.
  rewrite process_prompt_run.
  assert (Hsame : s = set_chat_history (chat_history s ++ []) s).
  { destruct s. unfold set_chat_history. simpl. by rewrite app_nil_r. }
  destruct (conversation_retrieval_chain s) as [chain|].
  2: { repeat split; try done. exists []. split; [simpl; lia|done]. }
  cbv zeta. destruct (nonempty (strip (or_empty prompt))).
  2: { repeat split; try done. exists []. split; [simpl; lia|done]. }
  destruct (qa_invoke E chain _) as [out|e].
  - repeat split; try done.
    + unfold result; simpl. destruct (strip (or_empty out)); discriminate.
    + eexists [_]. split; [simpl; lia|done].
  - repeat split; try done. exists []. split; [simpl; lia|done].
Qed.

(** X6. With a chain set, a prompt that is [None], empty or blank is
    answered ["Please type a question."]: the chain is not invoked and
    nothing is logged. *)
Theorem blank_prompt_is_not_sent_to_the_chain
    (E : Env) (prompt : option string) (s : State) :
  is_Some (conversation_retrieval_chain s) →
  strip (or_empty prompt) = "" →
  process_prompt E prompt s = (Returns type_a_question, s, []).
Proof.
  intros [chain Hchain] Hblank. rewrite process_prompt_run, Hchain. cbv zeta.
  by rewrite Hblank.
Qed.

Lemma blank_prompt_is_not_sent_to_the_chain_witness :
  process_prompt (Demo.env None (Some "42")) (Some "   ") (Demo.talking Demo.ready)
  = (Returns type_a_question, Demo.talking Demo.ready, []).
Proof.
  apply (blank_prompt_is_not_sent_to_the_chain (Demo.env None (Some "42")) (Some "   ")
           (Demo.talking Demo.ready)).
  - eexists. reflexivity.
  - vm_compute. reflexivity.
Defined.

(** X7. When the chain raises, [process_prompt] raises the same
    exception after that single call, and the question is not logged. *)
Theorem chain_failure_is_not_logged
    (E : Env) (prompt : option string) (s : State) (chain : RetrievalQA) (e : exn) :
  conversation_retrieval_chain s = Some chain →
  strip (or_empty prompt) ≠ "" →
  qa_invoke E chain (strip (or_empty prompt)) = Raise e →
  process_prompt E prompt s = (Raises e, s, [Call_qa_invoke (strip (or_empty prompt))]).
Proof.
  intros Hchain Hprompt Hfail. rewrite process_prompt_run, Hchain. cbv zeta.
  destruct (nonempty (strip (or_empty prompt))) eqn:Hn;
    [|by apply nonempty_false in Hn].
  by rewrite Hfail.
Qed.

Lemma chain_failure_is_not_logged_witness :
  process_prompt Outage.env (Some " What is the total? ") (Demo.talking Demo.ready)
  = (Raises Outage.down, Demo.talking Demo.ready,
     [Call_qa_invoke (strip (or_empty (Some " What is the total? ")))]).
Proof.
  apply (chain_failure_is_not_logged Outage.env (Some " What is the total? ")
           (Demo.talking Demo.ready) Demo.earlier_chain Outage.down).
  - reflexivity.
  - vm_compute. discriminate.
  - reflexivity.
Defined.

(** ** The chat route *)

Lemma chat_run E body s :
  chat E body s =
  match py_get (chat_data E body) "message" with
  | Raise _ => (Returns (chat_payload chat_sorry, 500), s, [])
  | Ok message =>
      match str_strip (or_empty_val message) with
      | Raise _ => (Returns (chat_payload chat_sorry, 500), s, [])
      | Ok prompt =>
          if nonempty prompt then
            match process_prompt E (Some prompt) s with
            | (Returns answer, s', c) =>
                (Returns (chat_payload (if nonempty answer then answer else ""), 200), s', c)
            | (Raises _, s', c) => (Returns (chat_payload chat_sorry, 500), s', c)
            | (Diverges, s', c) => (Diverges, s', c)
            end
          else (Returns (chat_payload type_a_question, 200), s, [])
      end
  end.
Proof.
  unfold chat, catch. fold (chat_data E body).
  destruct (py_get (chat_data E body) "message") as [message|e]; [|reflexivity].
  run. cbv beta iota zeta.
  destruct (str_strip (or_empty_val message)) as [prompt|e]; [|reflexivity].
  cbv beta iota zeta.
  destruct (nonempty prompt); cbv beta iota delta [negb]; [|reflexivity].
  destruct (process_prompt E (Some prompt) s) as [[[answer|e|] s'] c]; simpl;
    by rewrite ?app_nil_r.
Qed.

(** X8. Every request to [/chat] is answered, with status 200 or 500 and
    the same non-empty text under the four keys; a 500 carries the fixed
    apology and leaves the state as it was. *)
Theorem chat_reply_shape (E : Env) (body : string) (s : State) :
  ∃ msg status,
    result (chat E body s) = Returns (chat_payload msg, status) ∧
    (status = 200 ∨ status = 500) ∧
    msg ≠ "" ∧
    (status = 500 → msg = chat_sorry ∧ final (chat E body s) = s).
Proof.
  rewrite chat_run.
  destruct (py_get (chat_data E body) "message") as [message|e].
  2: { exists chat_sorry, 500. repeat split; auto; discriminate. }
  destruct (str_strip (or_empty_val message)) as [prompt|e].
  2: { exists chat_sorry, 500. repeat split; auto; discriminate. }
  destruct (nonempty prompt).
  2: { exists type_a_question, 200. repeat split; auto; discriminate. }
  rewrite process_prompt_run.
  destruct (conversation_retrieval_chain s) as [chain|].
  2: { exists upload_first, 200. repeat split; auto; discriminate. }
  cbv zeta. destruct (nonempty (strip (or_empty (Some prompt)))).
  2: { exists type_a_question, 200. repeat split; auto; discriminate. }
  destruct (qa_invoke E chain _) as [out|e].
  - destruct (nonempty (strip (or_empty out))) eqn:Hn.
    + exists (strip (or_empty out)), 200. unfold result; simpl. rewrite Hn.
      split; [done|]. split; [auto|]. split; [by apply nonempty_true|discriminate].
    + exists "No response.", 200. repeat split; auto; discriminate.
  - exists chat_sorry, 500. repeat split; auto; discriminate.
Qed.

(** X9. A request that asks nothing (a body that is no JSON, or empty, or
    an object without a message, or with a falsy or blank one) gets 200
    and ["Please type a question."], whether a document was uploaded or
    not; [process_prompt] is not reached and the state is untouched. *)
Theorem chat_without_question_asks_for_one (E : Env) (body : string) (s : State) :
  asks_nothing E body →
  chat E body s = (Returns (chat_payload type_a_question, 200), s, []).
Proof.
  intros (items & Hdata & Hmsg). rewrite chat_run, Hdata. simpl py_get.
  destruct (dict_get "message" items) as [m|]; [|reflexivity].
  destruct Hmsg as [Hfalsy|(text & -> & Hblank)].
  - unfold or_empty_val. rewrite Hfalsy. reflexivity.
  - unfold or_empty_val. destruct (truthy (PStr text)).
    + simpl str_strip. by rewrite Hblank.
    + reflexivity.
Qed.

Lemma chat_without_question_asks_for_one_witness :
  chat (Demo.env None None) ("{" +:+ Json.q "message" +:+ ": " +:+ Json.q "   " +:+ "}")
       Demo.fresh
  = (Returns (chat_payload type_a_question, 200), Demo.fresh, []).
Proof.
  apply (chat_without_question_asks_for_one (Demo.env None None)
           ("{" +:+ Json.q "message" +:+ ": " +:+ Json.q "   " +:+ "}") Demo.fresh).
  exists [("message", PStr "   ")]. split; [vm_compute; reflexivity|].
  right. exists "   ". split; [reflexivity|vm_compute; reflexivity].
Defined.

(** Bodies that ask nothing, and the order of the two guidance texts:
    with no document, [/chat] asks for a question where [process_prompt]
    itself would ask for an upload. *)
Example chat_bodies_asking_nothing :
  let asks body := chat (Demo.env None None) body Demo.fresh
                   = (Returns (chat_payload type_a_question, 200), Demo.fresh, []) in
  asks "" ∧ asks "not json" ∧ asks "{}" ∧ asks "[]" ∧ asks "0" ∧ asks "null" ∧
  asks ("{" +:+ Json.q "message" +:+ ": null}") ∧
  asks ("{" +:+ Json.q "message" +:+ ": 0}") ∧
  asks ("{" +:+ Json.q "msg" +:+ ": " +:+ Json.q "hello" +:+ "}") ∧
  process_prompt (Demo.env None None) (Some "") Demo.fresh
    = (Returns upload_first, Demo.fresh, []).
Proof. cbv zeta. repeat split; vm_compute; reflexivity. Qed.

(** X10. A malformed request gets status 500 with the fixed apology;
    [process_prompt] is not reached and the state is untouched. *)
Theorem chat_malformed_request_is_500 (E : Env) (body : string) (s : State) :
  malformed_request E body →
  chat E body s = (Returns (chat_payload chat_sorry, 500), s, []).
Proof.
  unfold malformed_request. intros Hbad. rewrite chat_run.
  destruct (chat_data E body) as [| | | | |items|items]; try reflexivity.
  destruct Hbad as (m & Hm & Htruthy & Hnostr). simpl py_get. rewrite Hm.
  unfold or_empty_val. rewrite Htruthy.
  destruct m; try reflexivity. by destruct (Hnostr s0).
Qed.

Lemma chat_malformed_request_is_500_witness :
  chat (Demo.env None (Some "42")) ("{" +:+ Json.q "message" +:+ ": 5}")
       (Demo.talking Demo.ready)
  = (Returns (chat_payload chat_sorry, 500), Demo.talking Demo.ready, []).
Proof.
  apply (chat_malformed_request_is_500 (Demo.env None (Some "42"))
           ("{" +:+ Json.q "message" +:+ ": 5}") (Demo.talking Demo.ready)).
  exists (PInt 5). split; [reflexivity|]. split; [reflexivity|discriminate].
Defined.

Example chat_malformed_bodies :
  let fails body := chat (Demo.env None None) body Demo.fresh
                    = (Returns (chat_payload chat_sorry, 500), Demo.fresh, []) in
  fails "[1]" ∧ fails "7" ∧ fails "true" ∧ fails (Json.q "hello") ∧
  fails ("{" +:+ Json.q "message" +:+ ": [" +:+ Json.q "hello" +:+ "]}") ∧
  fails ("{" +:+ Json.q "message" +:+ ": true}").
Proof. cbv zeta. repeat split; vm_compute; reflexivity. Qed.

Lemma chat_message_run E body s items text :
  json_loads E body = Some (PDict items) →
  dict_get "message" items = Some (PStr text) →
  strip text ≠ "" →
  chat E body s =
  match process_prompt E (Some (strip text)) s with
  | (Returns answer, s', c) =>
      (Returns (chat_payload (if nonempty answer then answer else ""), 200), s', c)
  | (Raises _, s', c) => (Returns (chat_payload chat_sorry, 500), s', c)
  | (Diverges, s', c) => (Diverges, s', c)
  end.
Proof.
  intros Hbody Hmsg Hne. rewrite chat_run. unfold chat_data. rewrite Hbody.
  assert (Hitems : truthy (PDict items) = true) by (by destruct items).
  rewrite Hitems. simpl py_get. rewrite Hmsg. unfold or_empty_val.
  assert (Htext : truthy (PStr text) = true).
  { destruct text; [|done]. by vm_compute in Hne. }
  rewrite Htext. simpl str_strip. cbv beta iota.
  destruct (nonempty (strip text)) eqn:Hn; [done|by apply nonempty_false in Hn].
Qed.

(** X11. With a chain set and a message that is not blank, a chain that
    raises gives status 500 with the fixed apology, after that single
    call; the question is not logged and the state is untouched. *)
Theorem chat_chain_failure_is_500
    (E : Env) (body text : string) (items : list (string * pyval)) (s : State)
    (chain : RetrievalQA) (e : exn) :
  conversation_retrieval_chain s = Some chain →
  json_loads E body = Some (PDict items) →
  dict_get "message" items = Some (PStr text) →
  strip text ≠ "" →
  qa_invoke E chain (strip text) = Raise e →
  chat E body s = (Returns (chat_payload chat_sorry, 500), s, [Call_qa_invoke (strip text)]).
Proof.
  intros Hchain Hbody Hmsg Hne Hfail.
  rewrite (chat_message_run E body s items text Hbody Hmsg Hne).
  rewrite process_prompt_run, Hchain. cbv zeta. simpl or_empty.
  rewrite strip_idempotent.
  destruct (nonempty (strip text)) eqn:Hn; [|by apply nonempty_false in Hn].
  by rewrite Hfail.
Qed.

Lemma chat_chain_failure_is_500_witness :
  chat Outage.env ("{" +:+ Json.q "message" +:+ ": " +:+ Json.q " Total? " +:+ "}")
       (Demo.talking Demo.ready)
  = (Returns (chat_payload chat_sorry, 500), Demo.talking Demo.ready,
     [Call_qa_invoke (strip " Total? ")]).
Proof.
  apply (chat_chain_failure_is_500 Outage.env
           ("{" +:+ Json.q "message" +:+ ": " +:+ Json.q " Total? " +:+ "}") " Total? "
           [("message", PStr " Total? ")] (Demo.talking Demo.ready) Demo.earlier_chain
           Outage.down).
  - reflexivity.
  - vm_compute. reflexivity.
  - reflexivity.
  - vm_compute. discriminate.
  - reflexivity.
Defined.

(** X12. With a chain set and a message that is not blank, when the
    chain answers: the reply is 200 with the trimmed answer, or
    ["No response."] for an empty one, under the four keys; the chain was
    asked the trimmed message, once; and the log gained exactly the pair
    of the trimmed message and the trimmed answer. *)
Theorem chat_answers_from_the_chain
    (E : Env) (body text : string) (items : list (string * pyval)) (s : State)
    (chain : RetrievalQA) (out : option string) :
  conversation_retrieval_chain s = Some chain →
  json_loads E body = Some (PDict items) →
  dict_get "message" items = Some (PStr text) →
  strip text ≠ "" →
  qa_invoke E chain (strip text) = Ok out →
  chat E body s
  = (Returns (chat_payload (if nonempty (strip (or_empty out))
                            then strip (or_empty out) else "No response."), 200),
     set_chat_history (chat_history s ++ [(strip text, strip (or_empty out))]) s,
     [Call_qa_invoke (strip text)]).
Proof.
  intros Hchain Hbody Hmsg Hne Hout.
  rewrite (chat_message_run E body s items text Hbody Hmsg Hne).
  rewrite process_prompt_run, Hchain. cbv zeta. simpl or_empty.
  rewrite strip_idempotent.
  destruct (nonempty (strip text)) eqn:Hn; [|by apply nonempty_false in Hn].
  rewrite Hout. by destruct (nonempty (strip (or_empty out))) eqn:Ha; [rewrite Ha|].
Qed.

Lemma chat_answers_from_the_chain_witness :
  chat (Demo.env None (Some " 42 euros "))
       ("{" +:+ Json.q "message" +:+ ": " +:+ Json.q " Total? " +:+ "}")
       (Demo.talking Demo.ready)
  = (Returns (chat_payload (if nonempty (strip (or_empty (Some " 42 euros ")))
                            then strip (or_empty (Some " 42 euros "))
                            else "No response."), 200),
     set_chat_history
       (chat_history (Demo.talking Demo.ready)
        ++ [(strip " Total? ", strip (or_empty (Some " 42 euros ")))])
       (Demo.talking Demo.ready),
     [Call_qa_invoke (strip " Total? ")]).
Proof.
  apply (chat_answers_from_the_chain (Demo.env None (Some " 42 euros "))
           ("{" +:+ Json.q "message" +:+ ": " +:+ Json.q " Total? " +:+ "}") " Total? "
           [("message", PStr " Total? ")] (Demo.talking Demo.ready) Demo.earlier_chain
           (Some " 42 euros ")).
  - reflexivity.
  - vm_compute. reflexivity.
  - reflexivity.
  - vm_compute. discriminate.
  - reflexivity.
Defined.

(** ** What the worker leaves on disk, and the handles *)

Lemma after_makedirs_lookup d0 d s entries :
  fs_dirs s !! d = Some entries → fs_dirs (after_makedirs d0 s) !! d = Some entries.
Proof.
  intros Hd. unfold after_makedirs, isdir.
  destruct (bool_decide_reflect (is_Some (fs_dirs s !! d0))) as [|Hno]; [done|].
  simpl. rewrite lookup_insert_ne; [done|]. intros ->. apply Hno. by rewrite Hd.
Qed.

Lemma after_persist_lookup d0 files d s entries :
  fs_dirs s !! d = Some entries →
  ∃ more, fs_dirs (after_persist d0 files s) !! d = Some (entries ++ more).
Proof.
  intros Hd. unfold after_persist. simpl. destruct (decide (d0 = d)) as [->|Hne].
  - rewrite lookup_insert_eq. unfold listdir. rewrite Hd. by exists files.
  - rewrite lookup_insert_ne; [|done]. exists []. by rewrite app_nil_r.
Qed.

Lemma process_document_disk E document_path doc_id s d entries :
  fs_dirs s !! d = Some entries →
  fs_files (final (process_document E document_path doc_id s)) = fs_files s ∧
  ∃ more, fs_dirs (final (process_document E document_path doc_id s)) !! d
          = Some (entries ++ more).
Proof.
  intros Hd. rewrite process_document_run.
  assert (Hsame : ∃ more, fs_dirs s !! d = Some (entries ++ more)).
  { exists []. by rewrite app_nil_r. }
  destruct (embeddings s) as [emb|]; [|done].
  destruct (llm_hub s) as [hub|]; [|done].
  cbv zeta.
  assert (Hb : ∀ pd,
    fs_files (final (build_index E document_path pd emb hub (set_chat_history [] s)))
      = fs_files s ∧
    ∃ more, fs_dirs (final (build_index E document_path pd emb hub
                              (set_chat_history [] s))) !! d = Some (entries ++ more)).
  { intros pd. rewrite build_index_run. cbv zeta. simpl fs_files.
    destruct (fs_files s !! document_path) as [data|]; [|done].
    destruct (fitz_parse E data) as [pdf|]; [|done].
    destruct (_ =? 0); [done|].
    destruct pd as [d0|]; [destruct (makedirs_error d0 _)|];
      try destruct (embed_documents _ _ _); unfold final; simpl; try done.
    - split; [unfold after_makedirs; by destruct (isdir _ _)|].
      apply after_persist_lookup. by apply after_makedirs_lookup.
    - split; [unfold after_makedirs; by destruct (isdir _ _)|].
      exists []. rewrite app_nil_r. by apply after_makedirs_lookup. }
  destruct (persist_dir_of E doc_id) as [d0|]; [|apply Hb].
  destruct (_ && _); [done|apply Hb].
Qed.

Lemma process_prompt_disk E prompt s :
  fs_files (final (process_prompt E prompt s)) = fs_files s ∧
  fs_dirs (final (process_prompt E prompt s)) = fs_dirs s.
Proof.
  rewrite process_prompt_run.
  destruct (conversation_retrieval_chain s) as [chain|]; [|done].
  cbv zeta. destruct (nonempty _); [|done]. by destruct (qa_invoke E chain _).
Qed.

(** X13. The worker never deletes, empties or shortens a directory, and
    never changes the content of a file: after any sequence of its
    operations every directory that existed still exists and lists what
    it listed followed by what was added (the files of a persisted
    index), and the contents of the files are the same. *)
Theorem worker_only_adds_to_directories
    (E : Env) (ops : list op) (s : State) (d : string) (entries : list string) :
  fs_dirs s !! d = Some entries →
  fs_files (run_ops E ops s) = fs_files s ∧
  ∃ more, fs_dirs (run_ops E ops s) !! d = Some (entries ++ more).
Proof.
  revert s entries. induction ops as [|o rest IH]; intros s entries Hd.
  - split; [done|]. exists []. by rewrite app_nil_r.
  - unfold run_ops in *. simpl.
    assert (Ho : fs_files (run_op E o s) = fs_files s ∧
                 ∃ more, fs_dirs (run_op E o s) !! d = Some (entries ++ more)).
    { destruct o as [|p i|q]; simpl.
      - split; [done|]. exists []. by rewrite app_nil_r.
      - by apply process_document_disk.
      - destruct (process_prompt_disk E q s) as [-> ->]. split; [done|].
        exists []. by rewrite app_nil_r. }
    destruct Ho as [Hf [more Hmore]].
    destruct (IH _ _ Hmore) as [Hf' [more' Hmore']].
    split; [congruence|]. exists (more ++ more'). by rewrite app_assoc.
Qed.

Lemma worker_only_adds_to_directories_witness :
  fs_files (run_ops (Demo.env None (Some "42"))
              [Op_process_document "/app/uploads/a.pdf" (Some "d0c");
               Op_process_prompt (Some "Total?");
               Op_process_document "/app/uploads/scan.pdf" (Some "5ca9")]
              (Demo.with_index Demo.ready))
    = fs_files (Demo.with_index Demo.ready) ∧
  ∃ more, fs_dirs (run_ops (Demo.env None (Some "42"))
                     [Op_process_document "/app/uploads/a.pdf" (Some "d0c");
                      Op_process_prompt (Some "Total?");
                      Op_process_document "/app/uploads/scan.pdf" (Some "5ca9")]
                     (Demo.with_index Demo.ready)) !! "/app/chatbot/vector_db/d0c"
          = Some (["chroma.sqlite3"] ++ more).
Proof.
  apply (worker_only_adds_to_directories (Demo.env None (Some "42")) _
           (Demo.with_index Demo.ready) "/app/chatbot/vector_db/d0c" ["chroma.sqlite3"]).
  apply lookup_insert_eq.
Defined.

(** X14. [init_llm] sets both handles and nothing else, and for good: no
    later operation of the worker unsets them. *)
Theorem init_llm_is_for_good (E : Env) (ops : list op) (s : State) :
  initialized (run_ops E ops (final (init_llm s))) ∧
  conversation_retrieval_chain (final (init_llm s)) = conversation_retrieval_chain s ∧
  chat_history (final (init_llm s)) = chat_history s ∧
  fs_files (final (init_llm s)) = fs_files s ∧
  fs_dirs (final (init_llm s)) = fs_dirs s.
Proof.
  split; [|done].
  apply (run_ops_keeps E ops (final (init_llm s)) "").
  split; eexists; reflexivity.
Qed.

(** ** The upload route *)

Lemma upload_refused_run E SD files uuid_hex s :
  refused_form files → upload E SD files uuid_hex s = (Returns upload_refused, s, []).
Proof.
  unfold refused_form, upload, catch. intros Href.
  destruct (files !! "file") as [f|]; [|reflexivity].
  destruct Href as [Hname|Hext].
  - rewrite Hname. reflexivity.
  - destruct (nonempty (or_empty (filename f))); [|reflexivity].
    cbv beta iota zeta delta [negb].
    destruct (String.eqb_spec (lower (splitext (or_empty (filename f))).2) ".pdf");
      [done|reflexivity].
Qed.

Lemma upload_accepted_run E SD files uuid_hex s f :
  accepted_file files f →
  upload E SD files uuid_hex s =
  match process_document E (save_path_of SD uuid_hex) (Some (Sha256.hexdigest (stream f)))
                         (after_save SD uuid_hex f s) with
  | (Returns _, s', c) => (Returns upload_done, s', c)
  | (Raises _, s', c) => (Returns upload_failed, s', c)
  | (Diverges, s', c) => (Diverges, s', c)
  end.
Proof.
  intros (Hfile & Hname & Hext). unfold upload, catch. rewrite Hfile.
  destruct (nonempty (or_empty (filename f))) eqn:Hn;
    [|by apply nonempty_false in Hn].
  cbv beta iota zeta delta [negb]. rewrite Hext, String.eqb_refl. cbv beta iota.
  fold (save_path_of SD uuid_hex).
  unfold mbind at 1, M_bind at 1, bind at 1, modify at 1. cbv beta iota.
  fold (after_save SD uuid_hex f s).
  unfold mbind at 1, M_bind at 1, bind at 1.
  rewrite (sha256_file_run _ _ (stream f)); [|apply lookup_insert_eq].
  unfold mbind, M_bind, bind.
  destruct (process_document _ _ _ _) as [[[status|e|] s'] c]; simpl;
    by rewrite ?app_nil_r.
Qed.

Lemma form_cases files : refused_form files ∨ ∃ f, accepted_file files f.
Proof.
  unfold refused_form, accepted_file.
  destruct (files !! "file") as [f|]; [|by left].
  destruct (decide (or_empty (filename f) = "")) as [|Hname]; [left; by left|].
  destruct (decide (lower (splitext (or_empty (filename f))).2 = ".pdf")) as [Hext|Hext].
  - right. by exists f.
  - left. by right.
Qed.

Lemma process_document_comes_back E document_path doc_id s :
  result (process_document E document_path doc_id s) ≠ Diverges.
Proof.
  rewrite process_document_run.
  destruct (embeddings s) as [emb|]; [|discriminate].
  destruct (llm_hub s) as [hub|]; [|discriminate].
  cbv zeta.
  assert (Hb : ∀ pd s1, result (build_index E document_path pd emb hub s1) ≠ Diverges).
  { intros pd s1. rewrite build_index_run. cbv zeta.
    destruct (fs_files s1 !! document_path) as [data|]; [|discriminate].
    destruct (fitz_parse E data) as [pdf|]; [|discriminate].
    destruct (_ =? 0); [discriminate|].
    destruct pd as [d0|]; [destruct (makedirs_error d0 _)|];
    try destruct (embed_documents _ _ _); discriminate. }
  destruct (persist_dir_of E doc_id) as [d|]; [|apply Hb].
  destruct (_ && _); [discriminate|apply Hb].
Qed.

(** X15. An upload is refused with status 400 exactly when the form has
    no file, the file has no name, or the extension of the name is not
    [.pdf] (in any case); and a refused upload leaves no trace: nothing
    is saved, hashed or processed, and the state is as it was. *)
Theorem upload_refusal_leaves_no_trace
    (E : Env) (SERVER_DIR : string) (files : gmap string FileStorage) (uuid_hex : string)
    (s : State) :
  (refused_form files ↔
   result (upload E SERVER_DIR files uuid_hex s) = Returns upload_refused) ∧
  (refused_form files ↔
   upload E SERVER_DIR files uuid_hex s = (Returns upload_refused, s, [])).
Proof.
  assert (Hacc : ∀ f, accepted_file files f →
            result (upload E SERVER_DIR files uuid_hex s) ≠ Returns upload_refused).
  { intros f Hf. rewrite (upload_accepted_run _ _ _ _ _ f Hf).
    destruct (process_document _ _ _ _) as [[[status|e|] s'] c]; discriminate. }
  assert (Hnot : ∀ f, accepted_file files f → ¬ refused_form files).
  { intros f (Hfile & Hname & Hext). unfold refused_form. rewrite Hfile. tauto. }
  split; split.
  - intros Href. by rewrite upload_refused_run.
  - intros Hres. destruct (form_cases files) as [|[f Hf]]; [done|].
    by apply Hacc in Hf.
  - apply upload_refused_run.
  - intros Hrun. destruct (form_cases files) as [|[f Hf]]; [done|].
    apply Hacc in Hf. rewrite Hrun in Hf. by destruct Hf.
Qed.

(** X16. Every upload is answered with one of three fixed bodies:
    refusal (400), success (200), or the apology (500); whatever went
    wrong inside, nothing of it is in the reply. *)
Theorem upload_replies_are_fixed
    (E : Env) (SERVER_DIR : string) (files : gmap string FileStorage) (uuid_hex : string)
    (s : State) :
  result (upload E SERVER_DIR files uuid_hex s) = Returns upload_refused ∨
  result (upload E SERVER_DIR files uuid_hex s) = Returns upload_done ∨
  result (upload E SERVER_DIR files uuid_hex s) = Returns upload_failed.
Proof.
  destruct (form_cases files) as [Href|[f Hf]].
  - left. by rewrite upload_refused_run.
  - right. rewrite (upload_accepted_run _ _ _ _ _ f Hf).
    pose proof (process_document_comes_back E (save_path_of SERVER_DIR uuid_hex)
                  (Some (Sha256.hexdigest (stream f)))
                  (after_save SERVER_DIR uuid_hex f s)) as Hback.
    destruct (process_document _ _ _ _) as [[[status|e|] s'] c]; auto.
    by destruct Hback.
Qed.

(** X17. After an upload answered 200: the bytes sent are on disk under
    the upload folder, named by the drawn identifier and not by the
    client; the handles were set; a chain is set; and the conversation
    log is empty. *)
Theorem upload_success_postcondition
    (E : Env) (SERVER_DIR : string) (files : gmap string FileStorage) (uuid_hex : string)
    (s : State) :
  result (upload E SERVER_DIR files uuid_hex s) = Returns upload_done →
  ∃ f, accepted_file files f ∧
       fs_files (final (upload E SERVER_DIR files uuid_hex s))
         !! path_join (path_join SERVER_DIR "uploads") (uuid_hex +:+ ".pdf")
         = Some (stream f) ∧
       initialized s ∧
       is_Some (conversation_retrieval_chain (final (upload E SERVER_DIR files uuid_hex s))) ∧
       chat_history (final (upload E SERVER_DIR files uuid_hex s)) = [].
Proof.
  destruct (form_cases files) as [Href|[f Hf]].
  { rewrite upload_refused_run; [discriminate|done]. }
  rewrite (upload_accepted_run _ _ _ _ _ f Hf). intros Hdone. exists f. split; [done|].
  set (p := save_path_of SERVER_DIR uuid_hex) in *.
  set (s1 := after_save SERVER_DIR uuid_hex f s) in *.
  set (i := Some (Sha256.hexdigest (stream f))) in *.
  assert (Hsaved : fs_files s1 !! p = Some (stream f)) by apply lookup_insert_eq.
  pose proof (process_document_run E p i s1) as Hrun.
  destruct (embeddings s1) as [emb|] eqn:Hemb;
    [|rewrite Hrun in Hdone; discriminate].
  destruct (llm_hub s1) as [hub|] eqn:Hhub;
    [|rewrite Hrun in Hdone; discriminate].
  assert (Hinit : initialized s) by (split; eauto).
  cbv zeta in Hrun. clearbody s1.
  assert (Hb : ∀ pd r,
    r = build_index E p pd emb hub (set_chat_history [] s1) →
    result r ≠ Raises zoom_error → (∀ e, result r = Raises e → False) →
    fs_files (final r) !! p = Some (stream f) ∧
    is_Some (conversation_retrieval_chain (final r)) ∧ chat_history (final r) = []).
  { intros pd r -> _ Hnoraise. revert Hnoraise. rewrite build_index_run. cbv zeta.
    change (fs_files (set_chat_history [] s1)) with (fs_files s1). rewrite Hsaved.
    destruct (fitz_parse E (stream f)) as [pdf|]; [|intros H; by destruct (H _ eq_refl)].
    destruct (_ =? 0); [intros H; by destruct (H _ eq_refl)|].
    destruct pd as [d|]; [destruct (makedirs_error d _)|];
      try destruct (embed_documents _ _ _);
      try (intros H; by destruct (H _ eq_refl)); intros _; unfold final; simpl.
    - split; [unfold after_makedirs; by destruct (isdir _ _)|]. split; [eauto|].
      by destruct (after_makedirs_globals d (set_chat_history [] s1)) as (-> & _).
    - split; [done|]. split; [eauto|done]. }
  assert (Hgoal : ∀ r, r = process_document E p i s1 →
    (∀ e, result r = Raises e → False) →
    fs_files (final r) !! p = Some (stream f) ∧
    is_Some (conversation_retrieval_chain (final r)) ∧ chat_history (final r) = []).
  { intros r -> Hnoraise. rewrite Hrun in Hnoraise |- *.
    destruct (persist_dir_of E i) as [d|].
    - destruct (_ && _).
      + unfold final; simpl. split; [done|]. split; [eauto|done].
      + apply (Hb (Some d) _ eq_refl); [|done]. intros H. by apply Hnoraise in H.
    - apply (Hb None _ eq_refl); [|done]. intros H. by apply Hnoraise in H. }
  specialize (Hgoal _ eq_refl).
  destruct (process_document E p i s1) as [[[status|e|] s'] c]; try discriminate.
  destruct Hgoal as (? & ? & ?); [discriminate|]. done.
Qed.

Lemma upload_success_postcondition_witness :
  ∃ f, accepted_file (form "Invoice.PDF" (bytes_of_string "%PDF text")) f ∧
       fs_files (final (upload (Demo.env None None) "/app"
                          (form "Invoice.PDF" (bytes_of_string "%PDF text")) "0f3a"
                          Demo.ready))
         !! path_join (path_join "/app" "uploads") ("0f3a" +:+ ".pdf")
         = Some (stream f) ∧
       initialized Demo.ready ∧
       is_Some (conversation_retrieval_chain
                  (final (upload (Demo.env None None) "/app"
                            (form "Invoice.PDF" (bytes_of_string "%PDF text")) "0f3a"
                            Demo.ready))) ∧
       chat_history (final (upload (Demo.env None None) "/app"
                              (form "Invoice.PDF" (bytes_of_string "%PDF text")) "0f3a"
                              Demo.ready)) = [].
Proof.
  apply (upload_success_postcondition (Demo.env None None) "/app"
           (form "Invoice.PDF" (bytes_of_string "%PDF text")) "0f3a" Demo.ready).
  vm_compute. reflexivity.
Defined.

(** Names the handler accepts and refuses. *)
Example upload_names :
  let refused name :=
    result (upload (Demo.env None None) "/app" (form name (bytes_of_string "%PDF text"))
              "0f3a" Demo.ready) = Returns upload_refused in
  let done name :=
    result (upload (Demo.env None None) "/app" (form name (bytes_of_string "%PDF text"))
              "0f3a" Demo.ready) = Returns upload_done in
  done "invoice.pdf" ∧ done "Invoice.PDF" ∧ done "a.b.Pdf" ∧ done "dir/..x.pdf" ∧
  refused "" ∧ refused "invoice" ∧ refused ".pdf" ∧ refused "invoice.pdf.exe" ∧
  refused "invoice.pdf/" ∧ refused "invoice.docx" ∧ refused "..pdf".
Proof. cbv zeta. repeat split; vm_compute; reflexivity. Qed.

Lemma after_save_keeps SD uuid_hex f s d :
  (initialized s → initialized (after_save SD uuid_hex f s)) ∧
  (dir_nonempty d s → dir_nonempty d (after_save SD uuid_hex f s)).
Proof. done. Qed.

Lemma upload_keeps E SD files uuid_hex s d :
  (initialized s → initialized (final (upload E SD files uuid_hex s))) ∧
  (dir_nonempty d s → dir_nonempty d (final (upload E SD files uuid_hex s))).
Proof.
  destruct (form_cases files) as [Href|[f Hf]].
  { by rewrite upload_refused_run. }
  rewrite (upload_accepted_run _ _ _ _ _ f Hf).
  pose proof (process_document_keeps E (save_path_of SD uuid_hex)
                (Some (Sha256.hexdigest (stream f))) (after_save SD uuid_hex f s) d) as Hk.
  cbv zeta in Hk.
  destruct (process_document _ _ _ _) as [[[status|e|] s'] c]; exact Hk.
Qed.

Lemma chat_keeps E body s d :
  (initialized s → initialized (final (chat E body s))) ∧
  (dir_nonempty d s → dir_nonempty d (final (chat E body s))).
Proof.
  rewrite chat_run.
  destruct (py_get _ _) as [message|]; [|done].
  destruct (str_strip _) as [prompt|]; [|done].
  destruct (nonempty prompt); [|done].
  pose proof (process_prompt_keeps E (Some prompt) s d) as Hk. cbv zeta in Hk.
  destruct (process_prompt _ _ _) as [[[answer|e|] s'] c]; exact Hk.
Qed.

Lemma serve_keeps E SD requests : ∀ s d,
  (initialized s → initialized (serve E SD requests s)) ∧
  (dir_nonempty d s → dir_nonempty d (serve E SD requests s)).
Proof.
  induction requests as [|r rest IH]; intros s d; [done|].
  unfold serve in *. simpl.
  destruct (IH (handle E SD r s) d) as [Hi Hd].
  assert (Hr : (initialized s → initialized (handle E SD r s)) ∧
               (dir_nonempty d s → dir_nonempty d (handle E SD r s))).
  { destruct r; simpl; [apply upload_keeps|apply chat_keeps]. }
  destruct Hr. split; auto.
Qed.

Lemma returned_cached_or_indexed E document_path doc_id s status :
  result (process_document E document_path doc_id s) = Returns status →
  status = "cached" ∨ status = "indexed".
Proof.
  rewrite process_document_run.
  destruct (embeddings s) as [emb|]; [|discriminate].
  destruct (llm_hub s) as [hub|]; [|discriminate].
  cbv zeta.
  assert (Hb : ∀ pd s1, result (build_index E document_path pd emb hub s1) = Returns status →
                        status = "cached" ∨ status = "indexed").
  { intros pd s1. rewrite build_index_run. cbv zeta.
    destruct (fs_files s1 !! document_path) as [data|]; [|discriminate].
    destruct (fitz_parse E data) as [pdf|]; [|discriminate].
    destruct (_ =? 0); [discriminate|].
    destruct pd as [d0|]; [destruct (makedirs_error d0 _)|];
    try destruct (embed_documents _ _ _); try discriminate;
      intros [= <-]; by right. }
  destruct (persist_dir_of E doc_id) as [d|]; [|apply Hb].
  destruct (_ && _); [intros [= <-]; by left|apply Hb].
Qed.

Lemma hexdigest_given data : given (Some (Sha256.hexdigest data)) = true.
Proof.
  unfold given. simpl or_empty.
  assert (Hlen : String.length (Sha256.hexdigest data) = 64%nat).
  { unfold Sha256.hexdigest. by rewrite hex_of_bytes_length, digest_length. }
  by destruct (Sha256.hexdigest data).
Qed.

Lemma returned_leaves_index E document_path data s status :
  (∀ emb chunks files, embed_documents E emb chunks = Ok files → files ≠ []) →
  result (process_document E document_path (Some (Sha256.hexdigest data)) s)
    = Returns status →
  ∃ d, persist_dir_of E (Some (Sha256.hexdigest data)) = Some d ∧
       dir_nonempty d (final (process_document E document_path
                                (Some (Sha256.hexdigest data)) s)).
Proof.
  intros Hstore Hret. apply cached_index_dir.
  destruct (returned_cached_or_indexed _ _ _ _ _ Hret) as [-> | ->].
  - apply cached_iff in Hret as [_ (d & Hd & Hdir)%cached_index_dir].
    apply cached_index_dir. exists d. split; [done|].
    by apply (process_document_keeps E document_path _ s d).
  - apply indexed_leaves_index; [apply hexdigest_given|done|done].
Qed.

(** X18. Uploading the same bytes again is served from the cache.  If
    the vector store keeps at least one file on disk, then after an
    upload answered 200, and whatever requests came in between, an
    upload of the same bytes under any accepted name is answered 200
    having only opened the index persisted under the SHA-256 of the
    bytes: nothing is extracted, split or embedded again. *)
Theorem reupload_of_same_bytes_is_served_from_cache
    (E : Env) (SERVER_DIR : string) (name1 name2 uuid1 uuid2 : string) (data : list byte)
    (requests : list request) (s : State) :
  (∀ emb chunks files, embed_documents E emb chunks = Ok files → files ≠ []) →
  result (upload E SERVER_DIR (form name1 data) uuid1 s) = Returns upload_done →
  name2 ≠ "" →
  lower (splitext name2).2 = ".pdf" →
  upload E SERVER_DIR (form name2 data) uuid2
         (serve E SERVER_DIR requests (final (upload E SERVER_DIR (form name1 data) uuid1 s)))
  = (Returns upload_done,
     final (upload E SERVER_DIR (form name2 data) uuid2
              (serve E SERVER_DIR requests
                 (final (upload E SERVER_DIR (form name1 data) uuid1 s)))),
     [Call_Chroma_open (path_join (VECTOR_DB_DIR E) (Sha256.hexdigest data))]).
Proof.
  intros Hstore Hdone Hname2 Hext2.
  set (f1 := mkFileStorage (Some name1) data).
  set (f2 := mkFileStorage (Some name2) data).
  assert (Hf2 : accepted_file (form name2 data) f2).
  { split; [apply lookup_singleton_eq|]. by split. }
  destruct (form_cases (form name1 data)) as [Href|[f Hf]].
  { rewrite upload_refused_run in Hdone; [discriminate|done]. }
  assert (f = f1) as ->.
  { destruct Hf as [Hlook _]. unfold form in Hlook.
    rewrite lookup_singleton_eq in Hlook. by injection Hlook. }
  set (s1 := final (upload E SERVER_DIR (form name1 data) uuid1 s)) in *.
  assert (Hs1 : initialized s1 ∧
                ∃ d, persist_dir_of E (Some (Sha256.hexdigest data)) = Some d ∧
                     dir_nonempty d s1).
  { subst s1. revert Hdone. rewrite (upload_accepted_run _ _ _ _ _ f1 Hf).
    simpl stream.
    pose proof (returned_leaves_index E (save_path_of SERVER_DIR uuid1) data
                  (after_save SERVER_DIR uuid1 f1 s)) as Hleft.
    pose proof (process_document_returns_initialized E (save_path_of SERVER_DIR uuid1)
                  (Some (Sha256.hexdigest data)) (after_save SERVER_DIR uuid1 f1 s)) as Hini.
    pose proof (process_document_keeps E (save_path_of SERVER_DIR uuid1)
                  (Some (Sha256.hexdigest data)) (after_save SERVER_DIR uuid1 f1 s) "")
      as [Hkeep _].
    destruct (process_document _ _ _ _) as [[[status|e|] s'] c]; try discriminate.
    intros _. split; [apply Hkeep; by apply (Hini status)|by apply (Hleft status)]. }
  destruct Hs1 as [Hinit (d & Hd & Hdir)].
  set (s2 := serve E SERVER_DIR requests s1) in *.
  destruct (serve_keeps E SERVER_DIR requests s1 d) as [Hi Hk].
  destruct (Hi Hinit) as [[hub Hhub] [emb Hemb]].
  rewrite (upload_accepted_run _ _ _ _ _ f2 Hf2). simpl stream.
  rewrite (cache_hit_run E _ _ (after_save SERVER_DIR uuid2 f2 s2) d hub emb);
    [|done|by apply Hk|done|done].
  unfold final; simpl. do 3 f_equal.
  unfold persist_dir_of in Hd. rewrite hexdigest_given in Hd. by injection Hd as <-.
Qed.

Lemma reupload_of_same_bytes_is_served_from_cache_witness :
  upload (Demo.env None (Some "42")) "/app" (form "copy of invoice.PDF"
            (bytes_of_string "%PDF text")) "77e1"
         (serve (Demo.env None (Some "42")) "/app"
            [Req_chat ("{" +:+ Json.q "message" +:+ ": " +:+ Json.q "Total?" +:+ "}");
             Req_upload (form "scan.pdf" (bytes_of_string "%PDF scan")) "a2b4"]
            (final (upload (Demo.env None (Some "42")) "/app"
                      (form "invoice.pdf" (bytes_of_string "%PDF text")) "0f3a"
                      Demo.ready)))
  = (Returns upload_done,
     final (upload (Demo.env None (Some "42")) "/app" (form "copy of invoice.PDF"
                      (bytes_of_string "%PDF text")) "77e1"
              (serve (Demo.env None (Some "42")) "/app"
                 [Req_chat ("{" +:+ Json.q "message" +:+ ": " +:+ Json.q "Total?" +:+ "}");
                  Req_upload (form "scan.pdf" (bytes_of_string "%PDF scan")) "a2b4"]
                 (final (upload (Demo.env None (Some "42")) "/app"
                           (form "invoice.pdf" (bytes_of_string "%PDF text")) "0f3a"
                           Demo.ready)))),
     [Call_Chroma_open (path_join (VECTOR_DB_DIR (Demo.env None (Some "42")))
                          (Sha256.hexdigest (bytes_of_string "%PDF text")))]).
Proof.
  apply (reupload_of_same_bytes_is_served_from_cache (Demo.env None (Some "42")) "/app"
           "invoice.pdf" "copy of invoice.PDF" "0f3a" "77e1"
           (bytes_of_string "%PDF text")).
  - intros emb chunks files [= <-]. discriminate.
  - vm_compute. reflexivity.
  - discriminate.
  - vm_compute. reflexivity.
Defined.

Lemma extract_pages_all_blank pdf_path pdf :
  Forall (fun page => page_text page = "") pdf → extract_pages pdf_path 0 pdf [] = [].
Proof. intros Hblank. by rewrite extract_pages_acc, filter_all_blank. Qed.

Lemma not_cached_test E doc_id s d :
  persist_dir_of E doc_id = Some d → ¬ cached_index E doc_id s →
  isdir d s && bool_decide (listdir d s ≠ []) = false.
Proof.
  intros Hd Hnc. apply not_true_is_false. intros Hc. apply Hnc.
  by apply (cache_test_true E doc_id s d).
Qed.

(** X19. An accepted upload of a PDF none of whose pages has selectable
    text, and whose bytes are not indexed yet, is answered 500 once the
    worker is initialized: the only call made is the extractor, since
    the fallback call raises before its body; the file stays saved and
    the conversation log has been emptied. *)
Theorem upload_of_scanned_pdf_fails
    (E : Env) (SERVER_DIR : string) (files : gmap string FileStorage) (f : FileStorage)
    (uuid_hex : string) (pdf : list Page) (s : State) :
  accepted_file files f →
  initialized s →
  ¬ cached_index E (Some (Sha256.hexdigest (stream f))) s →
  fitz_parse E (stream f) = Some pdf →
  Forall (fun page => page_text page = "") pdf →
  upload E SERVER_DIR files uuid_hex s
  = (Returns upload_failed,
     set_chat_history [] (after_save SERVER_DIR uuid_hex f s),
     [Call_extract_selectable_text_documents (save_path_of SERVER_DIR uuid_hex)]).
Proof.
  intros Hf [[hub Hhub] [emb Hemb]] Hnc Hpdf Hblank.
  rewrite (upload_accepted_run _ _ _ _ _ f Hf), process_document_run.
  change (embeddings (after_save SERVER_DIR uuid_hex f s)) with (embeddings s).
  change (llm_hub (after_save SERVER_DIR uuid_hex f s)) with (llm_hub s).
  rewrite Hemb, Hhub. cbv zeta.
  assert (Hd : persist_dir_of E (Some (Sha256.hexdigest (stream f)))
               = Some (path_join (VECTOR_DB_DIR E) (Sha256.hexdigest (stream f)))).
  { unfold persist_dir_of. by rewrite hexdigest_given. }
  rewrite Hd.
  rewrite (not_cached_test E _ _ _ Hd); [|done].
  rewrite build_index_run. cbv zeta.
  assert (Hsaved : fs_files (set_chat_history [] (after_save SERVER_DIR uuid_hex f s))
                     !! save_path_of SERVER_DIR uuid_hex = Some (stream f))
    by apply lookup_insert_eq.
  rewrite Hsaved, Hpdf, extract_pages_all_blank; [|done]. reflexivity.
Qed.

Lemma upload_of_scanned_pdf_fails_witness :
  upload (Demo.env None None) "/app" (form "scan.pdf" (bytes_of_string "%PDF scan")) "a2b4"
         (Demo.talking Demo.ready)
  = (Returns upload_failed,
     set_chat_history []
       (after_save "/app" "a2b4" (mkFileStorage (Some "scan.pdf") (bytes_of_string "%PDF scan"))
          (Demo.talking Demo.ready)),
     [Call_extract_selectable_text_documents (save_path_of "/app" "a2b4")]).
Proof.
  apply (upload_of_scanned_pdf_fails (Demo.env None None) "/app"
           (form "scan.pdf" (bytes_of_string "%PDF scan"))
           (mkFileStorage (Some "scan.pdf") (bytes_of_string "%PDF scan")) "a2b4"
           [Demo.page ""; Demo.page " "] (Demo.talking Demo.ready)).
  - split; [reflexivity|]. split; [discriminate|vm_compute; reflexivity].
  - split; eexists; reflexivity.
  - intros (d & entries & Hd & Hentries & _).
    vm_compute in Hd. injection Hd as <-. vm_compute in Hentries. discriminate.
  - reflexivity.
  - repeat constructor.
Defined.

(** X20. An accepted upload whose bytes are no PDF, and are not indexed,
    is answered 500 once the worker is initialized; by then the file has
    been saved and the conversation log emptied, while the chain of the
    earlier document stays in place. *)
Theorem upload_of_non_pdf_bytes_fails
    (E : Env) (SERVER_DIR : string) (files : gmap string FileStorage) (f : FileStorage)
    (uuid_hex : string) (s : State) :
  accepted_file files f →
  initialized s →
  ¬ cached_index E (Some (Sha256.hexdigest (stream f))) s →
  fitz_parse E (stream f) = None →
  result (upload E SERVER_DIR files uuid_hex s) = Returns upload_failed ∧
  fs_files (final (upload E SERVER_DIR files uuid_hex s)) !! save_path_of SERVER_DIR uuid_hex
    = Some (stream f) ∧
  chat_history (final (upload E SERVER_DIR files uuid_hex s)) = [] ∧
  conversation_retrieval_chain (final (upload E SERVER_DIR files uuid_hex s))
    = conversation_retrieval_chain s.
Proof.
  intros Hf [[hub Hhub] [emb Hemb]] Hnc Hpdf.
  rewrite (upload_accepted_run _ _ _ _ _ f Hf), process_document_run.
  change (embeddings (after_save SERVER_DIR uuid_hex f s)) with (embeddings s).
  change (llm_hub (after_save SERVER_DIR uuid_hex f s)) with (llm_hub s).
  rewrite Hemb, Hhub. cbv zeta.
  assert (Hd : persist_dir_of E (Some (Sha256.hexdigest (stream f)))
               = Some (path_join (VECTOR_DB_DIR E) (Sha256.hexdigest (stream f)))).
  { unfold persist_dir_of. by rewrite hexdigest_given. }
  rewrite Hd.
  rewrite (not_cached_test E _ _ _ Hd); [|done].
  rewrite build_index_run. cbv zeta.
  assert (Hsaved : fs_files (set_chat_history [] (after_save SERVER_DIR uuid_hex f s))
                     !! save_path_of SERVER_DIR uuid_hex = Some (stream f))
    by apply lookup_insert_eq.
  rewrite Hsaved, Hpdf. unfold result, final; simpl.
  split; [done|]. split; [apply lookup_insert_eq|done].
Qed.

Lemma upload_of_non_pdf_bytes_fails_witness :
  result (upload (Demo.env None None) "/app" (form "notes.pdf" (bytes_of_string "PK docx"))
            "c0de" (Demo.talking Demo.ready)) = Returns upload_failed ∧
  fs_files (final (upload (Demo.env None None) "/app"
                     (form "notes.pdf" (bytes_of_string "PK docx")) "c0de"
                     (Demo.talking Demo.ready))) !! save_path_of "/app" "c0de"
    = Some (stream (mkFileStorage (Some "notes.pdf") (bytes_of_string "PK docx"))) ∧
  chat_history (final (upload (Demo.env None None) "/app"
                         (form "notes.pdf" (bytes_of_string "PK docx")) "c0de"
                         (Demo.talking Demo.ready))) = [] ∧
  conversation_retrieval_chain
    (final (upload (Demo.env None None) "/app"
              (form "notes.pdf" (bytes_of_string "PK docx")) "c0de"
              (Demo.talking Demo.ready)))
    = conversation_retrieval_chain (Demo.talking Demo.ready).
Proof.
  apply (upload_of_non_pdf_bytes_fails (Demo.env None None) "/app"
           (form "notes.pdf" (bytes_of_string "PK docx"))
           (mkFileStorage (Some "notes.pdf") (bytes_of_string "PK docx")) "c0de"
           (Demo.talking Demo.ready)).
  - split; [reflexivity|]. split; [discriminate|vm_compute; reflexivity].
  - split; eexists; reflexivity.
  - intros (d & entries & Hd & Hentries & _).
    vm_compute in Hd. injection Hd as <-. vm_compute in Hentries. discriminate.
  - reflexivity.
Defined.

(** ** The vision fallback as a whole *)

Lemma range_bounds a b : Forall (fun i => a ≤ i < b) (range a b).
Proof.
  unfold range. apply Forall_map, Forall_forall. intros i Hi.
  apply list_elem_of_In, in_seq in Hi. simpl. lia.
Qed.

Lemma image_parts_in_range pdf dpi idxs :
  Forall (fun i => 0 ≤ i < Z.of_nat (length pdf)) idxs →
  ∃ images, image_parts pdf dpi idxs = Ok images.
Proof.
  induction 1 as [|i idxs Hi _ [images IH]]; simpl; [by eexists|].
  unfold page_to_jpeg_data_url.
  destruct (Z.ltb_spec i 0) as [|_]; [lia|].
  destruct (pdf !! Z.to_nat i) as [page|] eqn:Hpage.
  - rewrite IH. by eexists.
  - apply lookup_ge_None in Hpage. lia.
Qed.

Lemma vision_loop_count E hub pdf_path pdf dpi batch_size pages_to_process s :
  1 ≤ batch_size →
  pages_to_process ≤ Z.of_nat (length pdf) →
  (∀ content, ∃ resp, llm_invoke E hub content = Ok resp) →
  ∀ fuel batch_start docs,
    0 ≤ batch_start →
    (Z.to_nat (pages_to_process - batch_start) ≤ fuel)%nat →
    ∃ docs' cs,
      vision_loop E fuel hub pdf_path pdf dpi batch_size pages_to_process batch_start
                  docs s = (Returns docs', s, cs) ∧
      Forall is_llm_call cs ∧
      Z.of_nat (length cs)
        = (Z.max 0 (pages_to_process - batch_start) + batch_size - 1) / batch_size.
Proof.
  intros Hsize Hpages Hllm.
  assert (Hzero : ∀ x, x ≤ 0 → (Z.max 0 x + batch_size - 1) / batch_size = 0).
  { intros x Hx. apply Z.div_small. lia. }
  induction fuel as [|fuel IH]; intros batch_start docs Hstart Hfuel; simpl.
  - destruct (Z.ltb_spec batch_start pages_to_process); [lia|].
    exists docs, []. split; [done|]. split; [constructor|]. simpl. rewrite Hzero; lia.
  - destruct (Z.ltb_spec batch_start pages_to_process) as [Hlt|Hge].
    2: { exists docs, []. split; [done|]. split; [constructor|]. simpl.
         rewrite Hzero; lia. }
    cbv zeta. set (batch_end := Z.min (batch_start + batch_size) pages_to_process).
    destruct (image_parts_in_range pdf dpi (range batch_start batch_end)) as [images Himg].
    { eapply Forall_impl; [apply range_bounds|]. simpl. intros i Hi. lia. }
    destruct (Hllm (TextPart vision_prompt :: images)) as [resp Hresp].
    unfold mbind, M_bind, bind.
    rewrite (vision_batch_run E hub pdf_path pdf dpi batch_start batch_end docs images resp s
               Himg Hresp).
    destruct (IH batch_end
                (store_batch E pdf_path (strip (or_empty resp)) batch_start batch_end docs))
      as (docs' & cs & -> & Hcs & Hcount); [lia|lia|].
    exists docs', (Call_llm_invoke (TextPart vision_prompt :: images) :: cs).
    split; [done|]. split; [by constructor|].
    simpl length. rewrite Nat2Z.inj_succ, Hcount.
    destruct (Z.le_gt_cases (batch_start + batch_size) pages_to_process) as [Hfull|Hlast].
    + replace (Z.max 0 (pages_to_process - batch_end))
        with (pages_to_process - batch_start - batch_size) by lia.
      replace (Z.max 0 (pages_to_process - batch_start) + batch_size - 1)
        with ((pages_to_process - batch_start - batch_size + batch_size - 1)
              + 1 * batch_size) by lia.
      rewrite Z.div_add; lia.
    + rewrite Hzero by lia. change (Z.succ 0) with 1.
      apply (Z.div_unique_pos _ _ 1 (pages_to_process - batch_start - 1)); lia.
Qed.

(** X21. With batches of at least one page, on a file that opens and a
    model that replies to every call, [_vision_ocr_pdf] returns after
    exactly one model call per batch: the number of pages processed,
    that is the smaller of the page count and [max_pages], divided by
    [batch_size] and rounded up.  It changes no state. *)
Theorem vision_makes_one_call_per_batch
    (E : Env) (pdf_path : string) (max_pages dpi batch_size : Z) (s : State)
    (hub : ChatOpenAI) (data : list byte) (pdf : list Page) :
  1 ≤ batch_size →
  llm_hub s = Some hub →
  fs_files s !! pdf_path = Some data →
  fitz_parse E data = Some pdf →
  (∀ content, ∃ resp, llm_invoke E hub content = Ok resp) →
  ∃ docs cs,
    _vision_ocr_pdf E pdf_path max_pages dpi batch_size s
      = (Returns docs, s, Call_vision_ocr_pdf pdf_path :: cs) ∧
    Forall is_llm_call cs ∧
    Z.of_nat (length cs)
      = (Z.max 0 (Z.min (Z.of_nat (length pdf)) max_pages) + batch_size - 1) / batch_size.
Proof.
  intros Hsize Hhub Hfile Hpdf Hllm.
  destruct (vision_loop_count E hub pdf_path pdf dpi batch_size
              (Z.min (Z.of_nat (length pdf)) max_pages) s Hsize ltac:(lia) Hllm
              (Z.to_nat (Z.min (Z.of_nat (length pdf)) max_pages)) 0 [])
    as (docs & cs & Hloop & Hcs & Hcount); [lia|lia|].
  exists docs, cs. split; [|split; [done|]].
  - unfold _vision_ocr_pdf, fitz_open. run. rewrite Hhub, Hfile, Hpdf.
    cbv zeta. rewrite Hloop. reflexivity.
  - rewrite Hcount. by rewrite Z.sub_0_r.
Qed.

Lemma vision_makes_one_call_per_batch_witness :
  ∃ docs cs,
    _vision_ocr_pdf (Demo.env (Some "no text") None) "/app/uploads/a.pdf" 12 140 2
                    Demo.ready
      = (Returns docs, Demo.ready, Call_vision_ocr_pdf "/app/uploads/a.pdf" :: cs) ∧
    Forall is_llm_call cs ∧
    Z.of_nat (length cs)
      = (Z.max 0 (Z.min (Z.of_nat (length [Demo.page " Total: 42 | |net 30 ";
                                            Demo.page "   "; Demo.page "Thanks"])) 12)
         + 2 - 1) / 2.
Proof.
  apply (vision_makes_one_call_per_batch (Demo.env (Some "no text") None)
           "/app/uploads/a.pdf" 12 140 2 Demo.ready
           (mkChatOpenAI "gpt-4o-mini" (LDec 1 (-1)) 512) (bytes_of_string "%PDF text")).
  - lia.
  - reflexivity.
  - reflexivity.
  - reflexivity.
  - intros content. by eexists.
Defined.

Lemma vision_loop_never_advances E hub pdf_path pdf dpi batch_size pages_to_process s :
  batch_size ≤ 0 →
  0 < pages_to_process →
  (∀ content, ∃ resp, llm_invoke E hub content = Ok resp) →
  ∀ fuel batch_start docs,
    batch_start ≤ 0 →
    result (vision_loop E fuel hub pdf_path pdf dpi batch_size pages_to_process
                        batch_start docs s) = Diverges.
Proof.
  intros Hsize Hpages Hllm.
  induction fuel as [|fuel IH]; intros batch_start docs Hstart; simpl.
  - destruct (Z.ltb_spec batch_start pages_to_process); [done|lia].
  - destruct (Z.ltb_spec batch_start pages_to_process); [|lia].
    cbv zeta. set (batch_end := Z.min (batch_start + batch_size) pages_to_process).
    assert (Hrange : range batch_start batch_end = []).
    { unfold range. replace (Z.to_nat (batch_end - batch_start)) with 0%nat by lia.
      reflexivity. }
    destruct (Hllm [TextPart vision_prompt]) as [resp Hresp].
    unfold mbind, M_bind, bind.
    rewrite (vision_batch_run E hub pdf_path pdf dpi batch_start batch_end docs [] resp s);
      [|by rewrite Hrange|done].
    specialize (IH batch_end
                  (store_batch E pdf_path (strip (or_empty resp)) batch_start batch_end docs)).
    destruct (vision_loop _ _ _ _ _ _ _ _ _ _ _) as [[r s2] c2].
    unfold result in *. simpl in *. apply IH. lia.
Qed.

(** X22. With a [batch_size] of zero or less, on a file with at least one
    page to process and a model that replies, the [while] loop never
    advances: [_vision_ocr_pdf] does not come back. *)
Theorem vision_with_nonpositive_batch_size_diverges
    (E : Env) (pdf_path : string) (max_pages dpi batch_size : Z) (s : State)
    (hub : ChatOpenAI) (data : list byte) (pdf : list Page) :
  batch_size ≤ 0 →
  llm_hub s = Some hub →
  fs_files s !! pdf_path = Some data →
  fitz_parse E data = Some pdf →
  0 < Z.min (Z.of_nat (length pdf)) max_pages →
  (∀ content, ∃ resp, llm_invoke E hub content = Ok resp) →
  result (_vision_ocr_pdf E pdf_path max_pages dpi batch_size s) = Diverges.
Proof.
  intros Hsize Hhub Hfile Hpdf Hpages Hllm.
  pose proof (vision_loop_never_advances E hub pdf_path pdf dpi batch_size
                (Z.min (Z.of_nat (length pdf)) max_pages) s Hsize Hpages Hllm
                (Z.to_nat (Z.min (Z.of_nat (length pdf)) max_pages)) 0 [] ltac:(lia))
    as Hloop.
  unfold _vision_ocr_pdf, fitz_open. run. rewrite Hhub, Hfile, Hpdf. cbv zeta.
  destruct (vision_loop _ _ _ _ _ _ _ _ _ _ _) as [[r s2] c2].
  simpl in *. by rewrite Hloop.
Qed.

Lemma vision_with_nonpositive_batch_size_diverges_witness :
  result (_vision_ocr_pdf (Demo.env (Some "no text") None) "/app/uploads/scan.pdf" 20 140 0
            Demo.ready) = Diverges.
Proof.
  apply (vision_with_nonpositive_batch_size_diverges (Demo.env (Some "no text") None)
           "/app/uploads/scan.pdf" 20 140 0 Demo.ready
           (mkChatOpenAI "gpt-4o-mini" (LDec 1 (-1)) 512) (bytes_of_string "%PDF scan")
           [Demo.page ""; Demo.page " "]).
  - lia.
  - reflexivity.
  - reflexivity.
  - reflexivity.
  - reflexivity.
  - intros content. by eexists.
Defined.

Lemma store_pages_made pdf_path pairs : ∀ docs,
  Forall (vision_made pdf_path) docs →
  Forall (vision_made pdf_path) (store_pages pdf_path pairs docs).1.
Proof.
  induction pairs as [|[item idx] rest IH]; intros docs Hdocs; simpl; [done|].
  destruct (item_text item) as [text|e]; [|done].
  apply IH. destruct (nonempty text) eqn:Hn; [|done].
  apply Forall_app. split; [done|]. constructor; [|constructor].
  split; [by apply nonempty_true|]. split; [done|by left].
Qed.

Lemma store_batch_made E pdf_path raw batch_start batch_end docs :
  Forall (vision_made pdf_path) docs →
  Forall (vision_made pdf_path) (store_batch E pdf_path raw batch_start batch_end docs).
Proof.
  intros Hdocs. unfold store_batch.
  assert (Hparse : Forall (vision_made pdf_path)
                     (try_parse E pdf_path raw (range batch_start batch_end) docs).1).
  { unfold try_parse.
    destruct (json_loads E raw) as [data|]; [|done].
    destruct (py_get data "pages") as [pages|]; [|done].
    destruct (py_iter _) as [items|]; [|done].
    by apply store_pages_made. }
  destruct (try_parse _ _ _ _ _) as [docs' [e|]]; [|done].
  destruct (nonempty raw) eqn:Hn; [|done].
  apply Forall_app. split; [done|]. constructor; [|constructor].
  split; [by apply nonempty_true|]. split; [done|by right].
Qed.

Lemma vision_loop_made E hub pdf_path pdf dpi batch_size pages_to_process :
  ∀ fuel batch_start docs s docs',
    Forall (vision_made pdf_path) docs →
    result (vision_loop E fuel hub pdf_path pdf dpi batch_size pages_to_process
                        batch_start docs s) = Returns docs' →
    Forall (vision_made pdf_path) docs'.
Proof.
  induction fuel as [|fuel IH]; intros batch_start docs s docs' Hdocs; simpl.
  - destruct (_ <? _); [discriminate|]. by intros [= <-].
  - destruct (_ <? _); [|by intros [= <-]].
    cbv zeta. unfold mbind, M_bind, bind. unfold vision_batch.
    destruct (image_parts _ _ _) as [images|e]; [|discriminate].
    run. cbv beta iota zeta.
    destruct (llm_invoke E hub _) as [resp|e]; [|discriminate].
    cbv beta iota zeta.
    specialize (IH (Z.min (batch_start + batch_size) pages_to_process)
                  (store_batch E pdf_path (strip (or_empty resp)) batch_start
                     (Z.min (batch_start + batch_size) pages_to_process) docs) s docs').
    destruct (vision_loop _ _ _ _ _ _ _ _ _ _ _) as [[r s2] c2].
    simpl in *. intros Hr. apply IH; [by apply store_batch_made|done].
Qed.

(** X23. Every document [_vision_ocr_pdf] returns has non-empty content,
    carries the path as [source], and is tagged [ocr = "vision"] (text
    of a page) or [ocr = "vision_raw"] (an unparsed reply). *)
Theorem vision_documents_are_tagged_and_nonempty
    (E : Env) (pdf_path : string) (max_pages dpi batch_size : Z) (s : State)
    (docs : list Document) :
  result (_vision_ocr_pdf E pdf_path max_pages dpi batch_size s) = Returns docs →
  Forall (vision_made pdf_path) docs.
Proof.
  unfold _vision_ocr_pdf, fitz_open. run.
  destruct (llm_hub s) as [hub|]; [|discriminate].
  destruct (fs_files s !! pdf_path) as [data|]; [|discriminate].
  destruct (fitz_parse E data) as [pdf|]; [|discriminate].
  cbv beta iota zeta.
  pose proof (vision_loop_made E hub pdf_path pdf dpi batch_size
                (Z.min (Z.of_nat (length pdf)) max_pages)
                (Z.to_nat (Z.min (Z.of_nat (length pdf)) max_pages)) 0 [] s docs) as Hloop.
  destruct (vision_loop _ _ _ _ _ _ _ _ _ _ _) as [[r s2] c2].
  simpl in *. intros Hr. apply Hloop; [constructor|done].
Qed.

Lemma vision_documents_are_tagged_and_nonempty_witness :
  Forall (vision_made "/app/uploads/scan.pdf")
    [vision_raw_doc "I cannot read this." 0 2 "/app/uploads/scan.pdf"].
Proof.
  apply (vision_documents_are_tagged_and_nonempty
           (Demo.env (Some " I cannot read this. ") None) "/app/uploads/scan.pdf" 20 140 3
           Demo.ready).
  vm_compute. reflexivity.
Defined.

Lemma vision_ocr_pdf_ends_witness :
  result (_vision_ocr_pdf Outage.env "/app/uploads/scan.pdf" 20 140 3 Demo.ready)
  ≠ Diverges.
Proof.
  apply (vision_ocr_pdf_ends Outage.env "/app/uploads/scan.pdf" 20 140 3 Demo.ready).
  lia.
Defined.

(** ** Page numbers and sources *)

Lemma kept_pages_sorted pdf : ∀ i,
  let kept := map (fun ip : Z * Page => ip.1 + 1)
                  (List.filter (fun ip => nonempty (page_text ip.2)) (enumerate i pdf)) in
  StronglySorted Z.lt kept ∧ Forall (fun p => i + 1 ≤ p ≤ i + Z.of_nat (length pdf)) kept.
Proof.
  induction pdf as [|page rest IH]; intros i; cbv zeta; simpl.
  - split; constructor.
  - destruct (IH (i + 1)) as [Hsorted Hrange]. cbv zeta in Hsorted, Hrange.
    assert (Hrange' : Forall (fun p => i + 1 ≤ p ≤ i + Z.of_nat (S (length rest)))
              (map (fun ip : Z * Page => ip.1 + 1)
                 (List.filter (fun ip => nonempty (page_text ip.2))
                    (enumerate (i + 1) rest)))).
    { eapply Forall_impl; [exact Hrange|]. simpl. intros p Hp. lia. }
    destruct (nonempty (page_text page)); simpl; [|done].
    split.
    + constructor; [done|]. eapply Forall_impl; [exact Hrange|]. simpl. intros p Hp. lia.
    + constructor; [lia|done].
Qed.

(** X24. The documents the extractor returns carry exactly the keys
    [page] and [source]; their page numbers are strictly increasing and
    lie between 1 and the number of pages; their source is the path. *)
Theorem extracted_documents_are_in_page_order
    (E : Env) (s : State) (pdf_path : string) (data : list byte) (pdf : list Page)
    (docs : list Document) :
  fs_files s !! pdf_path = Some data →
  fitz_parse E data = Some pdf →
  result (_extract_selectable_text_documents E pdf_path s) = Returns docs →
  ∃ pages,
    map metadata docs = map (page_tag pdf_path) pages ∧
    StronglySorted Z.lt pages ∧
    Forall (fun p => 1 ≤ p ≤ Z.of_nat (length pdf)) pages.
Proof.
  intros Hfile Hpdf. rewrite extract_run, Hfile, Hpdf. intros [= <-].
  rewrite extract_pages_acc. simpl app.
  exists (map (fun ip : Z * Page => ip.1 + 1)
            (List.filter (fun ip => nonempty (page_text ip.2)) (enumerate 0 pdf))).
  split; [by rewrite !map_map|].
  apply (kept_pages_sorted pdf 0).
Qed.

Lemma extracted_documents_are_in_page_order_witness :
  ∃ pages,
    map metadata [selectable_doc "Total: 42 | |net 30" 1 "/app/uploads/a.pdf";
                  selectable_doc "Thanks" 3 "/app/uploads/a.pdf"]
      = map (page_tag "/app/uploads/a.pdf") pages ∧
    StronglySorted Z.lt pages ∧
    Forall (fun p => 1 ≤ p ≤ Z.of_nat (length [Demo.page " Total: 42 | |net 30 ";
                                                Demo.page "   "; Demo.page "Thanks"]))
           pages.
Proof.
  apply (extracted_documents_are_in_page_order (Demo.env None None) Demo.ready
           "/app/uploads/a.pdf" (bytes_of_string "%PDF text")); reflexivity.
Defined.

Lemma extract_pages_tagged pdf_path pdf d :
  In d (extract_pages pdf_path 0 pdf []) →
  ∃ p, 1 ≤ p ≤ Z.of_nat (length pdf) ∧ metadata d = page_tag pdf_path p.
Proof.
  rewrite extract_pages_acc. simpl app. intros Hd.
  apply in_map_iff in Hd as ([p page] & <- & Hin). simpl.
  destruct (kept_pages_sorted pdf 0) as [_ Hrange]. cbv zeta in Hrange.
  rewrite Forall_forall in Hrange.
  exists (p + 1). split; [|done].
  assert (Hp : p + 1 ∈ map (fun ip : Z * Page => ip.1 + 1)
                 (List.filter (fun ip => nonempty (page_text ip.2)) (enumerate 0 pdf))).
  { apply list_elem_of_In, in_map_iff. by exists (p, page). }
  apply Hrange in Hp. lia.
Qed.

(** X25. Every chunk handed to the index construction carries the
    metadata of the page it was cut from: the keys [page] and [source]
    only, with a page number of the document and the path processed. *)
Theorem indexed_chunks_keep_page_and_source
    (E : Env) (s : State) (document_path : string) (doc_id : option string)
    (chunks : list Document) (persist_directory : option string) :
  In (Call_Chroma_from_documents chunks persist_directory)
     (calls (process_document E document_path doc_id s)) →
  Forall (fun c => ∃ p, 1 ≤ p ∧ metadata c = page_tag document_path p) chunks.
Proof.
  rewrite process_document_run.
  destruct (embeddings s) as [emb|]; [|simpl; tauto].
  destruct (llm_hub s) as [hub|]; [|simpl; tauto].
  cbv zeta.
  assert (Hb : ∀ pd,
    In (Call_Chroma_from_documents chunks persist_directory)
       (calls (build_index E document_path pd emb hub (set_chat_history [] s))) →
    Forall (fun c => ∃ p, 1 ≤ p ∧ metadata c = page_tag document_path p) chunks).
  { intros pd. rewrite build_index_run. cbv zeta.
    destruct (fs_files _ !! document_path) as [data|];
      [|simpl; intros [?|[]]; discriminate].
    destruct (fitz_parse E data) as [pdf|]; [|simpl; intros [?|[]]; discriminate].
    destruct (_ =? 0); [simpl; intros [?|[]]; discriminate|].
    intros Hin.
    assert (Hchunks : chunks = chunks_of E (extract_pages document_path 0 pdf [])).
    { destruct pd as [d0|]; [destruct (makedirs_error d0 _)|];
        try destruct (embed_documents _ _ _); simpl in Hin;
        repeat (destruct Hin as [Heq|Hin]; [try discriminate; by injection Heq|]); done. }
    subst chunks. apply Forall_forall. intros c Hc.
    apply list_elem_of_filter in Hc as [_ Hc].
    apply list_elem_of_In, in_flat_map in Hc as (d & Hd & Hc).
    unfold split_one in Hc. apply in_map_iff in Hc as (piece & <- & _). simpl.
    destruct (extract_pages_tagged _ _ _ Hd) as (p & Hp & Htag).
    exists p. split; [lia|done]. }
  destruct (persist_dir_of E doc_id) as [d|]; [|apply Hb].
  destruct (_ && _); [|apply Hb].
  simpl. intros [?|[]]; discriminate.
Qed.

Lemma indexed_chunks_keep_page_and_source_witness :
  Forall (fun c => ∃ p, 1 ≤ p ∧ metadata c = page_tag "/app/uploads/a.pdf" p)
    [mkDocument "Total: 42 " (page_tag "/app/uploads/a.pdf" 1);
     mkDocument "net 30" (page_tag "/app/uploads/a.pdf" 1);
     mkDocument "Thanks" (page_tag "/app/uploads/a.pdf" 3)].
Proof.
  apply (indexed_chunks_keep_page_and_source (Demo.env None None) Demo.ready
           "/app/uploads/a.pdf" (Some "d0c") _ (Some "/app/chatbot/vector_db/d0c")).
  vm_compute. do 2 right. left. reflexivity.
Defined.

(** ** The fingerprint, block by block *)

(** X26. [sha256_file] returns the SHA-256 of the whole content of an
    existing file, for a file of any length, the empty one included, and
    raises [FileNotFoundError] for a missing one; it changes nothing.
    Its loop feeds the hash the bytes of the file in order whatever the
    positive block size. *)
Theorem sha256_file_hashes_the_whole_file (path : string) (s : State) :
  sha256_file path s
  = match fs_files s !! path with
    | Some data => (Returns (Sha256.hexdigest data), s, [])
    | None => (Raises (FileNotFoundError path), s, [])
    end ∧
  ∀ size f h, 0 < size → update_chunks (length f) size f h s = (Returns (h ++ f), s, []).
Proof.
  split.
  - destruct (fs_files s !! path) as [data|] eqn:Hfile.
    + by apply sha256_file_run.
    + unfold sha256_file. run. by rewrite Hfile.
  - intros size f h Hsize. by apply update_chunks_run.
Qed.

Example sha256_of_empty_file :
  result (sha256_file "/tmp/empty" (set_fs_files {[ "/tmp/empty" := [] ]} Demo.fresh))
  = Returns "e3b0c44298fc1c149afbf4c8996fb92427ae41e4649b934ca495991b7852b855".
Proof. vm_compute. reflexivity. Qed.
